(** * The Portainer API client ([src/client.ts]): a shallow embedding

    The development follows the TypeScript source of [PortainerClient]:
    the JavaScript values and exceptions the client manipulates, the
    [Buffer] operations used by the log demultiplexer, the request
    primitive with its [try]/[catch], the write gate and the operations
    built on top of them.

    Conventions.
    - A JavaScript string is represented by the UTF-8 encoding of its
      characters, as a Rocq [string]; a surrogate that has no partner is
      encoded like a character, in three bytes ([ED], then [A0..AF] for a
      high surrogate or [B0..BF] for a low one, then one more), which is
      what tells [encodeURIComponent] to throw.  Concatenation and
      emptiness tests agree with the JavaScript ones on strings without
      lone surrogates.
    - A JavaScript number that the client uses as an identifier, a count or
      an HTTP status is an integer, modelled in [Z] and printed in decimal,
      as the language prints an integer below [10 ^ 21]; the numbers of a
      JSON value are integers too.
    - An [async] method is a computation that returns or throws: [await]
      is sequencing and a rejected promise is a thrown exception.  What is
      thrown is an [Error] object.
    - The remote service decides how a call of [fetch] ends; the firing
      of the timer that [request] arms shows as a call that ends with an
      [AbortError].
    - What the JavaScript run time provides and the repository does not
      define ([Buffer.prototype.toString], [JSON.parse], [JSON.stringify])
      is an interface, [Runtime]; the theorems hold for every
      implementation of it, and one implementation is given to evaluate the
      client on concrete inputs. *)

From Equations Require Import Equations.
From Equations.Prop Require Import Logic.
From Stdlib Require Import ZArith List String Ascii Bool Lia DecimalString.
From Stdlib Require Import Strings.Byte.
Import ListNotations.

Set Warnings "-register-all".

Local Open Scope string_scope.
Local Open Scope Z_scope.

(** ** Exceptions and completions *)

(** The two kinds of exception objects the client distinguishes with
    [instanceof]: its own [PortainerClientError] (message, code, optional
    status code) and every other [Error] (a [name] and a [message]):
    [TypeError], [SyntaxError], [RangeError], the [AbortError] of an
    aborted [fetch]. *)
Inductive JsError : Type :=
| PortainerClientError (message code : string) (statusCode : option Z)
| NativeError (name message : string).

(** A call either returns a value or throws. *)
Inductive Completion (A : Type) : Type :=
| Return (a : A)
| Throw (e : JsError).
Arguments Return {A} a.
Arguments Throw {A} e.

Definition is_classified (e : JsError) : bool :=
  match e with
  | PortainerClientError _ _ _ => true
  | NativeError _ _ => false
  end.

Definition error_code (e : JsError) : option string :=
  match e with
  | PortainerClientError _ code _ => Some code
  | NativeError _ _ => None
  end.

Definition error_message (e : JsError) : string :=
  match e with
  | PortainerClientError message _ _ => message
  | NativeError _ message => message
  end.

Definition error_status (e : JsError) : option Z :=
  match e with
  | PortainerClientError _ _ statusCode => statusCode
  | NativeError _ _ => None
  end.

(** ** Buffers *)

Module Buffer.

Definition t : Type := list byte.

Definition byte_val (b : byte) : Z := Z.of_N (Byte.to_N b).

(** [buffer.length] *)
Definition length (buffer : t) : Z := Z.of_nat (List.length buffer).

(** [buffer[i]]: [undefined] ([None]) outside the buffer. *)
Definition get (buffer : t) (i : Z) : option Z :=
  if (0 <=? i) && (i <? length buffer)
  then option_map byte_val (nth_error buffer (Z.to_nat i))
  else None.

(** [buffer.readUInt32BE(offset)]: the run time checks the offset and
    throws a [RangeError] when four bytes are not available there. *)
Definition readUInt32BE (buffer : t) (offset : Z) : Completion Z :=
  match get buffer offset, get buffer (offset + 1),
        get buffer (offset + 2), get buffer (offset + 3) with
  | Some first, Some b1, Some b2, Some last =>
      Return (first * 2 ^ 24 + b1 * 2 ^ 16 + b2 * 2 ^ 8 + last)
  | _, _, _, _ =>
      Throw (NativeError "RangeError" "The value of 'offset' is out of range.")
  end.

(** Index normalisation of [subarray]: a negative index counts from the
    end, and the result is kept inside [0 .. len]. *)
Definition clamp_index (len i : Z) : Z :=
  if i <? 0 then Z.max (len + i) 0 else Z.min i len.

(** [buffer.subarray(start, end)] *)
Definition subarray (buffer : t) (start end_ : Z) : t :=
  let len := length buffer in
  let s := clamp_index len start in
  let e := clamp_index len end_ in
  firstn (Z.to_nat (e - s)) (skipn (Z.to_nat s) buffer).

(** [buffer.subarray(start)]: [end] defaults to the length. *)
Definition subarray_from (buffer : t) (start : Z) : t :=
  subarray buffer start (length buffer).

End Buffer.

(** ** JavaScript values *)

(** The values that [JSON.parse] produces and that the client builds as
    request bodies, with [undefined] for an absent property. *)
Inductive JsValue : Type :=
| JUndefined
| JNull
| JBool (b : bool)
| JNumber (n : Z)
| JString (s : string)
| JArray (elements : list JsValue)
| JObject (properties : list (string * JsValue)).

(** ** Operations of the language on values and strings *)

(** Truthiness, as tested by [if (v)], [!v] and [||]. *)
Definition truthy (v : JsValue) : bool :=
  match v with
  | JUndefined | JNull => false
  | JBool b => b
  | JNumber n => negb (n =? 0)
  | JString s => negb (s =? "")%string
  | JArray _ | JObject _ => true
  end.

Fixpoint lookup (key : string) (properties : list (string * JsValue)) : JsValue :=
  match properties with
  | [] => JUndefined
  | (k, v) :: rest => if (k =? key)%string then v else lookup key rest
  end.

Definition has_property (key : string) (properties : list (string * JsValue)) : bool :=
  existsb (fun kv => (fst kv =? key)%string) properties.

(** [v.key], for a key that the built-in prototypes do not define (the
    client reads [message], [details] and [Name]): the own property of an
    object, [undefined] on any other value, and a [TypeError] on [null] and
    [undefined]. *)
Definition get_property (v : JsValue) (key : string) : Completion JsValue :=
  match v with
  | JUndefined =>
      Throw (NativeError "TypeError"
               ("Cannot read properties of undefined (reading '" ++ key ++ "')"))
  | JNull =>
      Throw (NativeError "TypeError"
               ("Cannot read properties of null (reading '" ++ key ++ "')"))
  | JObject properties => Return (lookup key properties)
  | _ => Return JUndefined
  end.

(** [x > y] for an element read from a buffer: the comparison is false
    when the element is [undefined]. *)
Definition greater_than (x : option Z) (y : Z) : bool :=
  match x with
  | Some v => v >? y
  | None => false
  end.

(** [a === b] when [b] is a string. *)
Definition strict_equals_string (a : JsValue) (b : string) : bool :=
  match a with
  | JString s => (s =? b)%string
  | _ => false
  end.

(** A number in a template literal. *)
Definition Number_toString (n : Z) : string :=
  DecimalString.NilZero.string_of_int (Z.to_int n).

Definition cannot_convert : JsError :=
  NativeError "TypeError" "Cannot convert object to primitive value".

(** [Array.prototype.join(",")] over elements already converted. *)
Fixpoint join_completions (parts : list (Completion string)) : Completion string :=
  match parts with
  | [] => Return ""
  | Throw e :: _ => Throw e
  | Return s :: rest =>
      match join_completions rest with
      | Throw e => Throw e
      | Return r => Return (match rest with [] => s | _ => s ++ "," ++ r end)
      end
  end.

(** The conversion to a string that the [Error] constructor applies to its
    argument.  An object converts through [Object.prototype.toString]
    unless it has a property [toString] of its own, which in a value read
    from JSON is not a function: the conversion then throws.  An array
    converts through [join]. *)
Fixpoint ToString (v : JsValue) : Completion string :=
  match v with
  | JUndefined => Return "undefined"
  | JNull => Return "null"
  | JBool true => Return "true"
  | JBool false => Return "false"
  | JNumber n => Return (Number_toString n)
  | JString s => Return s
  | JArray elements =>
      join_completions
        (map (fun e => match e with
                       | JUndefined | JNull => Return ""
                       | _ => ToString e
                       end) elements)
  | JObject properties =>
      if has_property "toString" properties then Throw cannot_convert
      else Return "[object Object]"
  end.

(** [`${error}`] for an exception object: [Error.prototype.toString]. *)
Definition Error_toString (e : JsError) : string :=
  let name := match e with
              | PortainerClientError _ _ _ => "PortainerClientError"
              | NativeError name _ => name
              end in
  let msg := error_message e in
  if (name =? "")%string then msg
  else if (msg =? "")%string then name
  else name ++ ": " ++ msg.

(** [s.replace(/\/$/, "")]: one trailing slash removed. *)
Fixpoint strip_trailing_slash (s : string) : string :=
  match s with
  | EmptyString => EmptyString
  | String c EmptyString => if (c =? "/")%char then EmptyString else s
  | String c rest => String c (strip_trailing_slash rest)
  end.

(** [s.split(":")] *)
Fixpoint split_colon (s : string) : list string :=
  match s with
  | EmptyString => [EmptyString]
  | String c rest =>
      if (c =? ":")%char then EmptyString :: split_colon rest
      else match split_colon rest with
           | [] => [String c EmptyString]
           | first :: others => String c first :: others
           end
  end.

Definition hex_digit (n : N) : ascii :=
  ascii_of_N (if (n <? 10)%N then 48 + n else 55 + n).

(** The characters that [encodeURIComponent] leaves as they are. *)
Definition uri_unreserved (c : ascii) : bool :=
  let n := N_of_ascii c in
  ((65 <=? n) && (n <=? 90) || (97 <=? n) && (n <=? 122)
   || (48 <=? n) && (n <=? 57))%N
  || existsb (Ascii.eqb c) (list_ascii_of_string "-_.!~*'()").

(** The [URIError] of [encodeURIComponent]. *)
Definition uri_malformed : JsError := NativeError "URIError" "URI malformed".

(** The escape of one byte. *)
Definition percent (n : N) : string :=
  String "%" (String (hex_digit (n / 16)) (String (hex_digit (n mod 16)) EmptyString)).

(** The second byte of the three that stand for a surrogate: [A0..AF] for
    a high surrogate, [B0..BF] for a low one. *)
Definition is_high (b : N) : bool := ((160 <=? b) && (b <=? 175))%N.

Definition is_low (b : N) : bool := ((176 <=? b) && (b <=? 191))%N.

(** The escapes of the four bytes of the character that a surrogate pair
    stands for, from the last two bytes of each surrogate. *)
Definition percent_pair (h2 h3 l2 l3 : N) : string :=
  let cp := (65536 + ((h2 - 160) * 64 + h3 mod 64) * 1024
             + ((l2 - 176) * 64 + l3 mod 64))%N in
  percent (240 + cp / 262144) ++ percent (128 + (cp / 4096) mod 64)
  ++ percent (128 + (cp / 64) mod 64) ++ percent (128 + cp mod 64).

Definition prepend (first : string) (rest : Completion string) : Completion string :=
  match rest with
  | Return s => Return (first ++ s)
  | Throw e => Throw e
  end.

(** [encodeURIComponent(s)]: an unreserved character is kept and every
    other byte of the UTF-8 encoding is escaped.  A surrogate without its
    partner makes the call throw a [URIError]; a high surrogate followed by
    a low one, as a concatenation can bring them together, is escaped as
    the character the pair stands for. *)
Fixpoint encodeURIComponent (s : string) : Completion string :=
  match s with
  | EmptyString => Return EmptyString
  | String c rest =>
      let n := N_of_ascii c in
      if uri_unreserved c then prepend (String c EmptyString) (encodeURIComponent rest)
      else if (n =? 237)%N then
        match rest with
        | String h2 (String h3 after) =>
            if is_high (N_of_ascii h2) then
              match after with
              | String l1 (String l2 (String l3 after')) =>
                  if (N_of_ascii l1 =? 237)%N && is_low (N_of_ascii l2) then
                    prepend (percent_pair (N_of_ascii h2) (N_of_ascii h3)
                               (N_of_ascii l2) (N_of_ascii l3))
                      (encodeURIComponent after')
                  else Throw uri_malformed
              | _ => Throw uri_malformed
              end
            else if is_low (N_of_ascii h2) then Throw uri_malformed
            else prepend (percent n) (encodeURIComponent rest)
        | _ => prepend (percent n) (encodeURIComponent rest)
        end
      else prepend (percent n) (encodeURIComponent rest)
  end.

(** A parameter with a default value. *)
Definition default {A : Type} (d : A) (arg : option A) : A :=
  match arg with Some a => a | None => d end.


(** ** The run-time interface *)

Class Runtime : Type := {
  (** [buffer.toString("utf8")] *)
  Buffer_toString_utf8 : Buffer.t -> string;
  (** [JSON.parse(text)]: a value, or a thrown [SyntaxError] *)
  JSON_parse : string -> Completion JsValue;
  (** [JSON.stringify(value)]: a text, or [undefined] *)
  JSON_stringify : JsValue -> option string
}.

(** ** The log demultiplexer, [stripDockerLogHeaders] *)

(** How one execution of the body of the [while] loop ends: at the end of
    the body or at [continue], with the new values of [offset] and
    [chunks]; at [break]; or with an exception. *)
Inductive Iteration : Type :=
| Continue (offset : Z) (chunks : list string)
| Break (chunks : list string)
| Abrupt (e : JsError).

Section Demultiplexer.

Context {RT : Runtime}.

(** The body of the loop, lines 206-218, from the values of [offset] and
    [chunks] at its start. *)
Definition loop_body (buffer : Buffer.t) (offset : Z) (chunks : list string)
  : Iteration :=
  match Buffer.readUInt32BE buffer (offset + 4) with
  | Throw e => Abrupt e
  | Return size =>
      let offset := offset + 8 in
      if size =? 0 then Continue offset chunks
      else if offset + size >? Buffer.length buffer then
        Break (chunks ++ [Buffer_toString_utf8 (Buffer.subarray_from buffer offset)])%list
      else
        Continue (offset + size)
          (chunks ++ [Buffer_toString_utf8
                        (Buffer.subarray buffer offset (offset + size))])%list
  end.

Local Notation "x 'eqn:' p" := (exist _ x p) (only parsing, at level 20).

(** The loop [while (offset + 8 <= buffer.length) { ... }], by recursion
    on the number of bytes left after [offset]. *)
Equations? while_loop (buffer : Buffer.t) (offset : Z) (chunks : list string)
  : Completion (list string)
  by wf (Z.to_nat (Buffer.length buffer - offset)) lt :=
  while_loop buffer offset chunks with inspect (offset + 8 <=? Buffer.length buffer) => {
    | false eqn: _ => Return chunks
    | true eqn: Htest with inspect (loop_body buffer offset chunks) => {
        | Continue offset' chunks' eqn: Hbody => while_loop buffer offset' chunks'
        | Break chunks' eqn: _ => Return chunks'
        | Abrupt e eqn: _ => Throw e } }.
Proof.
  (* the body advanced [offset] by the header at least: the size read is
     a sum of bytes, hence not negative *)
  apply Z.leb_le in Htest.
  enough (offset + 8 <= offset') by lia.
  revert Hbody. unfold loop_body, Buffer.readUInt32BE, Buffer.get.
  repeat match goal with
         | |- context [if ?c then _ else _] => destruct c; cbn
         | |- context [nth_error ?l ?n] => destruct (nth_error l n); cbn
         end;
    try discriminate; intros [= <- _]; unfold Buffer.byte_val in *; lia.
Qed.

(** [stripDockerLogHeaders(buffer)] *)
Definition stripDockerLogHeaders (buffer : Buffer.t) : Completion string :=
  if Buffer.length buffer =? 0 then Return ""
  else
    let firstByte := Buffer.get buffer 0 in
    if greater_than firstByte 2 then Return (Buffer_toString_utf8 buffer)
    else
      match while_loop buffer 0 [] with
      | Return chunks => Return (String.concat "" chunks)
      | Throw e => Throw e
      end.

End Demultiplexer.

(** ** The world: timers and the network *)

(** The second argument of [fetch]; [signal] names the timer whose firing
    aborts the call. *)
Record FetchInit : Type := {
  method : string;
  headers : list (string * string);
  body : option string;
  signal : Z
}.

(** What a call does to the world, in the order it does it. *)
Inductive Event : Type :=
| EvSetTimeout (id ms : Z)
| EvClearTimeout (id : Z)
| EvFetch (url : string) (init : FetchInit).

Definition World : Type := list Event.

Definition is_fetch (ev : Event) : bool :=
  match ev with EvFetch _ _ => true | _ => false end.

Definition is_setTimeout (ev : Event) : bool :=
  match ev with EvSetTimeout _ _ => true | _ => false end.

(** The network calls issued so far. *)
Definition fetch_calls (w : World) : list Event := filter is_fetch w.

(** A response as the client reads it: the flag [ok], the status, and the
    two ways of reading the body, each of which may fail. *)
Record Response : Type := {
  response_ok : bool;
  response_status : Z;
  response_text : Completion string;
  response_arrayBuffer : Completion Buffer.t
}.

(** A response of the [fetch] API has [ok] exactly for a status in
    200..299. *)
Definition response_wf (r : Response) : Prop :=
  response_ok r = (200 <=? response_status r) && (response_status r <=? 299).

(** The remote service and the network in front of it: what [fetch]
    resolves to, or the exception it rejects with ([AbortError] when the
    timer fired first). *)
Definition Remote : Type := string -> FetchInit -> Completion Response.

(** A computation of the client: it reads and extends the world, and
    returns or throws. *)
Definition Action (A : Type) : Type := World -> Completion A * World.

Definition ret {A : Type} (a : A) : Action A := fun w => (Return a, w).

Definition throw {A : Type} (e : JsError) : Action A := fun w => (Throw e, w).

Definition lift {A : Type} (c : Completion A) : Action A := fun w => (c, w).

Definition bind {A B : Type} (m : Action A) (k : A -> Action B) : Action B :=
  fun w =>
    match m w with
    | (Return a, w') => k a w'
    | (Throw e, w') => (Throw e, w')
    end.

(** [try { body } catch (error) { handler }] *)
Definition try_catch {A : Type} (body : Action A) (handler : JsError -> Action A)
  : Action A :=
  fun w =>
    match body w with
    | (Return a, w') => (Return a, w')
    | (Throw e, w') => handler e w'
    end.

Declare Scope action_scope.
Delimit Scope action_scope with action.
Bind Scope action_scope with Action.
Notation "x <- m ;; k" := (bind m (fun x => k))
  (at level 61, m at next level, right associativity) : action_scope.
Notation "m ;;; k" := (bind m (fun _ => k))
  (at level 61, right associativity) : action_scope.

(** The identifier that the next timer gets. *)
Definition next_timer (w : World) : Z :=
  Z.of_nat (List.length (filter is_setTimeout w)).

Definition setTimeout (ms : Z) : Action Z :=
  fun w => (Return (next_timer w), (w ++ [EvSetTimeout (next_timer w) ms])%list).

Definition clearTimeout (id : Z) : Action unit :=
  fun w => (Return tt, (w ++ [EvClearTimeout id])%list).

Definition fetch (remote : Remote) (url : string) (init : FetchInit) : Action Response :=
  fun w => (remote url init, (w ++ [EvFetch url init])%list).

(** ** The client *)

Record PortainerClient : Type := {
  baseUrl : string;
  apiKey : string;
  writeEnabled : bool
}.

(** [new PortainerClient(baseUrl, apiKey, writeEnabled = false)] *)
Definition new_PortainerClient (baseUrl apiKey : string) (writeEnabled : option bool)
  : PortainerClient :=
  {| baseUrl := strip_trailing_slash baseUrl;
     apiKey := apiKey;
     writeEnabled := default false writeEnabled |}.

(** [new PortainerClientError(message, code, statusCode)]: the constructor
    of [Error] converts the message to a string. *)
Definition new_PortainerClientError (message : JsValue) (code : string)
  (statusCode : option Z) : Completion JsError :=
  match ToString message with
  | Return msg => Return (PortainerClientError msg code statusCode)
  | Throw e => Throw e
  end.

Inductive ContainerAction : Type :=
| ActionStart | ActionStop | ActionRestart | ActionKill | ActionRemove.

Definition ContainerAction_string (action : ContainerAction) : string :=
  match action with
  | ActionStart => "start"
  | ActionStop => "stop"
  | ActionRestart => "restart"
  | ActionKill => "kill"
  | ActionRemove => "remove"
  end.

Inductive StackAction : Type := StackStart | StackStop.

Definition StackAction_string (action : StackAction) : string :=
  match action with
  | StackStart => "start"
  | StackStop => "stop"
  end.

(** An element of the [env] arrays, [{ name, value }]. *)
Definition EnvVar : Type := (string * string)%type.

Definition env_value (env : list EnvVar) : JsValue :=
  JArray (map (fun nv => JObject [("name", JString (fst nv));
                                  ("value", JString (snd nv))]) env).

(** The [options] argument of [updateStack]. *)
Record UpdateOptions : Type := {
  composeContent : option string;
  env : option (list EnvVar);
  prune : option bool;
  pullImage_option : option bool
}.

Section Client.

Context {RT : Runtime}.

(** The remote service the calls go to, and the receiver, [this]. *)
Variable remote : Remote.
Variable this : PortainerClient.

Local Open Scope action_scope.

(** The choice of the message of an HTTP error, lines 65-80. *)
Definition error_message_of (status : Z) (path errorBody : string) : Action JsValue :=
  let message := JString ("Portainer API error: " ++ Number_toString status) in
  if status =? 401 then ret (JString "Invalid API key or expired token")
  else if status =? 403 then ret (JString "Insufficient permissions for this operation")
  else if status =? 404 then ret (JString ("Resource not found: " ++ path))
  else
    try_catch
      (parsed <- lift (JSON_parse errorBody) ;;
       m <- lift (get_property parsed "message") ;;
       if truthy m then ret m
       else
         d <- lift (get_property parsed "details") ;;
         if truthy d then ret d else ret message)
      (fun _ => ret message).

(** The address that [request] calls, line 46. *)
Definition request_url (path : string) : string :=
  baseUrl this ++ "/api" ++ path.

(** The options that [request] passes to [fetch], lines 52-58. *)
Definition request_init (method : string) (body : JsValue) (timeoutId : Z)
  : FetchInit :=
  {| method := method;
     headers := [("X-API-Key", apiKey this);
                 ("Content-Type", "application/json")];
     body := if truthy body then JSON_stringify body else None;
     signal := timeoutId |}.

(** [request(method, path, body?, timeout = 30000, raw = false)] *)
Definition request (method path : string) (body : option JsValue)
  (timeout : option Z) (raw : option bool) : Action JsValue :=
  let body := default JUndefined body in
  let timeout := default 30000 timeout in
  let raw := default false raw in
  let url := request_url path in
  timeoutId <- setTimeout timeout ;;
  try_catch
    (response <- fetch remote url (request_init method body timeoutId) ;;
     clearTimeout timeoutId ;;;
     if negb (response_ok response) then
       errorBody <- lift (response_text response) ;;
       message <- error_message_of (response_status response) path errorBody ;;
       error <- lift (new_PortainerClientError message
                        ("HTTP_" ++ Number_toString (response_status response))
                        (Some (response_status response))) ;;
       throw error
     else
       text <- lift (response_text response) ;;
       if (text =? "")%string then ret (JObject [])
       else if raw then ret (JString text)
       else lift (JSON_parse text))
    (fun error =>
       clearTimeout timeoutId ;;;
       match error with
       | PortainerClientError _ _ _ => throw error
       | NativeError name _ =>
           if (name =? "AbortError")%string then
             throw (PortainerClientError
                      ("Request timeout after " ++ Number_toString timeout ++ "ms")
                      "TIMEOUT" None)
           else
             throw (PortainerClientError
                      ("Cannot connect to Portainer at " ++ baseUrl this ++ ": "
                       ++ Error_toString error)
                      "CONNECTION_ERROR" None)
       end).

(** [checkWriteEnabled()] *)
Definition checkWriteEnabled : Action unit :=
  if negb (writeEnabled this) then
    throw (PortainerClientError
             "Write operations disabled. Set PORTAINER_WRITE_ENABLED=true to enable."
             "WRITE_DISABLED" None)
  else ret tt.

(** The address that [getContainerLogs] calls, line 152. *)
Definition logs_url (envId : Z) (containerId : string) (clampedTail : Z) : string :=
  baseUrl this ++ "/api/endpoints/" ++ Number_toString envId
  ++ "/docker/containers/" ++ containerId
  ++ "/logs?stdout=true&stderr=true&tail=" ++ Number_toString clampedTail.

(** The options that [getContainerLogs] passes to [fetch], lines 158-160. *)
Definition logs_init (timeoutId : Z) : FetchInit :=
  {| method := "GET";
     headers := [("X-API-Key", apiKey this)];
     body := None;
     signal := timeoutId |}.

(** [getContainerLogs(envId, containerId, tail = 100)] *)
Definition getContainerLogs (envId : Z) (containerId : string) (tail : option Z)
  : Action string :=
  let tail := default 100 tail in
  let clampedTail := Z.min (Z.max tail 1) 10000 in
  let url := logs_url envId containerId clampedTail in
  timeoutId <- setTimeout 60000 ;;
  try_catch
    (response <- fetch remote url (logs_init timeoutId) ;;
     clearTimeout timeoutId ;;;
     if negb (response_ok response) then
       throw (PortainerClientError
                ("Failed to get logs: " ++ Number_toString (response_status response))
                ("HTTP_" ++ Number_toString (response_status response))
                (Some (response_status response)))
     else
       arrayBuffer <- lift (response_arrayBuffer response) ;;
       lift (stripDockerLogHeaders arrayBuffer))
    (fun error =>
       clearTimeout timeoutId ;;;
       match error with
       | PortainerClientError _ _ _ => throw error
       | NativeError name _ =>
           if (name =? "AbortError")%string then
             throw (PortainerClientError "Request timeout after 60000ms" "TIMEOUT" None)
           else
             throw (PortainerClientError
                      ("Cannot connect to Portainer: " ++ Error_toString error)
                      "CONNECTION_ERROR" None)
       end).

(** [containerAction(envId, containerId, action)] *)
Definition containerAction (envId : Z) (containerId : string)
  (action : ContainerAction) : Action JsValue :=
  checkWriteEnabled ;;;
  match action with
  | ActionRemove =>
      request "DELETE"
        ("/endpoints/" ++ Number_toString envId ++ "/docker/containers/"
         ++ containerId ++ "?force=true") None None None ;;;
      ret JUndefined
  | _ =>
      request "POST"
        ("/endpoints/" ++ Number_toString envId ++ "/docker/containers/"
         ++ containerId ++ "/" ++ ContainerAction_string action) None None None ;;;
      ret JUndefined
  end.

(** [getStacks()] *)
Definition getStacks : Action JsValue :=
  request "GET" "/stacks" None None None.

(** [stackAction(stackId, action)] *)
Definition stackAction (stackId : Z) (action : StackAction) : Action JsValue :=
  checkWriteEnabled ;;;
  request "POST"
    ("/stacks/" ++ Number_toString stackId ++ "/" ++ StackAction_string action)
    None None None ;;;
  ret JUndefined.

(** [createStack(envId, name, composeContent, env?)] *)
Definition createStack (envId : Z) (name composeContent : string)
  (env : option (list EnvVar)) : Action JsValue :=
  checkWriteEnabled ;;;
  let body := [("name", JString name);
               ("stackFileContent", JString composeContent)] in
  let body := match env with
              | Some (e :: es) => (body ++ [("env", env_value (e :: es))])%list
              | _ => body
              end in
  request "POST"
    ("/stacks/create/standalone/string?endpointId=" ++ Number_toString envId)
    (Some (JObject body)) None None.

(** [updateStack(stackId, envId, options)] *)
Definition updateStack (stackId envId : Z) (options : UpdateOptions)
  : Action JsValue :=
  checkWriteEnabled ;;;
  let body := [] in
  let body := match composeContent options with
              | Some c => (body ++ [("stackFileContent", JString c)])%list
              | None => body
              end in
  let body := match env options with
              | Some e => (body ++ [("env", env_value e)])%list
              | None => body
              end in
  let body := match prune options with
              | Some p => (body ++ [("prune", JBool p)])%list
              | None => body
              end in
  let body := match pullImage_option options with
              | Some p => (body ++ [("pullImage", JBool p)])%list
              | None => body
              end in
  request "PUT"
    ("/stacks/" ++ Number_toString stackId ++ "?endpointId=" ++ Number_toString envId)
    (Some (JObject body)) None None.

(** [redeployStack(stackId, envId, pullImage = false)] *)
Definition redeployStack (stackId envId : Z) (pullImage : option bool)
  : Action JsValue :=
  let pullImage := default false pullImage in
  checkWriteEnabled ;;;
  request "PUT"
    ("/stacks/" ++ Number_toString stackId ++ "/git/redeploy?endpointId="
     ++ Number_toString envId)
    (Some (JObject [("pullImage", JBool pullImage)])) None None ;;;
  ret JUndefined.

(** [deleteStack(stackId, envId)] *)
Definition deleteStack (stackId envId : Z) : Action JsValue :=
  checkWriteEnabled ;;;
  request "DELETE"
    ("/stacks/" ++ Number_toString stackId ++ "?endpointId=" ++ Number_toString envId)
    None None None ;;;
  ret JUndefined.

(** [pullImage(envId, image)] *)
Definition pullImage (envId : Z) (image : string) : Action JsValue :=
  checkWriteEnabled ;;;
  let parts := split_colon image in
  let fromImage := nth 0 parts "" in
  let tag := match nth_error parts 1 with Some t => t | None => "latest" end in
  fromImage <- lift (encodeURIComponent fromImage) ;;
  tag <- lift (encodeURIComponent tag) ;;
  request "POST"
    ("/endpoints/" ++ Number_toString envId ++ "/docker/images/create?fromImage="
     ++ fromImage ++ "&tag=" ++ tag)
    None None None ;;;
  ret JUndefined.

(** [removeImage(envId, imageId)] *)
Definition removeImage (envId : Z) (imageId : string) : Action JsValue :=
  checkWriteEnabled ;;;
  imageId <- lift (encodeURIComponent imageId) ;;
  request "DELETE"
    ("/endpoints/" ++ Number_toString envId ++ "/docker/images/"
     ++ imageId ++ "?force=true") None None None ;;;
  ret JUndefined.

(** [createVolume(envId, name)] *)
Definition createVolume (envId : Z) (name : string) : Action JsValue :=
  checkWriteEnabled ;;;
  request "POST"
    ("/endpoints/" ++ Number_toString envId ++ "/docker/volumes/create")
    (Some (JObject [("Name", JString name)])) None None.

(** [removeVolume(envId, name)] *)
Definition removeVolume (envId : Z) (name : string) : Action JsValue :=
  checkWriteEnabled ;;;
  name <- lift (encodeURIComponent name) ;;
  request "DELETE"
    ("/endpoints/" ++ Number_toString envId ++ "/docker/volumes/"
     ++ name) None None None ;;;
  ret JUndefined.

(** [createNetwork(envId, name, subnet?)] *)
Definition createNetwork (envId : Z) (name : string) (subnet : option string)
  : Action JsValue :=
  checkWriteEnabled ;;;
  let body := [("Name", JString name)] in
  let body := match subnet with
              | Some s =>
                  if truthy (JString s) then
                    (body ++ [("IPAM",
                               JObject [("Config",
                                         JArray [JObject [("Subnet", JString s)]])])])%list
                  else body
              | None => body
              end in
  request "POST"
    ("/endpoints/" ++ Number_toString envId ++ "/docker/networks/create")
    (Some (JObject body)) None None.

(** [removeNetwork(envId, networkId)] *)
Definition removeNetwork (envId : Z) (networkId : string) : Action JsValue :=
  checkWriteEnabled ;;;
  request "DELETE"
    ("/endpoints/" ++ Number_toString envId ++ "/docker/networks/" ++ networkId)
    None None None ;;;
  ret JUndefined.

(** [array.find(s => s.Name === name)]: the first element for which the
    callback returns [true], [undefined] when there is none; an exception
    of the callback ends the search. *)
Fixpoint find_by_Name (name : string) (elements : list JsValue) : Completion JsValue :=
  match elements with
  | [] => Return JUndefined
  | s :: rest =>
      match get_property s "Name" with
      | Throw e => Throw e
      | Return n =>
          if strict_equals_string n name then Return s
          else find_by_Name name rest
      end
  end.

(** [getStackByName(name)] *)
Definition getStackByName (name : string) : Action JsValue :=
  stacks <- getStacks ;;
  stack <- lift (match stacks with
                 | JArray elements => find_by_Name name elements
                 | JUndefined =>
                     Throw (NativeError "TypeError"
                              "Cannot read properties of undefined (reading 'find')")
                 | JNull =>
                     Throw (NativeError "TypeError"
                              "Cannot read properties of null (reading 'find')")
                 | _ => Throw (NativeError "TypeError" "stacks.find is not a function")
                 end) ;;
  if negb (truthy stack) then
    throw (PortainerClientError ("Stack not found: " ++ name) "NOT_FOUND" (Some 404))
  else ret stack.

End Client.

(** ** An implementation of the run-time interface *)

Module Node.

(** *** UTF-8 decoding

    [Buffer.prototype.toString("utf8")] decodes with replacement: a
    well-formed sequence gives its character, and every maximal
    ill-formed part gives U+FFFD.  With strings represented by their
    UTF-8 encoding, a well-formed sequence is copied and an ill-formed
    part becomes the three bytes of U+FFFD. *)

Definition replacement : string := string_of_list_byte [xef; xbf; xbd]%byte.

(** A sequence under way: the bytes read so far, the number of
    continuation bytes still needed, and the range allowed for the next
    one. *)
Record Partial : Type := {
  seen : list byte;
  needed : nat;
  lower : Z;
  upper : Z
}.

(** A byte read when no sequence is under way: text to emit, or a
    sequence started. *)
Definition lead (b : byte) : string * option Partial :=
  let v := Buffer.byte_val b in
  if v <=? 127 then (string_of_list_byte [b], None)
  else if (194 <=? v) && (v <=? 223) then
    ("", Some {| seen := [b]; needed := 1; lower := 128; upper := 191 |})
  else if (224 <=? v) && (v <=? 239) then
    ("", Some {| seen := [b]; needed := 2;
                 lower := if v =? 224 then 160 else 128;
                 upper := if v =? 237 then 159 else 191 |})
  else if (240 <=? v) && (v <=? 244) then
    ("", Some {| seen := [b]; needed := 3;
                 lower := if v =? 240 then 144 else 128;
                 upper := if v =? 244 then 143 else 191 |})
  else (replacement, None).

Fixpoint decode (st : option Partial) (bytes : list byte) : string :=
  match bytes with
  | [] => match st with None => "" | Some _ => replacement end
  | b :: rest =>
      match st with
      | None => let (out, st') := lead b in out ++ decode st' rest
      | Some p =>
          let v := Buffer.byte_val b in
          if (lower p <=? v) && (v <=? upper p) then
            match needed p with
            | S (S n) =>
                decode (Some {| seen := (seen p ++ [b])%list; needed := S n;
                                lower := 128; upper := 191 |}) rest
            | _ => string_of_list_byte (seen p ++ [b])%list ++ decode None rest
            end
          else
            let (out, st') := lead b in
            replacement ++ out ++ decode st' rest
      end
  end.

Definition utf8_decode (bytes : list byte) : string := decode None bytes.

(** The sequence under way once [bytes] are read, if any. *)
Fixpoint pending (st : option Partial) (bytes : list byte) : option Partial :=
  match bytes with
  | [] => st
  | b :: rest =>
      match st with
      | None => pending (snd (lead b)) rest
      | Some p =>
          let v := Buffer.byte_val b in
          if (lower p <=? v) && (v <=? upper p) then
            match needed p with
            | S (S n) =>
                pending (Some {| seen := (seen p ++ [b])%list; needed := S n;
                                 lower := 128; upper := 191 |}) rest
            | _ => pending None rest
            end
          else pending (snd (lead b)) rest
      end
  end.

(** The bytes do not stop in the middle of a character. *)
Definition ends_on_boundary (bytes : list byte) : Prop :=
  pending None bytes = None.

(** *** JSON

    A parser and a printer for JSON texts whose numbers are integer
    literals: a fraction or an exponent is refused, as the values have
    integers only.  The text of the [SyntaxError] is the engine's own and
    is not modelled, one text stands for all; the members of an object
    keep the order of the text, where the engine puts the keys that are
    array indices first.  The parser works on the character codes of the
    text.  This implementation serves to evaluate the client on concrete
    inputs; the theorems are stated for every [Runtime]. *)

Definition syntax_error : JsError :=
  NativeError "SyntaxError" "Unexpected token in JSON".

Definition codes (text : string) : list N :=
  map N_of_ascii (list_ascii_of_string text).

Definition is_ws (c : N) : bool := existsb (N.eqb c) [32; 9; 10; 13]%N.

Fixpoint skip_ws (cs : list N) : list N :=
  match cs with
  | c :: rest => if is_ws c then skip_ws rest else cs
  | [] => []
  end.

Definition digit_of (c : N) : option Z :=
  if ((48 <=? c) && (c <=? 57))%N then Some (Z.of_N c - 48) else None.

Definition hex_of (c : N) : option N :=
  if ((48 <=? c) && (c <=? 57))%N then Some (c - 48)%N
  else if ((65 <=? c) && (c <=? 70))%N then Some (c - 55)%N
  else if ((97 <=? c) && (c <=? 102))%N then Some (c - 87)%N
  else None.

Definition hex4 (a b c d : N) : option N :=
  match hex_of a, hex_of b, hex_of c, hex_of d with
  | Some x, Some y, Some z, Some w => Some (((x * 16 + y) * 16 + z) * 16 + w)%N
  | _, _, _, _ => None
  end.

(** The UTF-8 encoding of a code point. *)
Definition utf8_encode (cp : N) : string :=
  string_of_list_ascii
    (map ascii_of_N
       (if cp <? 128 then [cp]
        else if cp <? 2048 then [192 + cp / 64; 128 + cp mod 64]
        else if cp <? 65536 then
          [224 + cp / 4096; 128 + (cp / 64) mod 64; 128 + cp mod 64]
        else
          [240 + cp / 262144; 128 + (cp / 4096) mod 64;
           128 + (cp / 64) mod 64; 128 + cp mod 64])%N).

(** The character that a backslash followed by [e] stands for. *)
Definition escaped (e : N) : option N :=
  match e with
  | 34 => Some 34    (* quote *)
  | 92 => Some 92    (* backslash *)
  | 47 => Some 47    (* slash *)
  | 98 => Some 8     (* b *)
  | 102 => Some 12   (* f *)
  | 110 => Some 10   (* n *)
  | 114 => Some 13   (* r *)
  | 116 => Some 9    (* t *)
  | _ => None
  end%N.

(** The characters of a string literal after its opening quote (code
    34); code 92 is the backslash and code 117 the [u] of a [\u] escape,
    two of which make one character when they are a surrogate pair. *)
Fixpoint parse_chars (cs : list N) : option (string * list N) :=
  match cs with
  | [] => None
  | 34%N :: rest => Some ("", rest)
  | 92%N :: 117%N :: a :: b :: c :: d :: rest =>
      match hex4 a b c d with
      | None => None
      | Some hi =>
          let single :=
            match parse_chars rest with
            | Some (s, rest') => Some (utf8_encode hi ++ s, rest')
            | None => None
            end in
          if ((55296 <=? hi) && (hi <=? 56319))%N then
            match rest with
            | 92%N :: 117%N :: a' :: b' :: c' :: d' :: rest2 =>
                match hex4 a' b' c' d' with
                | Some lo =>
                    if ((56320 <=? lo) && (lo <=? 57343))%N then
                      match parse_chars rest2 with
                      | Some (s, rest') =>
                          Some (utf8_encode
                                  (65536 + (hi - 55296) * 1024 + (lo - 56320))%N
                                ++ s, rest')
                      | None => None
                      end
                    else single
                | None => single
                end
            | _ => single
            end
          else single
      end
  | 92%N :: e :: rest =>
      match escaped e, parse_chars rest with
      | Some n, Some (s, rest') => Some (String (ascii_of_N n) s, rest')
      | _, _ => None
      end
  | c :: rest =>
      if (c <? 32)%N then None
      else match parse_chars rest with
           | Some (s, rest') => Some (String (ascii_of_N c) s, rest')
           | None => None
           end
  end.

Fixpoint parse_digits (acc : Z) (cs : list N) : Z * list N :=
  match cs with
  | c :: rest =>
      match digit_of c with
      | Some d => parse_digits (acc * 10 + d) rest
      | None => (acc, cs)
      end
  | [] => (acc, [])
  end.

(** An integer literal: [0], or a non-zero digit followed by digits. *)
Definition parse_int (cs : list N) : option (Z * list N) :=
  match cs with
  | c :: rest =>
      match digit_of c with
      | Some 0 => Some (0, rest)
      | Some d => Some (parse_digits d rest)
      | None => None
      end
  | [] => None
  end.

(** A fraction or an exponent after an integer literal is not an integer
    literal. *)
Definition integer_ends (rest : list N) : bool :=
  match rest with
  | c :: _ => negb (existsb (N.eqb c) (codes ".eE"))
  | [] => true
  end.

(** [obj[key] = v] on the list of properties. *)
Fixpoint set_property (key : string) (v : JsValue)
  (properties : list (string * JsValue)) : list (string * JsValue) :=
  match properties with
  | [] => [(key, v)]
  | (k, old) :: rest =>
      if (k =? key)%string then (k, v) :: rest
      else (k, old) :: set_property key v rest
  end.

Definition starts_with (word : string) (cs : list N) : option (list N) :=
  let w := codes word in
  if list_eq_dec N.eq_dec (firstn (List.length w) cs) w
  then Some (skipn (List.length w) cs) else None.

(** A value at the head of [cs] (white space skipped by the caller), the
    elements of an array after a first one, and the members of an object.
    The codes are 91 and 93 for the brackets, 123 and 125 for the braces,
    44 for the comma, 58 for the colon and 45 for the minus sign.
    [fuel] bounds the number of calls. *)
Fixpoint parse_value (fuel : nat) (cs : list N) : option (JsValue * list N) :=
  match fuel with
  | O => None
  | S fuel =>
      match cs with
      | 91%N :: rest =>
          match skip_ws rest with
          | 93%N :: rest' => Some (JArray [], rest')
          | rest' =>
              match parse_value fuel rest' with
              | Some (v, rest'') => parse_elements fuel [v] (skip_ws rest'')
              | None => None
              end
          end
      | 123%N :: rest =>
          match skip_ws rest with
          | 125%N :: rest' => Some (JObject [], rest')
          | rest' => parse_members fuel [] rest'
          end
      | 34%N :: rest =>
          match parse_chars rest with
          | Some (s, rest') => Some (JString s, rest')
          | None => None
          end
      | 45%N :: rest =>
          match parse_int rest with
          | Some (n, rest') =>
              if integer_ends rest' then Some (JNumber (- n), rest') else None
          | None => None
          end
      | _ =>
          match starts_with "true" cs, starts_with "false" cs,
                starts_with "null" cs with
          | Some rest, _, _ => Some (JBool true, rest)
          | _, Some rest, _ => Some (JBool false, rest)
          | _, _, Some rest => Some (JNull, rest)
          | _, _, _ =>
              match parse_int cs with
              | Some (n, rest') =>
                  if integer_ends rest' then Some (JNumber n, rest') else None
              | None => None
              end
          end
      end
  end
with parse_elements (fuel : nat) (acc : list JsValue) (cs : list N)
  : option (JsValue * list N) :=
  match fuel with
  | O => None
  | S fuel =>
      match cs with
      | 93%N :: rest => Some (JArray acc, rest)
      | 44%N :: rest =>
          match parse_value fuel (skip_ws rest) with
          | Some (v, rest') => parse_elements fuel (acc ++ [v])%list (skip_ws rest')
          | None => None
          end
      | _ => None
      end
  end
with parse_members (fuel : nat) (acc : list (string * JsValue)) (cs : list N)
  : option (JsValue * list N) :=
  match fuel with
  | O => None
  | S fuel =>
      match cs with
      | 34%N :: rest =>
          match parse_chars rest with
          | Some (key, rest1) =>
              match skip_ws rest1 with
              | 58%N :: rest2 =>
                  match parse_value fuel (skip_ws rest2) with
                  | Some (v, rest3) =>
                      let acc := set_property key v acc in
                      match skip_ws rest3 with
                      | 125%N :: rest4 => Some (JObject acc, rest4)
                      | 44%N :: rest4 => parse_members fuel acc (skip_ws rest4)
                      | _ => None
                      end
                  | None => None
                  end
              | _ => None
              end
          | None => None
          end
      | _ => None
      end
  end.

Definition parse (text : string) : Completion JsValue :=
  let cs := codes text in
  match parse_value (2 * List.length cs + 2) (skip_ws cs) with
  | Some (v, rest) =>
      match skip_ws rest with
      | [] => Return v
      | _ => Throw syntax_error
      end
  | None => Throw syntax_error
  end.

Definition hex4_of (n : N) : string :=
  string_of_list_ascii
    (map (fun d => ascii_of_N (if (d <? 10)%N then 48 + d else 87 + d))
       [(n / 4096) mod 16; (n / 256) mod 16; (n / 16) mod 16; n mod 16]%N).

(** The quotation mark. *)
Definition quotation : string := String (ascii_of_N 34) EmptyString.

Fixpoint quote_chars (s : string) : string :=
  match s with
  | EmptyString => quotation
  | String c rest =>
      let n := N_of_ascii c in
      (if (n =? 34)%N then "\" ++ quotation
       else if (n =? 92)%N then "\\"
       else if (n =? 8)%N then "\b"
       else if (n =? 12)%N then "\f"
       else if (n =? 10)%N then "\n"
       else if (n =? 13)%N then "\r"
       else if (n =? 9)%N then "\t"
       else if (n <? 32)%N then "\u" ++ hex4_of n
       else String c EmptyString) ++ quote_chars rest
  end.

Definition quote (s : string) : string := quotation ++ quote_chars s.

(** [JSON.stringify]: [undefined] at the top has no text, as an element
    it prints as [null], and as a property it is left out. *)
Fixpoint print (v : JsValue) : string :=
  match v with
  | JUndefined | JNull => "null"
  | JBool true => "true"
  | JBool false => "false"
  | JNumber n => Number_toString n
  | JString s => quote s
  | JArray elements => "[" ++ String.concat "," (map print elements) ++ "]"
  | JObject properties =>
      "{" ++ String.concat ","
               ((fix members (ps : list (string * JsValue)) : list string :=
                   match ps with
                   | [] => []
                   | (k, x) :: rest =>
                       match x with
                       | JUndefined => members rest
                       | _ => (quote k ++ ":" ++ print x) :: members rest
                       end
                   end) properties) ++ "}"
  end.

Definition stringify (v : JsValue) : option string :=
  match v with
  | JUndefined => None
  | _ => Some (print v)
  end.

Definition runtime : Runtime := {|
  Buffer_toString_utf8 := utf8_decode;
  JSON_parse := parse;
  JSON_stringify := stringify
|}.

End Node.

(** ** The wire format of the log stream *)

(** A frame of the multiplexed stream: the tag of its stream, three bytes
    of padding, and the payload, whose length the header carries in four
    bytes, big-endian. *)
Record Frame : Type := {
  streamType : byte;
  padding : byte * byte * byte;
  payload : list byte
}.

Definition byte_of (z : Z) : byte :=
  match Byte.of_N (Z.to_N (z mod 256)) with
  | Some b => b
  | None => x00
  end.

(** The four bytes of an unsigned 32-bit size, most significant first. *)
Definition UInt32BE (n : Z) : list byte :=
  [byte_of (n / 2 ^ 24); byte_of (n / 2 ^ 16); byte_of (n / 2 ^ 8); byte_of n].

(** The eight bytes of a header. *)
Definition header_bytes (tag : byte) (pad : byte * byte * byte) (size : Z) : list byte :=
  let '(p1, p2, p3) := pad in
  (tag :: p1 :: p2 :: p3 :: UInt32BE size)%list.

Definition frame_bytes (f : Frame) : list byte :=
  (header_bytes (streamType f) (padding f) (Buffer.length (payload f))
   ++ payload f)%list.

(** The bytes of a sequence of complete frames, in wire order. *)
Definition wire (frames : list Frame) : list byte :=
  List.concat (map frame_bytes frames).

(** A payload fits the size field of its header. *)
Definition frame_wf (f : Frame) : Prop := Buffer.length (payload f) < 2 ^ 32.

Definition nonempty (bytes : list byte) : bool :=
  match bytes with [] => false | _ => true end.

(** The payloads that carry text: a frame of size zero has none. *)
Definition payloads (frames : list Frame) : list (list byte) :=
  filter nonempty (map payload frames).

(** The first byte of a buffer, when it has one, is a stream tag. *)
Definition first_byte_at_most_2 (buffer : Buffer.t) : Prop :=
  match buffer with
  | [] => True
  | b :: _ => Buffer.byte_val b <= 2
  end.

(** The texts of the payloads, each decoded on its own. *)
Definition decoded {RT : Runtime} (frames : list Frame) : list string :=
  map Buffer_toString_utf8 (payloads frames).

(** ** The statements of the specification *)

(** [s.includes(part)] *)
Fixpoint includes (s part : string) : bool :=
  prefix part s
  || match s with
     | EmptyString => false
     | String _ rest => includes rest part
     end.

(** [clamp(x, lo, hi)]: values below [lo] become [lo], values above [hi]
    become [hi], the others are unchanged. *)
Definition clamp (x lo hi : Z) : Z :=
  if x <? lo then lo else if hi <? x then hi else x.

(** The mutating operations of the client, each with its arguments. *)
Inductive MutatingCall : Type :=
| ContainerActionCall (envId : Z) (containerId : string) (action : ContainerAction)
| StackActionCall (stackId : Z) (action : StackAction)
| CreateStackCall (envId : Z) (name composeContent : string) (env : option (list EnvVar))
| UpdateStackCall (stackId envId : Z) (options : UpdateOptions)
| RedeployStackCall (stackId envId : Z) (pullImage : option bool)
| DeleteStackCall (stackId envId : Z)
| PullImageCall (envId : Z) (image : string)
| RemoveImageCall (envId : Z) (imageId : string)
| CreateVolumeCall (envId : Z) (name : string)
| RemoveVolumeCall (envId : Z) (name : string)
| CreateNetworkCall (envId : Z) (name : string) (subnet : option string)
| RemoveNetworkCall (envId : Z) (networkId : string).

Definition perform {RT : Runtime} (remote : Remote) (this : PortainerClient)
  (call : MutatingCall) : Action JsValue :=
  match call with
  | ContainerActionCall envId containerId action =>
      containerAction remote this envId containerId action
  | StackActionCall stackId action => stackAction remote this stackId action
  | CreateStackCall envId name composeContent env =>
      createStack remote this envId name composeContent env
  | UpdateStackCall stackId envId options => updateStack remote this stackId envId options
  | RedeployStackCall stackId envId pullImage =>
      redeployStack remote this stackId envId pullImage
  | DeleteStackCall stackId envId => deleteStack remote this stackId envId
  | PullImageCall envId image => pullImage remote this envId image
  | RemoveImageCall envId imageId => removeImage remote this envId imageId
  | CreateVolumeCall envId name => createVolume remote this envId name
  | RemoveVolumeCall envId name => removeVolume remote this envId name
  | CreateNetworkCall envId name subnet => createNetwork remote this envId name subnet
  | RemoveNetworkCall envId networkId => removeNetwork remote this envId networkId
  end.

(** The error of the closed write gate. *)
Definition write_disabled : JsError :=
  PortainerClientError
    "Write operations disabled. Set PORTAINER_WRITE_ENABLED=true to enable."
    "WRITE_DISABLED" None.

(** The message of an HTTP error as the specification words it: a fixed
    text for 401, 403 and 404; otherwise the [message] field of the body,
    else its [details] field, else a generic text. *)
Definition spec_error_message {RT : Runtime} (status : Z) (path errorBody : string)
  : JsValue :=
  let generic := JString ("Portainer API error: " ++ Number_toString status) in
  if status =? 401 then JString "Invalid API key or expired token"
  else if status =? 403 then JString "Insufficient permissions for this operation"
  else if status =? 404 then JString ("Resource not found: " ++ path)
  else
    match JSON_parse errorBody with
    | Return (JObject properties) =>
        if truthy (lookup "message" properties) then lookup "message" properties
        else if truthy (lookup "details" properties) then lookup "details" properties
        else generic
    | _ => generic
    end.

(** A status outside 200..299. *)
Definition non_success (status : Z) : Prop := status < 200 \/ 299 < status.

(** The element is a record whose [Name] is exactly [name]. *)
Definition has_Name (name : string) (stack : JsValue) : bool :=
  match stack with
  | JObject properties => strict_equals_string (lookup "Name" properties) name
  | _ => false
  end.

Definition is_record (v : JsValue) : Prop :=
  exists properties, v = JObject properties.

(** ** The client at work *)

Module Scenario.

(** A remote that gives the same answer to every call. *)
Definition answers (response : Response) : Remote :=
  fun _ _ => Return response.

Definition replies (ok : bool) (status : Z) (text : string) : Response :=
  {| response_ok := ok;
     response_status := status;
     response_text := Return text;
     response_arrayBuffer := Return (list_byte_of_string text) |}.

(** The client of the test suite, with the write flag left to its
    default. *)
Definition client : PortainerClient :=
  new_PortainerClient "https://portainer.example.com/" "test-api-key" None.

Definition frame (tag : byte) (text : string) : Frame :=
  {| streamType := tag;
     padding := (x00, x00, x00);
     payload := list_byte_of_string text |}.

(** The frames of the round-trip example of the specification. *)
Definition hello_world : list Frame := [frame x01 "hello "; frame x02 "world"].

(** The two bytes of U+00E9, one in each of two frames. *)
Definition split_character : list Frame :=
  [ {| streamType := x01; padding := (x00, x00, x00); payload := [xc3] |};
    {| streamType := x02; padding := (x00, x00, x00); payload := [xa9] |} ].

(** A JSON text, written with apostrophes for its quotation marks. *)
Definition json (text : string) : string :=
  string_of_list_ascii
    (map (fun c => if (N_of_ascii c =? 39)%N then ascii_of_N 34 else c)
       (list_ascii_of_string text)).

Definition stacks_json : string :=
  json "[{'Id':1,'Name':'web'},{'Id':2,'Name':'db','Type':2},{'Id':3,'Name':'db'}]".

End Scenario.

(** ** The read operations of the client *)

Section ClientReads.

Context {RT : Runtime}.

Variable remote : Remote.
Variable this : PortainerClient.

Local Open Scope action_scope.

(** [getEnvironments()] *)
Definition getEnvironments : Action JsValue :=
  request remote this "GET" "/endpoints" None None None.

(** [getEnvironment(id)] *)
Definition getEnvironment (id : Z) : Action JsValue :=
  request remote this "GET" ("/endpoints/" ++ Number_toString id) None None None.

(** [getContainers(envId, all = false)] *)
Definition getContainers (envId : Z) (all : option bool) : Action JsValue :=
  let all := default false all in
  let query := if all then "?all=true" else "" in
  request remote this "GET"
    ("/endpoints/" ++ Number_toString envId ++ "/docker/containers/json" ++ query)
    None None None.

(** [inspectContainer(envId, containerId)] *)
Definition inspectContainer (envId : Z) (containerId : string) : Action JsValue :=
  request remote this "GET"
    ("/endpoints/" ++ Number_toString envId ++ "/docker/containers/"
     ++ containerId ++ "/json") None None None.

(** [getContainerStats(envId, containerId)] *)
Definition getContainerStats (envId : Z) (containerId : string) : Action JsValue :=
  request remote this "GET"
    ("/endpoints/" ++ Number_toString envId ++ "/docker/containers/"
     ++ containerId ++ "/stats?stream=false") None None None.

(** [getStack(stackId)] *)
Definition getStack (stackId : Z) : Action JsValue :=
  request remote this "GET" ("/stacks/" ++ Number_toString stackId) None None None.

(** [getStackFile(stackId)] *)
Definition getStackFile (stackId : Z) : Action JsValue :=
  request remote this "GET" ("/stacks/" ++ Number_toString stackId ++ "/file")
    None None None.

(** [getImages(envId)] *)
Definition getImages (envId : Z) : Action JsValue :=
  request remote this "GET"
    ("/endpoints/" ++ Number_toString envId ++ "/docker/images/json") None None None.

(** [getVolumes(envId)] *)
Definition getVolumes (envId : Z) : Action JsValue :=
  request remote this "GET"
    ("/endpoints/" ++ Number_toString envId ++ "/docker/volumes") None None None.

(** [getNetworks(envId)] *)
Definition getNetworks (envId : Z) : Action JsValue :=
  request remote this "GET"
    ("/endpoints/" ++ Number_toString envId ++ "/docker/networks") None None None.

(** [getDashboard(envId)] *)
Definition getDashboard (envId : Z) : Action JsValue :=
  request remote this "GET"
    ("/docker/" ++ Number_toString envId ++ "/dashboard") None None None.

(** [getSystemInfo()] *)
Definition getSystemInfo : Action JsValue :=
  request remote this "GET" "/system/info" None None None.

(** [getSystemVersion()] *)
Definition getSystemVersion : Action JsValue :=
  request remote this "GET" "/system/version" None None None.

(** [getRegistries()] *)
Definition getRegistries : Action JsValue :=
  request remote this "GET" "/registries" None None None.

End ClientReads.

(** The read operations of the client, each with its arguments. *)
Inductive ReadCall : Type :=
| GetEnvironmentsCall
| GetEnvironmentCall (id : Z)
| GetContainersCall (envId : Z) (all : option bool)
| InspectContainerCall (envId : Z) (containerId : string)
| GetContainerStatsCall (envId : Z) (containerId : string)
| GetStacksCall
| GetStackCall (stackId : Z)
| GetStackFileCall (stackId : Z)
| GetImagesCall (envId : Z)
| GetVolumesCall (envId : Z)
| GetNetworksCall (envId : Z)
| GetDashboardCall (envId : Z)
| GetSystemInfoCall
| GetSystemVersionCall
| GetRegistriesCall.

Definition perform_read {RT : Runtime} (remote : Remote) (this : PortainerClient)
  (call : ReadCall) : Action JsValue :=
  match call with
  | GetEnvironmentsCall => getEnvironments remote this
  | GetEnvironmentCall id => getEnvironment remote this id
  | GetContainersCall envId all => getContainers remote this envId all
  | InspectContainerCall envId containerId => inspectContainer remote this envId containerId
  | GetContainerStatsCall envId containerId => getContainerStats remote this envId containerId
  | GetStacksCall => getStacks remote this
  | GetStackCall stackId => getStack remote this stackId
  | GetStackFileCall stackId => getStackFile remote this stackId
  | GetImagesCall envId => getImages remote this envId
  | GetVolumesCall envId => getVolumes remote this envId
  | GetNetworksCall envId => getNetworks remote this envId
  | GetDashboardCall envId => getDashboard remote this envId
  | GetSystemInfoCall => getSystemInfo remote this
  | GetSystemVersionCall => getSystemVersion remote this
  | GetRegistriesCall => getRegistries remote this
  end.

(** The [catch] block of [request], lines 93-106, as the error it throws
    for the exception it caught. *)
Definition request_caught (this : PortainerClient) (timeout : Z) (error : JsError)
  : JsError :=
  match error with
  | PortainerClientError _ _ _ => error
  | NativeError name _ =>
      if (name =? "AbortError")%string then
        PortainerClientError
          ("Request timeout after " ++ Number_toString timeout ++ "ms") "TIMEOUT" None
      else
        PortainerClientError
          ("Cannot connect to Portainer at " ++ baseUrl this ++ ": "
           ++ Error_toString error) "CONNECTION_ERROR" None
  end.

(** The arguments of a mutating call that go through
    [encodeURIComponent], in the order in which they do. *)
Definition uri_arguments (call : MutatingCall) : list string :=
  match call with
  | PullImageCall _ image =>
      let parts := split_colon image in
      [nth 0 parts ""; match nth_error parts 1 with Some t => t | None => "latest" end]
  | RemoveImageCall _ imageId => [imageId]
  | RemoveVolumeCall _ name => [name]
  | _ => []
  end.

(** [encodeURIComponent] returns on the string. *)
Definition encodable (s : string) : bool :=
  match encodeURIComponent s with
  | Return _ => true
  | Throw _ => false
  end.

(** The string has no colon. *)
Definition no_colon (s : string) : Prop :=
  Forall (fun c => c <> ":"%char) (list_ascii_of_string s).

(** The string does not end with a slash. *)
Fixpoint ends_with_slash (s : string) : bool :=
  match s with
  | EmptyString => false
  | String c EmptyString => (c =? "/")%char
  | String _ rest => ends_with_slash rest
  end.

(** ** The tool layer: [tools/utils.ts], [tools/stacks.ts], [tools/index.ts]

    A tool response is a plain object, [{ content: [{ type, text }],
    isError? }], and is represented as the [JsValue] it is.  Two things
    come from outside the repository and are interfaces: the printer
    [JSON.stringify(value, null, 2)], and the [parse] methods of the
    schemas, which return the arguments with the types the schemas
    declare or throw. *)

Class Indenter : Type := {
  (** [JSON.stringify(value, null, 2)]: a text, or [undefined] *)
  JSON_stringify_indented : JsValue -> option string
}.

(** The actions of [StackActionSchema]. *)
Inductive StackToolAction : Type := ToolStart | ToolStop | ToolRemove.

Definition StackToolAction_string (action : StackToolAction) : string :=
  match action with
  | ToolStart => "start"
  | ToolStop => "stop"
  | ToolRemove => "remove"
  end.

Record ListStacksArgs : Type := {
  list_environment_id : option Z
}.

Record StackActionArgs : Type := {
  action_stack_id : Z;
  action_action : StackToolAction;
  action_environment_id : option Z
}.

Record CreateStackArgs : Type := {
  create_environment_id : Z;
  create_name : string;
  create_compose_content : string;
  create_env : option (list EnvVar)
}.

Record UpdateStackArgs : Type := {
  update_stack_id : Z;
  update_environment_id : Z;
  update_compose_content : option string;
  update_env : option (list EnvVar);
  update_prune : option bool;
  update_pull_image : option bool
}.

Record RedeployStackArgs : Type := {
  redeploy_stack_id : Z;
  redeploy_environment_id : Z;
  redeploy_pull_image : option bool
}.

Record StackByNameArgs : Type := {
  by_name_name : string
}.

(** [Schema.parse(args)] for the schemas of the stack tools: the typed
    arguments, or a thrown [ZodError]. *)
Class Schemas : Type := {
  ListStacksSchema_parse : JsValue -> Completion ListStacksArgs;
  StackActionSchema_parse : JsValue -> Completion StackActionArgs;
  CreateStackSchema_parse : JsValue -> Completion CreateStackArgs;
  UpdateStackSchema_parse : JsValue -> Completion UpdateStackArgs;
  RedeployStackSchema_parse : JsValue -> Completion RedeployStackArgs;
  StackByNameSchema_parse : JsValue -> Completion StackByNameArgs
}.

(** [a === n] when [n] is a number. *)
Definition strict_equals_number (a : JsValue) (n : Z) : bool :=
  match a with
  | JNumber m => m =? n
  | _ => false
  end.

(** The member [key] of a record, [undefined] on any other value. *)
Definition own_property (key : string) (v : JsValue) : JsValue :=
  match v with
  | JObject properties => lookup key properties
  | _ => JUndefined
  end.

(** The stack belongs to the environment [id]. *)
Definition endpoint_is (id : Z) (stack : JsValue) : bool :=
  strict_equals_number (own_property "EndpointId" stack) id.

(** The stacks that [listStacks] keeps: those of the environment asked
    for, or all of them. *)
Definition selected (environment_id : option Z) (stacks : list JsValue)
  : list JsValue :=
  match environment_id with
  | Some id => filter (endpoint_is id) stacks
  | None => stacks
  end.

(** The response that carries an error message. *)
Definition error_response (message : string) : JsValue :=
  JObject [("content",
            JArray [JObject [("type", JString "text");
                             ("text", JString ("Error: " ++ message))]]);
           ("isError", JBool true)].

(** [a || b] *)
Definition or_else (a b : JsValue) : JsValue := if truthy a then a else b.

Definition not_a_function (method : string) : JsError :=
  NativeError "TypeError" ("stacks." ++ method ++ " is not a function").

(** The elements of the value on which an array method is called: a call
    on a value that is not an array throws a [TypeError]. *)
Definition array_elements (method : string) (v : JsValue) : Completion (list JsValue) :=
  match v with
  | JArray elements => Return elements
  | JUndefined =>
      Throw (NativeError "TypeError"
               ("Cannot read properties of undefined (reading '" ++ method ++ "')"))
  | JNull =>
      Throw (NativeError "TypeError"
               ("Cannot read properties of null (reading '" ++ method ++ "')"))
  | _ => Throw (not_a_function method)
  end.

(** [elements.filter(callback)], for a callback that may throw. *)
Fixpoint filter_elements (callback : JsValue -> Completion bool)
  (elements : list JsValue) : Completion (list JsValue) :=
  match elements with
  | [] => Return []
  | s :: rest =>
      match callback s with
      | Throw e => Throw e
      | Return keep =>
          match filter_elements callback rest with
          | Throw e => Throw e
          | Return kept => Return (if keep then s :: kept else kept)
          end
      end
  end.

(** [elements.map(callback)], for a callback that may throw. *)
Fixpoint map_elements (callback : JsValue -> Completion JsValue)
  (elements : list JsValue) : Completion (list JsValue) :=
  match elements with
  | [] => Return []
  | s :: rest =>
      match callback s with
      | Throw e => Throw e
      | Return item =>
          match map_elements callback rest with
          | Throw e => Throw e
          | Return items => Return (item :: items)
          end
      end
  end.

(** The line feed. *)
Definition line_feed : string := String (ascii_of_N 10) EmptyString.

Module Tools.

(** A handler of the table: [(client, args) => Promise<ToolResponse>]. *)
Definition ToolHandler : Type := PortainerClient -> JsValue -> Action JsValue.

Definition text_content (text : JsValue) : JsValue :=
  JObject [("type", JString "text"); ("text", text)].

Definition string_or_undefined (text : option string) : JsValue :=
  match text with
  | Some t => JString t
  | None => JUndefined
  end.

Section Handlers.

Context {RT : Runtime} {IN : Indenter} {SC : Schemas}.

Variable remote : Remote.

Local Open Scope action_scope.

(** [formatResponse(data)] *)
Definition formatResponse (data : JsValue) : JsValue :=
  JObject [("content",
            JArray [text_content (string_or_undefined (JSON_stringify_indented data))])].

(** [formatStackResponse(metadata, composeContent?)]: the compose file is
    a second block of text, present when the content is truthy. *)
Definition formatStackResponse (metadata composeContent : JsValue)
  : Completion JsValue :=
  let content :=
    [text_content (string_or_undefined (JSON_stringify_indented metadata))] in
  if truthy composeContent then
    match ToString composeContent with
    | Throw e => Throw e
    | Return text =>
        Return (JObject [("content",
                          JArray (content
                                  ++ [text_content
                                        (JString (line_feed
                                                  ++ "--- Docker Compose File ---"
                                                  ++ line_feed ++ "```yaml" ++ line_feed
                                                  ++ text ++ line_feed ++ "```"))])%list)])
    end
  else Return (JObject [("content", JArray content)]).

(** [formatError(error)], for an [error] that is an [Error] object. *)
Definition formatError (error : JsError) : JsValue :=
  JObject [("content",
            JArray [text_content (JString ("Error: " ++ error_message error))]);
           ("isError", JBool true)].

(** The summary of a stack in [listStacks], lines 805-810. *)
Definition stack_summary (s : JsValue) : Completion JsValue :=
  match get_property s "Id", get_property s "Name", get_property s "Status",
        get_property s "EndpointId" with
  | Return id, Return name, Return status, Return endpoint =>
      Return (JObject [("id", id);
                       ("name", name);
                       ("status", JString (if strict_equals_number status 1
                                           then "active" else "inactive"));
                       ("environment_id", endpoint)])
  | Throw e, _, _, _ => Throw e
  | _, Throw e, _, _ => Throw e
  | _, _, Throw e, _ => Throw e
  | _, _, _, Throw e => Throw e
  end.

(** [listStacks(client, args)] *)
Definition listStacks (client : PortainerClient) (args : JsValue) : Action JsValue :=
  parsed <- lift (ListStacksSchema_parse args) ;;
  stacks <- getStacks remote client ;;
  stacks <- match list_environment_id parsed with
            | Some environment_id =>
                elements <- lift (array_elements "filter" stacks) ;;
                kept <- lift (filter_elements
                                (fun s =>
                                   match get_property s "EndpointId" with
                                   | Return endpoint =>
                                       Return (strict_equals_number endpoint
                                                 environment_id)
                                   | Throw e => Throw e
                                   end) elements) ;;
                ret (JArray kept)
            | None => ret stacks
            end ;;
  elements <- lift (array_elements "map" stacks) ;;
  items <- lift (map_elements stack_summary elements) ;;
  ret (formatResponse
         (JObject [("items", JArray items);
                   ("count", JNumber (Z.of_nat (List.length elements)))])).

(** [stackAction(client, args)] *)
Definition stackAction (client : PortainerClient) (args : JsValue) : Action JsValue :=
  parsed <- lift (StackActionSchema_parse args) ;;
  match action_action parsed with
  | ToolRemove =>
      match action_environment_id parsed with
      | Some environment_id =>
          if negb (truthy (JNumber environment_id)) then
            throw (NativeError "Error" "environment_id is required for remove action")
          else deleteStack remote client (action_stack_id parsed) environment_id
      | None =>
          throw (NativeError "Error" "environment_id is required for remove action")
      end
  | ToolStart => stackAction remote client (action_stack_id parsed) StackStart
  | ToolStop => stackAction remote client (action_stack_id parsed) StackStop
  end ;;;
  ret (formatResponse
         (JObject [("success", JBool true);
                   ("message",
                    JString ("Stack " ++ StackToolAction_string (action_action parsed)
                             ++ " completed"))])).

(** [createStack(client, args)] *)
Definition createStack (client : PortainerClient) (args : JsValue) : Action JsValue :=
  parsed <- lift (CreateStackSchema_parse args) ;;
  stack <- createStack remote client (create_environment_id parsed)
             (create_name parsed) (create_compose_content parsed)
             (create_env parsed) ;;
  id <- lift (get_property stack "Id") ;;
  name <- lift (get_property stack "Name") ;;
  ret (formatResponse
         (JObject [("success", JBool true); ("id", id); ("name", name)])).

(** [updateStack(client, args)] *)
Definition updateStack (client : PortainerClient) (args : JsValue) : Action JsValue :=
  parsed <- lift (UpdateStackSchema_parse args) ;;
  stack <- updateStack remote client (update_stack_id parsed)
             (update_environment_id parsed)
             {| composeContent := update_compose_content parsed;
                env := update_env parsed;
                prune := update_prune parsed;
                pullImage_option := update_pull_image parsed |} ;;
  id <- lift (get_property stack "Id") ;;
  name <- lift (get_property stack "Name") ;;
  ret (formatResponse
         (JObject [("success", JBool true); ("id", id); ("name", name);
                   ("message", JString "Stack updated successfully")])).

(** [redeployStack(client, args)] *)
Definition redeployStack (client : PortainerClient) (args : JsValue) : Action JsValue :=
  parsed <- lift (RedeployStackSchema_parse args) ;;
  redeployStack remote client (redeploy_stack_id parsed)
    (redeploy_environment_id parsed)
    (Some (default false (redeploy_pull_image parsed))) ;;;
  ret (formatResponse
         (JObject [("success", JBool true);
                   ("message", JString "Stack redeployed from git repository")])).

(** [client.getStackFile(stack.Id)], for the identifier of a stack as the
    remote gave it: the template of the path converts it to a string. *)
Definition getStackFile_of (client : PortainerClient) (stackId : JsValue)
  : Action JsValue :=
  id <- lift (ToString stackId) ;;
  request remote client "GET" ("/stacks/" ++ id ++ "/file") None None None.

(** [getStackByName(client, args)] *)
Definition getStackByName (client : PortainerClient) (args : JsValue) : Action JsValue :=
  parsed <- lift (StackByNameSchema_parse args) ;;
  stack <- getStackByName remote client (by_name_name parsed) ;;
  id <- lift (get_property stack "Id") ;;
  stackFile <- getStackFile_of client id ;;
  name <- lift (get_property stack "Name") ;;
  status <- lift (get_property stack "Status") ;;
  endpoint <- lift (get_property stack "EndpointId") ;;
  env <- lift (get_property stack "Env") ;;
  git <- lift (get_property stack "GitConfig") ;;
  content <- lift (get_property stackFile "StackFileContent") ;;
  lift (formatStackResponse
          (JObject [("id", id);
                    ("name", name);
                    ("status", JString (if strict_equals_number status 1
                                        then "active" else "inactive"));
                    ("environment_id", endpoint);
                    ("env", or_else env (JArray []));
                    ("git_config", or_else git JNull)])
          content).

(** What the table gives for the names whose handlers are not among the
    ones above (they are defined in other files, or use [Promise.all]),
    and for the names that are not tools. *)
Variable elsewhere : string -> option ToolHandler.

(** [toolHandlers[name]] *)
Definition toolHandlers (name : string) : option ToolHandler :=
  if (name =? "list_stacks")%string then Some listStacks
  else if (name =? "stack_action")%string then Some stackAction
  else if (name =? "create_stack")%string then Some createStack
  else if (name =? "update_stack")%string then Some updateStack
  else if (name =? "redeploy_stack")%string then Some redeployStack
  else if (name =? "get_stack_by_name")%string then Some getStackByName
  else elsewhere name.

(** [handleToolCall(client, name, args)] *)
Definition handleToolCall (client : PortainerClient) (name : string) (args : JsValue)
  : Action JsValue :=
  match toolHandlers name with
  | None => ret (formatError (NativeError "Error" ("Unknown tool: " ++ name)))
  | Some handler =>
      try_catch (handler client args) (fun error => ret (formatError error))
  end.

End Handlers.

End Tools.

(** ** An implementation of the interfaces of the tool layer *)

Module NodeTools.

(** *** [JSON.stringify(value, null, 2)] *)

Fixpoint spaces (n : nat) : string :=
  match n with
  | O => ""
  | S n => String " " (spaces n)
  end.

(** A value printed at a depth of [depth] levels: the members of an
    object and the elements of an array are on lines of their own, two
    spaces further in; [undefined] prints as [null] in an array and is
    left out of an object. *)
Fixpoint print_indented (depth : nat) (v : JsValue) : string :=
  match v with
  | JUndefined | JNull => "null"
  | JBool true => "true"
  | JBool false => "false"
  | JNumber n => Number_toString n
  | JString s => Node.quote s
  | JArray elements =>
      match elements with
      | [] => "[]"
      | _ =>
          "[" ++ line_feed ++ spaces (2 * S depth)
          ++ String.concat ("," ++ line_feed ++ spaces (2 * S depth))
               (map (print_indented (S depth)) elements)
          ++ line_feed ++ spaces (2 * depth) ++ "]"
      end
  | JObject properties =>
      match
        (fix members (ps : list (string * JsValue)) : list string :=
           match ps with
           | [] => []
           | (k, x) :: rest =>
               match x with
               | JUndefined => members rest
               | _ => (Node.quote k ++ ": " ++ print_indented (S depth) x)
                        :: members rest
               end
           end) properties
      with
      | [] => "{}"
      | lines =>
          "{" ++ line_feed ++ spaces (2 * S depth)
          ++ String.concat ("," ++ line_feed ++ spaces (2 * S depth)) lines
          ++ line_feed ++ spaces (2 * depth) ++ "}"
      end
  end.

Definition stringify_indented (v : JsValue) : option string :=
  match v with
  | JUndefined => None
  | _ => Some (print_indented 0 v)
  end.

Definition indenter : Indenter := {|
  JSON_stringify_indented := stringify_indented
|}.

(** *** The schemas

    Each [parse] accepts an object whose members have the declared types
    and keeps the declared members; the text of the [ZodError] is the
    library's own and is not modelled. *)

Definition zod_error : JsError := NativeError "ZodError" "Invalid input".

Definition member (key : string) (args : JsValue) : JsValue :=
  match args with
  | JObject properties => lookup key properties
  | _ => JUndefined
  end.

Definition is_object (args : JsValue) : bool :=
  match args with JObject _ => true | _ => false end.

(** [z.number()], [z.string()], [z.boolean()] and their [optional()]
    forms, on a member. *)
Definition number_member (key : string) (args : JsValue) : option Z :=
  match member key args with JNumber n => Some n | _ => None end.

Definition string_member (key : string) (args : JsValue) : option string :=
  match member key args with JString s => Some s | _ => None end.

Definition optional_member {A : Type} (read : string -> JsValue -> option A)
  (key : string) (args : JsValue) : option (option A) :=
  match member key args with
  | JUndefined => Some None
  | _ => option_map Some (read key args)
  end.

Definition boolean_member (key : string) (args : JsValue) : option bool :=
  match member key args with JBool b => Some b | _ => None end.

(** [z.array(z.object({ name: z.string(), value: z.string() }))] *)
Definition env_member (key : string) (args : JsValue) : option (list EnvVar) :=
  match member key args with
  | JArray elements =>
      fold_right
        (fun element acc =>
           match string_member "name" element, string_member "value" element, acc with
           | Some n, Some v, Some rest =>
               if is_object element then Some ((n, v) :: rest) else None
           | _, _, _ => None
           end) (Some []) elements
  | _ => None
  end.

Definition stack_action_of (text : string) : option StackToolAction :=
  if (text =? "start")%string then Some ToolStart
  else if (text =? "stop")%string then Some ToolStop
  else if (text =? "remove")%string then Some ToolRemove
  else None.

Definition parsed_or_error {A : Type} (parsed : option A) : Completion A :=
  match parsed with
  | Some a => Return a
  | None => Throw zod_error
  end.

Definition parse_ListStacks (args : JsValue) : Completion ListStacksArgs :=
  parsed_or_error
    (match is_object args, optional_member number_member "environment_id" args with
     | true, Some e => Some {| list_environment_id := e |}
     | _, _ => None
     end).

Definition parse_StackAction (args : JsValue) : Completion StackActionArgs :=
  parsed_or_error
    (match number_member "stack_id" args,
           option_map stack_action_of (string_member "action" args),
           optional_member number_member "environment_id" args with
     | Some s, Some (Some a), Some e =>
         Some {| action_stack_id := s; action_action := a;
                 action_environment_id := e |}
     | _, _, _ => None
     end).

Definition parse_CreateStack (args : JsValue) : Completion CreateStackArgs :=
  parsed_or_error
    (match number_member "environment_id" args, string_member "name" args,
           string_member "compose_content" args,
           optional_member env_member "env" args with
     | Some e, Some n, Some c, Some v =>
         Some {| create_environment_id := e; create_name := n;
                 create_compose_content := c; create_env := v |}
     | _, _, _, _ => None
     end).

Definition parse_UpdateStack (args : JsValue) : Completion UpdateStackArgs :=
  parsed_or_error
    (match number_member "stack_id" args, number_member "environment_id" args,
           optional_member string_member "compose_content" args,
           optional_member env_member "env" args,
           optional_member boolean_member "prune" args,
           optional_member boolean_member "pull_image" args with
     | Some s, Some e, Some c, Some v, Some p, Some i =>
         Some {| update_stack_id := s; update_environment_id := e;
                 update_compose_content := c; update_env := v;
                 update_prune := p; update_pull_image := i |}
     | _, _, _, _, _, _ => None
     end).

Definition parse_RedeployStack (args : JsValue) : Completion RedeployStackArgs :=
  parsed_or_error
    (match number_member "stack_id" args, number_member "environment_id" args,
           optional_member boolean_member "pull_image" args with
     | Some s, Some e, Some i =>
         Some {| redeploy_stack_id := s; redeploy_environment_id := e;
                 redeploy_pull_image := i |}
     | _, _, _ => None
     end).

Definition parse_StackByName (args : JsValue) : Completion StackByNameArgs :=
  parsed_or_error
    (match string_member "name" args with
     | Some n => Some {| by_name_name := n |}
     | None => None
     end).

Definition schemas : Schemas := {|
  ListStacksSchema_parse := parse_ListStacks;
  StackActionSchema_parse := parse_StackAction;
  CreateStackSchema_parse := parse_CreateStack;
  UpdateStackSchema_parse := parse_UpdateStack;
  RedeployStackSchema_parse := parse_RedeployStack;
  StackByNameSchema_parse := parse_StackByName
|}.

(** No other tool: a table that holds the handlers of the stack tools
    only, to evaluate the tool layer on concrete inputs.  The table of the
    source is a plain object and also answers the names of the members it
    inherits ([toString], [constructor]); the theorems cover them through
    the variable [elsewhere]. *)
Definition no_other_tool : string -> option Tools.ToolHandler := fun _ => None.

End NodeTools.

(** ** The start of the server ([src/index.ts]) *)

(** The length of a string in UTF-16 code units, counted on its UTF-8
    encoding: a continuation byte counts for nothing, the first byte of a
    sequence of four for two, every other byte for one. *)
Fixpoint utf16_length (s : string) : Z :=
  match s with
  | EmptyString => 0
  | String c rest =>
      let b := Z.of_N (N_of_ascii c) in
      (if (128 <=? b) && (b <? 192) then 0 else if 240 <=? b then 2 else 1)
      + utf16_length rest
  end.

(** [v.length]: the number of elements of an array, the number of code
    units of a string, the own property of an object, [undefined] on a
    number or a boolean, and a [TypeError] on [null] and [undefined]. *)
Definition get_length (v : JsValue) : Completion JsValue :=
  match v with
  | JArray elements => Return (JNumber (Z.of_nat (List.length elements)))
  | JString s => Return (JNumber (utf16_length s))
  | _ => get_property v "length"
  end.

(** What [testConnection] returns: [{ ok, environments, error? }]. *)
Record ConnectionTest : Type := {
  test_ok : bool;
  test_environments : JsValue;
  test_error : option string
}.

Section Startup.

Context {RT : Runtime}.

Variable remote : Remote.

Local Open Scope action_scope.

(** [testConnection(client)] *)
Definition testConnection (client : PortainerClient) : Action ConnectionTest :=
  try_catch
    (environments <- getEnvironments remote client ;;
     count <- lift (get_length environments) ;;
     ret {| test_ok := true; test_environments := count; test_error := None |})
    (fun error =>
       if is_classified error
       then ret {| test_ok := false; test_environments := JNumber 0;
                   test_error := Some (error_message error) |}
       else ret {| test_ok := false; test_environments := JNumber 0;
                   test_error := Some (Error_toString error) |}).

End Startup.

(** ** More of the client at work *)

Module Cases.

(** A remote that rejects every call with the same error. *)
Definition fails (e : JsError) : Remote := fun _ _ => Throw e.

(** A response whose body cannot be read. *)
Definition unreadable (ok : bool) (status : Z) (e : JsError) : Response :=
  {| response_ok := ok;
     response_status := status;
     response_text := Throw e;
     response_arrayBuffer := Throw e |}.

(** A client with the write flag on. *)
Definition writer : PortainerClient :=
  new_PortainerClient "https://portainer.example.com" "test-api-key" (Some true).

Definition stack_web : JsValue :=
  JObject [("Id", JNumber 1); ("Name", JString "web"); ("EndpointId", JNumber 1)].

Definition stack_db : JsValue :=
  JObject [("Id", JNumber 2); ("Name", JString "db"); ("EndpointId", JNumber 2)].

Definition stack_cache : JsValue :=
  JObject [("Id", JNumber 3); ("Name", JString "cache"); ("EndpointId", JNumber 1)].

(** A string that is one high surrogate, U+D800, without its partner:
    what [JSON.parse] makes of the escape [\ud800]. *)
Definition high_surrogate : string :=
  String (ascii_of_N 237) (String (ascii_of_N 160) (String (ascii_of_N 128) EmptyString)).

(** The text of a collection of three stacks, two of them in the
    environment 1. *)
Definition three_stacks : string :=
  Scenario.json
    "[{'Id':1,'Name':'web','EndpointId':1},{'Id':2,'Name':'db','EndpointId':2},{'Id':3,'Name':'cache','EndpointId':1}]".

End Cases.

(** ** Properties of buffers *)

Lemma byte_val_range (b : byte) : 0 <= Buffer.byte_val b <= 255.
Proof.
  unfold Buffer.byte_val. pose proof (Byte.to_N_bounded b). lia.
Qed.

Lemma byte_val_byte_of (z : Z) : Buffer.byte_val (byte_of z) = z mod 256.
Proof.
  unfold byte_of, Buffer.byte_val.
  pose proof (Z.mod_pos_bound z 256 ltac:(lia)) as Hb.
  destruct (Byte.of_N (Z.to_N (z mod 256))) as [b|] eqn:Hof.
  - apply Byte.to_of_N in Hof. rewrite Hof. lia.
  - apply Byte.of_N_None_iff in Hof. lia.
Qed.

Lemma length_nonneg (buffer : Buffer.t) : 0 <= Buffer.length buffer.
Proof. unfold Buffer.length. lia. Qed.

Lemma length_app (a b : Buffer.t) :
  Buffer.length (a ++ b)%list = Buffer.length a + Buffer.length b.
Proof. unfold Buffer.length. rewrite List.length_app. lia. Qed.

Lemma length_cons (x : byte) (b : Buffer.t) :
  Buffer.length (x :: b) = 1 + Buffer.length b.
Proof. unfold Buffer.length. cbn [List.length]. lia. Qed.

Lemma get_app_r (pre post : Buffer.t) (i : Z) :
  0 <= i ->
  Buffer.get (pre ++ post)%list (Buffer.length pre + i) = Buffer.get post i.
Proof.
  intros Hi. unfold Buffer.get. rewrite length_app.
  pose proof (length_nonneg pre) as Hp.
  replace (0 <=? Buffer.length pre + i) with true by (symmetry; apply Z.leb_le; lia).
  replace (0 <=? i) with true by (symmetry; apply Z.leb_le; lia).
  replace (Buffer.length pre + i <? Buffer.length pre + Buffer.length post)
    with (i <? Buffer.length post)
    by (destruct (Z.ltb_spec i (Buffer.length post));
        symmetry; [apply Z.ltb_lt | apply Z.ltb_ge]; lia).
  cbn [andb]. destruct (i <? Buffer.length post); [|reflexivity].
  f_equal. unfold Buffer.length.
  replace (Z.to_nat (Z.of_nat (List.length pre) + i))
    with (List.length pre + Z.to_nat i)%nat by lia.
  rewrite nth_error_app2 by lia. f_equal. lia.
Qed.

Lemma get_cons_0 (x : byte) (rest : Buffer.t) :
  Buffer.get (x :: rest) 0 = Some (Buffer.byte_val x).
Proof.
  unfold Buffer.get. rewrite length_cons.
  pose proof (length_nonneg rest).
  replace (0 <? 1 + Buffer.length rest) with true by (symmetry; apply Z.ltb_lt; lia).
  reflexivity.
Qed.

Lemma get_cons_succ (x : byte) (rest : Buffer.t) (i : Z) :
  0 <= i -> Buffer.get (x :: rest) (1 + i) = Buffer.get rest i.
Proof.
  intros Hi. apply (get_app_r [x] rest i Hi).
Qed.

Lemma get_in_bounds (buffer : Buffer.t) (i : Z) :
  0 <= i < Buffer.length buffer ->
  exists v, Buffer.get buffer i = Some v /\ 0 <= v <= 255.
Proof.
  intros Hi. unfold Buffer.get.
  replace (0 <=? i) with true by (symmetry; apply Z.leb_le; lia).
  replace (i <? Buffer.length buffer) with true by (symmetry; apply Z.ltb_lt; lia).
  cbn [andb].
  destruct (nth_error buffer (Z.to_nat i)) as [b|] eqn:Hn.
  - exists (Buffer.byte_val b). split; [reflexivity | apply byte_val_range].
  - apply nth_error_None in Hn. unfold Buffer.length in Hi. lia.
Qed.

Lemma UInt32BE_value (n : Z) :
  0 <= n < 2 ^ 32 ->
  (n / 2 ^ 24 mod 256) * 2 ^ 24 + (n / 2 ^ 16 mod 256) * 2 ^ 16
  + (n / 2 ^ 8 mod 256) * 2 ^ 8 + n mod 256 = n.
Proof.
  intros Hn.
  change (2 ^ 24) with 16777216. change (2 ^ 16) with 65536.
  change (2 ^ 8) with 256. change (2 ^ 32) with 4294967296 in Hn.
  Z.div_mod_to_equations. lia.
Qed.

(** Reading back the size field of a header. *)
Lemma readUInt32BE_UInt32BE (pre post : Buffer.t) (n : Z) :
  0 <= n < 2 ^ 32 ->
  Buffer.readUInt32BE (pre ++ UInt32BE n ++ post)%list (Buffer.length pre) = Return n.
Proof.
  intros Hn. unfold Buffer.readUInt32BE.
  replace (Buffer.length pre) with (Buffer.length pre + 0) at 1 by lia.
  rewrite !get_app_r by lia.
  unfold UInt32BE. cbn [app].
  rewrite get_cons_0.
  rewrite (get_cons_succ _ _ 0), get_cons_0 by lia.
  change 2 with (1 + 1) at 1.
  rewrite (get_cons_succ _ _ (1 + 0)), (get_cons_succ _ _ 0), get_cons_0 by lia.
  change 3 with (1 + (1 + 1)).
  rewrite (get_cons_succ _ _ (1 + 1)) by lia.
  change (1 + 1) with (1 + (1 + 0)) at 1.
  rewrite (get_cons_succ _ _ (1 + 0)), (get_cons_succ _ _ 0), get_cons_0 by lia.
  rewrite !byte_val_byte_of. f_equal. apply UInt32BE_value, Hn.
Qed.

Lemma skipn_length_app (pre rest : Buffer.t) :
  skipn (Z.to_nat (Buffer.length pre)) (pre ++ rest)%list = rest.
Proof.
  unfold Buffer.length. rewrite Nat2Z.id.
  induction pre as [|x pre IH]; [reflexivity | exact IH].
Qed.

Lemma firstn_length_app (mid post : Buffer.t) :
  firstn (Z.to_nat (Buffer.length mid)) (mid ++ post)%list = mid.
Proof.
  unfold Buffer.length. rewrite Nat2Z.id.
  induction mid as [|x mid IH]; [reflexivity | cbn; now rewrite IH].
Qed.

(** The bytes between two offsets of a buffer. *)
Lemma subarray_app (pre mid post : Buffer.t) :
  Buffer.subarray (pre ++ mid ++ post)%list (Buffer.length pre)
    (Buffer.length pre + Buffer.length mid) = mid.
Proof.
  unfold Buffer.subarray, Buffer.clamp_index. rewrite !length_app.
  pose proof (length_nonneg pre). pose proof (length_nonneg mid).
  pose proof (length_nonneg post).
  replace (Buffer.length pre <? 0) with false by (symmetry; apply Z.ltb_ge; lia).
  replace (Buffer.length pre + Buffer.length mid <? 0) with false
    by (symmetry; apply Z.ltb_ge; lia).
  rewrite !Z.min_l by lia.
  replace (Buffer.length pre + Buffer.length mid - Buffer.length pre)
    with (Buffer.length mid) by lia.
  rewrite skipn_length_app. apply firstn_length_app.
Qed.

(** The bytes from an offset to the end of a buffer. *)
Lemma subarray_from_app (pre rest : Buffer.t) :
  Buffer.subarray_from (pre ++ rest)%list (Buffer.length pre) = rest.
Proof.
  unfold Buffer.subarray_from.
  rewrite <- (app_nil_r rest) at 1. rewrite length_app.
  rewrite (app_nil_r rest) at 1.
  rewrite <- (app_nil_r rest) at 1.
  apply (subarray_app pre rest []).
Qed.

Lemma header_bytes_length (tag : byte) (pad : byte * byte * byte) (size : Z) :
  Buffer.length (header_bytes tag pad size) = 8.
Proof. destruct pad as [[p1 p2] p3]. reflexivity. Qed.

Lemma frame_bytes_length (f : Frame) :
  Buffer.length (frame_bytes f) = 8 + Buffer.length (payload f).
Proof.
  unfold frame_bytes. rewrite length_app, header_bytes_length. reflexivity.
Qed.

(** ** Properties of the demultiplexer *)

Section DemultiplexerProperties.

Context {RT : Runtime}.

(** The loop, one iteration at a time. *)
Lemma while_loop_step (buffer : Buffer.t) (offset : Z) (chunks : list string) :
  while_loop buffer offset chunks =
  if offset + 8 <=? Buffer.length buffer then
    match loop_body buffer offset chunks with
    | Continue offset' chunks' => while_loop buffer offset' chunks'
    | Break chunks' => Return chunks'
    | Abrupt e => Throw e
    end
  else Return chunks.
Proof.
  funelim (while_loop buffer offset chunks);
    try match goal with E : (_ <=? _) = _ |- _ => rewrite E end;
    try match goal with E : loop_body _ _ _ = _ |- _ => rewrite E end;
    reflexivity.
Qed.

(** Four bytes inside the buffer are read without a [RangeError], as a
    size below [2 ^ 32]. *)
Lemma readUInt32BE_in_bounds (buffer : Buffer.t) (offset : Z) :
  0 <= offset -> offset + 4 <= Buffer.length buffer ->
  exists size, Buffer.readUInt32BE buffer offset = Return size
               /\ 0 <= size < 2 ^ 32.
Proof.
  intros H0 H4. unfold Buffer.readUInt32BE.
  destruct (get_in_bounds buffer offset) as (a & -> & Ha); [lia|].
  destruct (get_in_bounds buffer (offset + 1)) as (b & -> & Hb); [lia|].
  destruct (get_in_bounds buffer (offset + 2)) as (c & -> & Hc); [lia|].
  destruct (get_in_bounds buffer (offset + 3)) as (d & -> & Hd); [lia|].
  eexists. split; [reflexivity|].
  change (2 ^ 24) with 16777216. change (2 ^ 16) with 65536.
  change (2 ^ 8) with 256. change (2 ^ 32) with 4294967296. lia.
Qed.

(** Inside the loop the header is read within the buffer: the body does
    not end with an exception. *)
Lemma loop_body_in_bounds (buffer : Buffer.t) (offset : Z) (chunks : list string) :
  0 <= offset -> offset + 8 <= Buffer.length buffer ->
  forall e, loop_body buffer offset chunks <> Abrupt e.
Proof.
  intros H0 H8 e. unfold loop_body.
  destruct (readUInt32BE_in_bounds buffer (offset + 4)) as (size & -> & _);
    [lia | lia |].
  destruct (size =? 0); [discriminate|].
  destruct (offset + 8 + size >? Buffer.length buffer); discriminate.
Qed.

(** An iteration that reaches the test of the loop again has advanced
    [offset] by the eight bytes of a header at least. *)
Lemma loop_body_advances (buffer : Buffer.t) (offset : Z) (chunks : list string) :
  match loop_body buffer offset chunks with
  | Continue offset' _ => offset + 8 <= offset'
  | Break _ | Abrupt _ => True
  end.
Proof.
  unfold loop_body.
  destruct (Buffer.readUInt32BE buffer (offset + 4)) as [size|e] eqn:Hsize;
    [|exact I].
  assert (0 <= size) as Hpos.
  { revert Hsize. unfold Buffer.readUInt32BE, Buffer.get.
    repeat match goal with
           | |- context [if ?c then _ else _] => destruct c; cbn
           | |- context [nth_error ?l ?n] => destruct (nth_error l n); cbn
           end;
      try discriminate; intros [= <-]; unfold Buffer.byte_val; lia. }
  destruct (size =? 0); [lia|].
  destruct (offset + 8 + size >? Buffer.length buffer); [exact I | lia].
Qed.

(** The loop returns from every offset inside or past the buffer. *)
Lemma while_loop_returns (buffer : Buffer.t) :
  forall (n : nat) (offset : Z) (chunks : list string),
    0 <= offset ->
    (Z.to_nat (Buffer.length buffer - offset) <= n)%nat ->
    exists result, while_loop buffer offset chunks = Return result.
Proof.
  induction n as [|n IH]; intros offset chunks H0 Hn;
    rewrite while_loop_step.
  - replace (offset + 8 <=? Buffer.length buffer) with false
      by (symmetry; apply Z.leb_gt; lia).
    eexists; reflexivity.
  - destruct (Z.leb_spec (offset + 8) (Buffer.length buffer)) as [H8|H8];
      [|eexists; reflexivity].
    pose proof (loop_body_in_bounds buffer offset chunks H0 H8) as Hne.
    pose proof (loop_body_advances buffer offset chunks) as Hadv.
    destruct (loop_body buffer offset chunks) as [offset' chunks'|chunks'|e].
    + apply IH; lia.
    + eexists; reflexivity.
    + exfalso. apply (Hne e). reflexivity.
Qed.

End DemultiplexerProperties.

Lemma string_app_assoc (a b c : string) : (a ++ b) ++ c = a ++ (b ++ c).
Proof.
  induction a as [|x a IH]; [reflexivity | cbn; now rewrite IH].
Qed.

Lemma concat_empty_snoc (chunks : list string) (last : string) :
  String.concat "" (chunks ++ [last])%list = String.concat "" chunks ++ last.
Proof.
  induction chunks as [|c chunks IH]; [reflexivity|].
  destruct chunks as [|c' chunks]; [reflexivity|].
  change (c ++ String.concat "" ((c' :: chunks) ++ [last])%list
          = (c ++ String.concat "" (c' :: chunks)) ++ last).
  rewrite IH. symmetry. apply string_app_assoc.
Qed.

Section FrameScanning.

Context {RT : Runtime}.

(** One iteration over a complete frame: its payload, unless empty, is
    decoded on its own and the offset moves to the next header. *)
Lemma loop_body_frame (pre post : Buffer.t) (f : Frame) (chunks : list string) :
  frame_wf f ->
  loop_body (pre ++ frame_bytes f ++ post)%list (Buffer.length pre) chunks
  = Continue (Buffer.length pre + Buffer.length (frame_bytes f))
      (chunks ++ decoded [f])%list.
Proof.
  intros Hwf. unfold loop_body.
  pose proof (length_nonneg (payload f)) as Hlen.
  destruct f as [tag [[p1 p2] p3] data]. unfold frame_wf in Hwf.
  cbn [payload streamType padding] in *.
  assert (Buffer.readUInt32BE
            (pre ++ frame_bytes {| streamType := tag; padding := (p1, p2, p3);
                                   payload := data |} ++ post)%list
            (Buffer.length pre + 4) = Return (Buffer.length data)) as ->.
  { unfold frame_bytes, header_bytes. cbn [payload streamType padding].
    change (pre ++ ((tag :: p1 :: p2 :: p3 :: UInt32BE (Buffer.length data))
                    ++ data) ++ post)%list
      with (pre ++ [tag; p1; p2; p3]
                ++ (UInt32BE (Buffer.length data) ++ data) ++ post)%list.
    rewrite (app_assoc pre), <- (app_assoc (UInt32BE _)).
    replace (Buffer.length pre + 4) with (Buffer.length (pre ++ [tag; p1; p2; p3])%list)
      by (rewrite length_app; reflexivity).
    apply readUInt32BE_UInt32BE. lia. }
  rewrite frame_bytes_length. cbn [payload].
  unfold decoded, payloads. cbn [map filter payload].
  destruct data as [|d data].
  - cbn. rewrite app_nil_r. f_equal.
  - replace (Buffer.length (d :: data) =? 0) with false
      by (symmetry; apply Z.eqb_neq; rewrite length_cons;
          pose proof (length_nonneg data); lia).
    replace (Buffer.length pre + 8 + Buffer.length (d :: data)
             >? Buffer.length (pre ++ frame_bytes
                                 {| streamType := tag; padding := (p1, p2, p3);
                                    payload := d :: data |} ++ post)%list)
      with false.
    2:{ symmetry. rewrite Z.gtb_ltb. apply Z.ltb_ge.
        rewrite !length_app, frame_bytes_length. cbn [payload].
        pose proof (length_nonneg post). lia. }
    cbn [nonempty map]. f_equal; [lia|]. f_equal. f_equal. f_equal.
    unfold frame_bytes. cbn [payload streamType padding].
    rewrite <- (app_assoc (header_bytes _ _ _)), (app_assoc pre).
    replace (Buffer.length pre + 8)
      with (Buffer.length (pre ++ header_bytes tag (p1, p2, p3)
                                    (Buffer.length (d :: data)))%list)
      by (rewrite length_app, header_bytes_length; reflexivity).
    apply subarray_app.
Qed.

(** The loop over a run of complete frames: it reaches the offset after
    the last of them with their decoded payloads appended, in order. *)
Lemma while_loop_frames (frames : list Frame) :
  Forall frame_wf frames ->
  forall (pre post : Buffer.t) (chunks : list string),
    while_loop (pre ++ wire frames ++ post)%list (Buffer.length pre) chunks
    = while_loop (pre ++ wire frames ++ post)%list
        (Buffer.length pre + Buffer.length (wire frames))
        (chunks ++ decoded frames)%list.
Proof.
  induction 1 as [|f frames Hf _ IH]; intros pre post chunks.
  - unfold decoded, payloads, wire. cbn [map filter List.concat app].
    rewrite app_nil_r. f_equal. change (Buffer.length []) with 0. lia.
  - unfold wire. cbn [map List.concat]. fold (wire frames).
    rewrite <- (app_assoc (frame_bytes f)).
    rewrite while_loop_step.
    replace (Buffer.length pre + 8
             <=? Buffer.length (pre ++ frame_bytes f ++ wire frames ++ post)%list)
      with true.
    2:{ symmetry. apply Z.leb_le. rewrite !length_app, frame_bytes_length.
        pose proof (length_nonneg (payload f)).
        pose proof (length_nonneg (wire frames)).
        pose proof (length_nonneg post). lia. }
    rewrite loop_body_frame by exact Hf.
    rewrite (app_assoc pre (frame_bytes f)).
    rewrite <- length_app.
    rewrite IH. rewrite !length_app.
    f_equal; [lia|].
    rewrite <- app_assoc. f_equal.
    unfold decoded, payloads. cbn [map filter].
    destruct (nonempty (payload f)); reflexivity.
Qed.

End FrameScanning.

Section DemultiplexerTheorems.

Context {RT : Runtime}.

(** On a framed buffer the demultiplexer is the loop from offset 0. *)
Lemma stripDockerLogHeaders_framed (buffer : Buffer.t) :
  first_byte_at_most_2 buffer ->
  stripDockerLogHeaders buffer =
  match while_loop buffer 0 [] with
  | Return chunks => Return (String.concat "" chunks)
  | Throw e => Throw e
  end.
Proof.
  intros Hfirst. unfold stripDockerLogHeaders.
  destruct buffer as [|b rest].
  - rewrite while_loop_step. reflexivity.
  - replace (Buffer.length (b :: rest) =? 0) with false
      by (symmetry; apply Z.eqb_neq; rewrite length_cons;
          pose proof (length_nonneg rest); lia).
    rewrite get_cons_0. cbn in Hfirst. cbn [greater_than].
    replace (Buffer.byte_val b >? 2) with false
      by (symmetry; rewrite Z.gtb_ltb; apply Z.ltb_ge; lia).
    reflexivity.
Qed.

(** The loop over complete frames followed by fewer than eight bytes. *)
Lemma while_loop_complete (frames : list Frame) (trailing : list byte) :
  Forall frame_wf frames ->
  Buffer.length trailing < 8 ->
  while_loop (wire frames ++ trailing)%list 0 [] = Return (decoded frames).
Proof.
  intros Hwf Htrail.
  pose proof (while_loop_frames frames Hwf [] trailing []) as Hscan.
  cbn [app] in Hscan. change (Buffer.length []) with 0 in Hscan.
  rewrite Z.add_0_l in Hscan. rewrite Hscan. clear Hscan.
  rewrite while_loop_step.
  replace (Buffer.length (wire frames) + 8
           <=? Buffer.length (wire frames ++ trailing)%list) with false
    by (symmetry; apply Z.leb_gt; rewrite length_app; lia).
  reflexivity.
Qed.

(** C2, as amended.  A buffer made of complete frames, possibly followed
    by fewer than eight bytes, whose first byte is at most 2, gives the
    concatenation, in wire order, of the UTF-8 decodings of the payloads
    of its frames, each payload decoded on its own: the stream tags play
    no part, a frame of size zero contributes nothing, and the trailing
    bytes are dropped. *)
Theorem stripDockerLogHeaders_frames (frames : list Frame) (trailing : list byte) :
  Forall frame_wf frames ->
  Buffer.length trailing < 8 ->
  first_byte_at_most_2 (wire frames ++ trailing)%list ->
  stripDockerLogHeaders (wire frames ++ trailing)%list
  = Return (String.concat "" (map Buffer_toString_utf8 (payloads frames))).
Proof.
  intros Hwf Htrail Hfirst.
  rewrite (stripDockerLogHeaders_framed _ Hfirst).
  rewrite (while_loop_complete frames trailing Hwf Htrail).
  reflexivity.
Qed.

(** C6.  When the complete frames are followed by a header that declares
    more bytes than remain after it, the result is the text of the
    complete frames followed by the decoding of all the bytes after that
    header, and the call returns: what remains is not scanned for
    frames.  The statement does not need a first complete frame. *)
Theorem stripDockerLogHeaders_truncated (frames : list Frame) (tag : byte)
  (pad : byte * byte * byte) (size : Z) (rest : list byte) :
  Forall frame_wf frames ->
  Buffer.length rest < size ->
  size < 2 ^ 32 ->
  first_byte_at_most_2 (wire frames ++ header_bytes tag pad size ++ rest)%list ->
  stripDockerLogHeaders (wire frames ++ header_bytes tag pad size ++ rest)%list
  = Return (String.concat "" (map Buffer_toString_utf8 (payloads frames))
            ++ Buffer_toString_utf8 rest).
Proof.
  intros Hwf Hrest Hsize Hfirst.
  rewrite (stripDockerLogHeaders_framed _ Hfirst).
  pose proof (while_loop_frames frames Hwf []
                (header_bytes tag pad size ++ rest)%list []) as Hscan.
  cbn [app] in Hscan. change (Buffer.length []) with 0 in Hscan.
  rewrite Z.add_0_l in Hscan. rewrite Hscan. clear Hscan.
  pose proof (length_nonneg rest) as Hr.
  pose proof (length_nonneg (wire frames)) as Hw.
  rewrite while_loop_step.
  replace (Buffer.length (wire frames) + 8
           <=? Buffer.length (wire frames ++ header_bytes tag pad size ++ rest)%list)
    with true
    by (symmetry; apply Z.leb_le; rewrite !length_app, header_bytes_length; lia).
  unfold loop_body.
  assert (Buffer.readUInt32BE
            (wire frames ++ header_bytes tag pad size ++ rest)%list
            (Buffer.length (wire frames) + 4) = Return size) as ->.
  { destruct pad as [[p1 p2] p3]. unfold header_bytes.
    change (wire frames ++ (tag :: p1 :: p2 :: p3 :: UInt32BE size) ++ rest)%list
      with (wire frames ++ [tag; p1; p2; p3] ++ UInt32BE size ++ rest)%list.
    rewrite (app_assoc (wire frames)).
    replace (Buffer.length (wire frames) + 4)
      with (Buffer.length (wire frames ++ [tag; p1; p2; p3])%list)
      by (rewrite length_app; reflexivity).
    apply readUInt32BE_UInt32BE. lia. }
  replace (size =? 0) with false by (symmetry; apply Z.eqb_neq; lia).
  replace (Buffer.length (wire frames) + 8 + size
           >? Buffer.length (wire frames ++ header_bytes tag pad size ++ rest)%list)
    with true
    by (symmetry; rewrite Z.gtb_ltb; apply Z.ltb_lt;
        rewrite !length_app, header_bytes_length; lia).
  rewrite (app_assoc (wire frames)).
  replace (Buffer.length (wire frames) + 8)
    with (Buffer.length (wire frames ++ header_bytes tag pad size)%list)
    by (rewrite length_app, header_bytes_length; reflexivity).
  rewrite subarray_from_app.
  f_equal. apply concat_empty_snoc.
Qed.

(** C8.  The empty buffer gives the empty string, and a buffer whose
    first byte is greater than 2 gives the UTF-8 decoding of the whole
    buffer, whatever its bytes: they are not read as frames. *)
Theorem stripDockerLogHeaders_passthrough (buffer : Buffer.t) :
  (Buffer.length buffer = 0 -> stripDockerLogHeaders buffer = Return "")
  /\ (forall firstByte : Z,
        Buffer.get buffer 0 = Some firstByte -> 2 < firstByte ->
        stripDockerLogHeaders buffer = Return (Buffer_toString_utf8 buffer)).
Proof.
  unfold stripDockerLogHeaders. split.
  - intros ->. reflexivity.
  - intros firstByte Hget Hgt. rewrite Hget.
    destruct (Z.eqb_spec (Buffer.length buffer) 0) as [Hlen|_].
    + destruct buffer; [discriminate Hget | discriminate Hlen].
    + cbn [greater_than].
      replace (firstByte >? 2) with true
        by (symmetry; rewrite Z.gtb_ltb; apply Z.ltb_lt; lia).
      reflexivity.
Qed.

(** C10.  The demultiplexer returns a string for every buffer: no
    exception, in particular no read outside the buffer, and the loop
    ends, because an iteration that reaches its test again has advanced
    the offset by eight at least. *)
Theorem stripDockerLogHeaders_total (buffer : Buffer.t) :
  (exists text : string, stripDockerLogHeaders buffer = Return text)
  /\ (forall (offset : Z) (chunks : list string),
        match loop_body buffer offset chunks with
        | Continue offset' _ => offset + 8 <= offset'
        | Break _ | Abrupt _ => True
        end).
Proof.
  split; [|apply loop_body_advances].
  unfold stripDockerLogHeaders.
  destruct (Z.eqb_spec (Buffer.length buffer) 0) as [|Hlen];
    [eexists; reflexivity|].
  destruct (greater_than (Buffer.get buffer 0) 2); [eexists; reflexivity|].
  destruct (while_loop_returns buffer
              (Z.to_nat (Buffer.length buffer - 0)) 0 [])
    as [chunks ->]; [lia | lia |].
  eexists; reflexivity.
Qed.

End DemultiplexerTheorems.

(** *** When the payloads hold whole characters

    With the decoder of [Node], decoding frame by frame and decoding the
    concatenated payloads agree as soon as no payload stops in the middle
    of a character. *)

Lemma string_app_nil_r (s : string) : s ++ "" = s.
Proof.
  induction s as [|c s IH]; [reflexivity | cbn; now rewrite IH].
Qed.

Lemma concat_empty_cons (first : string) (others : list string) :
  String.concat "" (first :: others) = first ++ String.concat "" others.
Proof.
  destruct others; cbn; [now rewrite string_app_nil_r | reflexivity].
Qed.

Lemma decode_app (a b : list byte) :
  forall st : option Node.Partial,
    Node.pending st a = None ->
    Node.decode st (a ++ b)%list = Node.decode st a ++ Node.decode None b.
Proof.
  induction a as [|x a IH]; intros st Hst.
  - cbn in Hst. subst st. reflexivity.
  - cbn [app Node.decode Node.pending] in *.
    destruct st as [p|].
    + destruct ((Node.lower p <=? Buffer.byte_val x)
                && (Buffer.byte_val x <=? Node.upper p)).
      * destruct (Node.needed p) as [|[|n]];
          rewrite ?string_app_assoc; rewrite IH by exact Hst; reflexivity.
      * destruct (Node.lead x) as [out st']. cbn [snd] in Hst.
        rewrite IH by exact Hst. now rewrite !string_app_assoc.
    + destruct (Node.lead x) as [out st']. cbn [snd] in Hst.
      rewrite IH by exact Hst. now rewrite !string_app_assoc.
Qed.

Lemma utf8_decode_concat (parts : list (list byte)) :
  Forall Node.ends_on_boundary parts ->
  Node.utf8_decode (List.concat parts)
  = String.concat "" (map Node.utf8_decode parts).
Proof.
  induction 1 as [|part parts Hpart _ IH]; [reflexivity|].
  cbn [List.concat map]. rewrite concat_empty_cons, <- IH.
  apply decode_app, Hpart.
Qed.

Lemma concat_decoded_nonempty (parts : list (list byte)) :
  String.concat "" (map Node.utf8_decode (filter nonempty parts))
  = String.concat "" (map Node.utf8_decode parts).
Proof.
  induction parts as [|part parts IH]; [reflexivity|].
  cbn [filter map]. destruct part as [|b part]; cbn [nonempty].
  - rewrite concat_empty_cons. exact IH.
  - cbn [map]. now rewrite !concat_empty_cons, IH.
Qed.

(** The reading of C2 as it was stated holds for such buffers. *)
Lemma stripDockerLogHeaders_whole_characters (frames : list Frame)
  (trailing : list byte) :
  Forall frame_wf frames ->
  Buffer.length trailing < 8 ->
  first_byte_at_most_2 (wire frames ++ trailing)%list ->
  Forall Node.ends_on_boundary (map payload frames) ->
  stripDockerLogHeaders (RT := Node.runtime) (wire frames ++ trailing)%list
  = Return (Node.utf8_decode (List.concat (map payload frames))).
Proof.
  intros Hwf Htrail Hfirst Hwhole.
  rewrite (stripDockerLogHeaders_framed _ Hfirst).
  rewrite (while_loop_complete frames trailing Hwf Htrail).
  unfold decoded, payloads. cbn [Buffer_toString_utf8 Node.runtime].
  now rewrite concat_decoded_nonempty, utf8_decode_concat.
Qed.

(** ** Properties of the client *)

(** Running a computation of the client: the monad unfolded. *)
Ltac run :=
  unfold bind, try_catch, setTimeout, clearTimeout, fetch, lift, ret, throw;
  cbn [fst snd].

(** The [catch] block, by cases on the exception caught. *)
Ltac caught e :=
  destruct e as [? ? ?|name ?]; [|destruct (name =? "AbortError")%string];
  cbn [fst snd]; eauto.

Lemma prefix_refl (s : string) : prefix s s = true.
Proof.
  induction s as [|c s IH]; [reflexivity|].
  cbn. destruct (ascii_dec c c) as [_|Hne]; [exact IH | now elim Hne].
Qed.

Lemma includes_refl (s : string) : includes s s = true.
Proof.
  destruct s; cbn; [reflexivity|].
  destruct (ascii_dec a a) as [_|Hne]; [|now elim Hne].
  now rewrite prefix_refl.
Qed.

Lemma includes_app_r (before s : string) : includes (before ++ s) s = true.
Proof.
  induction before as [|c before IH]; [apply includes_refl|].
  cbn [append includes]. rewrite IH. apply orb_true_r.
Qed.

Lemma clamp_min_max (x : Z) : Z.min (Z.max x 1) 10000 = clamp x 1 10000.
Proof.
  unfold clamp.
  destruct (Z.ltb_spec x 1); [lia|].
  destruct (Z.ltb_spec 10000 x); lia.
Qed.

Lemma clamp_range (x : Z) : 1 <= clamp x 1 10000 <= 10000.
Proof.
  unfold clamp.
  destruct (Z.ltb_spec x 1); [lia|].
  destruct (Z.ltb_spec 10000 x); lia.
Qed.

Section ClientProperties.

Context {RT : Runtime}.
Variable remote : Remote.
Variable this : PortainerClient.

(** The message chosen by the code is the one the specification words. *)
Lemma error_message_of_spec (status : Z) (path errorBody : string) (w : World) :
  error_message_of status path errorBody w
  = (Return (spec_error_message status path errorBody), w).
Proof.
  unfold error_message_of, spec_error_message.
  destruct (status =? 401); [reflexivity|].
  destruct (status =? 403); [reflexivity|].
  destruct (status =? 404); [reflexivity|].
  run.
  destruct (JSON_parse errorBody) as [parsed|e]; [|reflexivity].
  destruct parsed; cbn; try reflexivity.
  destruct (truthy (lookup "message" properties)); [reflexivity|].
  destruct (truthy (lookup "details" properties)); reflexivity.
Qed.

(** The write gate lets nothing through when the flag is off. *)
Lemma checkWriteEnabled_closed (w : World) :
  writeEnabled this = false ->
  checkWriteEnabled this w = (Throw write_disabled, w).
Proof.
  intros Hflag. unfold checkWriteEnabled. rewrite Hflag. reflexivity.
Qed.

Lemma gate_first (A : Type) (k : unit -> Action A) (w : World) :
  writeEnabled this = false ->
  bind (checkWriteEnabled this) k w = (Throw write_disabled, w).
Proof.
  intros Hflag. unfold bind. now rewrite checkWriteEnabled_closed.
Qed.

(** C1.  With the write flag off, every mutating operation throws the
    [WRITE_DISABLED] error and leaves the world as it found it: no
    request is built, no timer is armed and no network call is made. *)
Theorem write_gate_closed (call : MutatingCall) (w : World) :
  writeEnabled this = false ->
  perform remote this call w = (Throw write_disabled, w)
  /\ error_code write_disabled = Some "WRITE_DISABLED"
  /\ fetch_calls (snd (perform remote this call w)) = fetch_calls w.
Proof.
  intros Hflag.
  assert (perform remote this call w = (Throw write_disabled, w)) as Hgate.
  { destruct call; cbn [perform];
      unfold containerAction, stackAction, createStack, updateStack,
        redeployStack, deleteStack, pullImage, removeImage, createVolume,
        removeVolume, createNetwork, removeNetwork;
      cbv zeta; apply gate_first, Hflag. }
  rewrite Hgate. auto.
Qed.

(** The network calls of two stretches of events, one after the other. *)
Lemma fetch_calls_app (w w' : World) :
  fetch_calls (w ++ w')%list = (fetch_calls w ++ fetch_calls w')%list.
Proof. apply filter_app. Qed.

(** C7.  Whatever the outcome, the streaming-log operation issues one
    network call, to the address whose [tail] parameter is the requested
    count clamped to 1..10000 (100 when no count is given). *)
Theorem getContainerLogs_tail_clamped (envId : Z) (containerId : string)
  (tail : option Z) (w : World) :
  fetch_calls (snd (getContainerLogs remote this envId containerId tail w))
  = (fetch_calls w
     ++ [EvFetch (baseUrl this ++ "/api/endpoints/" ++ Number_toString envId
                  ++ "/docker/containers/" ++ containerId
                  ++ "/logs?stdout=true&stderr=true&tail="
                  ++ Number_toString (clamp (default 100 tail) 1 10000))
           (logs_init this (next_timer w))])%list
  /\ 1 <= clamp (default 100 tail) 1 10000 <= 10000.
Proof.
  split; [|apply clamp_range].
  unfold getContainerLogs. cbv zeta. rewrite clamp_min_max.
  unfold logs_url. run.
  destruct (remote _ _) as [response|e].
  - destruct (negb (response_ok response)); cbn.
    + rewrite !fetch_calls_app. cbn. now rewrite !app_nil_r.
    + destruct (response_arrayBuffer response) as [buf|e].
      * destruct (stripDockerLogHeaders buf) as [text|e];
          [|destruct e; [|destruct (name =? "AbortError")%string]];
          cbn; rewrite !fetch_calls_app; cbn; now rewrite !app_nil_r.
      * destruct e; [|destruct (name =? "AbortError")%string];
          cbn; rewrite !fetch_calls_app; cbn; now rewrite !app_nil_r.
  - destruct e; [|destruct (name =? "AbortError")%string];
      cbn; rewrite !fetch_calls_app; cbn; now rewrite !app_nil_r.
Qed.

End ClientProperties.

Section RequestProperties.

Context {RT : Runtime}.
Variable remote : Remote.
Variable this : PortainerClient.

(** Whatever [request] throws is an error of the client's own class. *)
Lemma request_throws_classified (method path : string) (body : option JsValue)
  (timeout : option Z) (raw : option bool) (w : World) (e : JsError) :
  fst (request remote this method path body timeout raw w) = Throw e ->
  is_classified e = true.
Proof.
  unfold request. cbv zeta. run.
  repeat match goal with
         | |- context [match ?x with _ => _ end] =>
             lazymatch x with
             | context [match _ with _ => _ end] => fail
             | _ => destruct x; cbn [fst snd negb]
             end
         | |- context [error_message_of ?a ?b ?c ?d] =>
             rewrite (error_message_of_spec a b c d)
         end;
    intros [= <-]; reflexivity.
Qed.

(** C5.  A call of [request] has one of two outcomes.  It returns a value
    only when the remote answered with a success status, the body was
    read, and the value is the decoded body (the empty object for an
    empty body, the text itself in raw mode, the parsed JSON otherwise).
    In every other case (non-success status, abort, network failure,
    failure to read or to decode the body) it throws an error of the
    client's own class, with a code and a message: no failure ends in a
    returned value. *)
Theorem request_outcome (method path : string) (body : option JsValue)
  (timeout : option Z) (raw : option bool) (w : World) :
  match fst (request remote this method path body timeout raw w) with
  | Return v =>
      exists response text,
        remote (request_url this path)
          (request_init this method (default JUndefined body) (next_timer w))
        = Return response
        /\ response_ok response = true
        /\ response_text response = Return text
        /\ (if (text =? "")%string then v = JObject []
            else if default false raw then v = JString text
            else JSON_parse text = Return v)
  | Throw e =>
      exists message code statusCode,
        e = PortainerClientError message code statusCode
  end.
Proof.
  unfold request. cbv zeta. run.
  destruct (remote _ _) as [response|e] eqn:Hremote; [|caught e].
  destruct (response_ok response) eqn:Hok; cbn [negb].
  - destruct (response_text response) as [text|e] eqn:Htext; [|caught e].
    destruct (text =? "")%string eqn:Hempty.
    + cbn. exists response, text. rewrite Hempty. auto.
    + destruct (default false raw) eqn:Hraw.
      * cbn. exists response, text. rewrite Hempty. auto.
      * destruct (JSON_parse text) as [v|e] eqn:Hparse; [|caught e].
        cbn. exists response, text. rewrite Hempty. auto.
  - destruct (response_text response) as [errorBody|e]; [|caught e].
    rewrite error_message_of_spec.
    unfold new_PortainerClientError.
    destruct (ToString _) as [message|e]; [cbn; eauto | caught e].
Qed.

(** C4, as amended.  When the remote answers with a success status and a
    non-empty body that [JSON.parse] rejects, and raw mode is off, the
    [SyntaxError] is caught by the [catch] block of [request] and a
    classified error with code [CONNECTION_ERROR] is thrown in its place,
    whose message carries the base address and the text of the
    [SyntaxError]. *)
Theorem request_parse_failure_classified (method path : string)
  (body : option JsValue) (timeout : option Z) (raw : option bool) (w : World)
  (response : Response) (text reason : string) :
  remote (request_url this path)
    (request_init this method (default JUndefined body) (next_timer w))
  = Return response ->
  response_ok response = true ->
  response_text response = Return text ->
  text <> "" ->
  default false raw = false ->
  JSON_parse text = Throw (NativeError "SyntaxError" reason) ->
  fst (request remote this method path body timeout raw w)
  = Throw (PortainerClientError
             ("Cannot connect to Portainer at " ++ baseUrl this ++ ": "
              ++ Error_toString (NativeError "SyntaxError" reason))
             "CONNECTION_ERROR" None).
Proof.
  intros Hremote Hok Htext Hne Hraw Hparse.
  unfold request. cbv zeta. run.
  rewrite Hremote, Hok, Htext. cbn [negb].
  apply String.eqb_neq in Hne. rewrite Hne, Hraw, Hparse.
  reflexivity.
Qed.

(** [ok] is off for a status outside 200..299. *)
Lemma non_success_not_ok (response : Response) :
  response_wf response ->
  non_success (response_status response) ->
  response_ok response = false.
Proof.
  intros Hwf Hstatus. rewrite Hwf. unfold non_success in Hstatus.
  destruct (Z.leb_spec 200 (response_status response));
    destruct (Z.leb_spec (response_status response) 299);
    cbn; try reflexivity; lia.
Qed.

(** The error that [request] throws for a response without [ok]. *)
Lemma request_http_error (method path : string) (body : option JsValue)
  (timeout : option Z) (raw : option bool) (w : World) (response : Response)
  (errorBody message : string) :
  remote (request_url this path)
    (request_init this method (default JUndefined body) (next_timer w))
  = Return response ->
  response_ok response = false ->
  response_text response = Return errorBody ->
  ToString (spec_error_message (response_status response) path errorBody)
  = Return message ->
  fst (request remote this method path body timeout raw w)
  = Throw (PortainerClientError message
             ("HTTP_" ++ Number_toString (response_status response))
             (Some (response_status response))).
Proof.
  intros Hremote Hok Htext Hmsg.
  unfold request. cbv zeta. run.
  rewrite Hremote, Hok, Htext. cbn [negb].
  rewrite error_message_of_spec.
  unfold new_PortainerClientError. rewrite Hmsg. reflexivity.
Qed.

(** The error that the streaming-log operation throws for a response
    without [ok]. *)
Lemma getContainerLogs_http_error (envId : Z) (containerId : string)
  (tail : option Z) (w : World) (response : Response) :
  remote (logs_url this envId containerId (clamp (default 100 tail) 1 10000))
    (logs_init this (next_timer w))
  = Return response ->
  response_ok response = false ->
  fst (getContainerLogs remote this envId containerId tail w)
  = Throw (PortainerClientError
             ("Failed to get logs: " ++ Number_toString (response_status response))
             ("HTTP_" ++ Number_toString (response_status response))
             (Some (response_status response))).
Proof.
  intros Hremote Hok.
  unfold getContainerLogs. cbv zeta. rewrite clamp_min_max. run.
  rewrite Hremote, Hok. reflexivity.
Qed.

(** The two paths side by side, for a response with a status [s] outside
    200..299.  [request], once the body is read, throws a classified error
    with code [HTTP_s] and status [s] whose message is the one of the
    fixed mapping (401, 403, 404), else the [message] or [details] field
    of the body, else the generic text, whenever that message converts to
    a string (a string, a number and a boolean always do).  The
    streaming-log operation throws a classified error with code [HTTP_s]
    and status [s] too, but its message is [Failed to get logs: s] for
    every status: it does not go through the mapping. *)
Theorem http_error_classification (response : Response) :
  response_wf response ->
  non_success (response_status response) ->
  (forall (method path : string) (body : option JsValue) (timeout : option Z)
          (raw : option bool) (w : World) (errorBody message : string),
      remote (request_url this path)
        (request_init this method (default JUndefined body) (next_timer w))
      = Return response ->
      response_text response = Return errorBody ->
      ToString (spec_error_message (response_status response) path errorBody)
      = Return message ->
      fst (request remote this method path body timeout raw w)
      = Throw (PortainerClientError message
                 ("HTTP_" ++ Number_toString (response_status response))
                 (Some (response_status response))))
  /\ (forall (envId : Z) (containerId : string) (tail : option Z) (w : World),
        remote (logs_url this envId containerId (clamp (default 100 tail) 1 10000))
          (logs_init this (next_timer w))
        = Return response ->
        fst (getContainerLogs remote this envId containerId tail w)
        = Throw (PortainerClientError
                   ("Failed to get logs: "
                    ++ Number_toString (response_status response))
                   ("HTTP_" ++ Number_toString (response_status response))
                   (Some (response_status response)))).
Proof.
  intros Hwf Hstatus.
  pose proof (non_success_not_ok response Hwf Hstatus) as Hok.
  split.
  - intros method path body timeout raw w errorBody message Hremote Htext Hmsg.
    now apply (request_http_error method path body timeout raw w response
                 errorBody message).
  - intros envId containerId tail w Hremote.
    now apply getContainerLogs_http_error.
Qed.

(** The three fixed messages of [request], whatever the body says. *)
Lemma request_fixed_messages (method path : string) (body : option JsValue)
  (timeout : option Z) (raw : option bool) (w : World) (response : Response)
  (errorBody : string) :
  remote (request_url this path)
    (request_init this method (default JUndefined body) (next_timer w))
  = Return response ->
  response_ok response = false ->
  response_text response = Return errorBody ->
  (response_status response = 401 ->
   fst (request remote this method path body timeout raw w)
   = Throw (PortainerClientError "Invalid API key or expired token"
              "HTTP_401" (Some 401)))
  /\ (response_status response = 403 ->
      fst (request remote this method path body timeout raw w)
      = Throw (PortainerClientError "Insufficient permissions for this operation"
                 "HTTP_403" (Some 403)))
  /\ (response_status response = 404 ->
      fst (request remote this method path body timeout raw w)
      = Throw (PortainerClientError ("Resource not found: " ++ path)
                 "HTTP_404" (Some 404))).
Proof.
  intros Hremote Hok Htext.
  repeat split; intros Hstatus;
    rewrite (request_http_error method path body timeout raw w response errorBody
               (match response_status response with
                | 401 => "Invalid API key or expired token"
                | 403 => "Insufficient permissions for this operation"
                | _ => "Resource not found: " ++ path
                end) Hremote Hok Htext);
    rewrite Hstatus; reflexivity.
Qed.

(** For another status, a body that is a JSON object with a non-empty
    string as its [message] gives that string, and failing that a
    non-empty string as its [details] gives that one. *)
Lemma request_body_message (method path : string) (body : option JsValue)
  (timeout : option Z) (raw : option bool) (w : World) (response : Response)
  (errorBody : string) (properties : list (string * JsValue)) :
  remote (request_url this path)
    (request_init this method (default JUndefined body) (next_timer w))
  = Return response ->
  response_ok response = false ->
  response_text response = Return errorBody ->
  response_status response <> 401 ->
  response_status response <> 403 ->
  response_status response <> 404 ->
  JSON_parse errorBody = Return (JObject properties) ->
  (forall text, lookup "message" properties = JString text -> text <> "" ->
     fst (request remote this method path body timeout raw w)
     = Throw (PortainerClientError text
                ("HTTP_" ++ Number_toString (response_status response))
                (Some (response_status response))))
  /\ (forall text, truthy (lookup "message" properties) = false ->
        lookup "details" properties = JString text -> text <> "" ->
        fst (request remote this method path body timeout raw w)
        = Throw (PortainerClientError text
                   ("HTTP_" ++ Number_toString (response_status response))
                   (Some (response_status response)))).
Proof.
  intros Hremote Hok Htext H401 H403 H404 Hparse.
  apply Z.eqb_neq in H401, H403, H404.
  split.
  - intros text Hmessage Hne.
    apply (request_http_error method path body timeout raw w response errorBody);
      try assumption.
    unfold spec_error_message. rewrite H401, H403, H404, Hparse, Hmessage.
    cbn [truthy]. apply String.eqb_neq in Hne. rewrite Hne. reflexivity.
  - intros text Hmessage Hdetails Hne.
    apply (request_http_error method path body timeout raw w response errorBody);
      try assumption.
    unfold spec_error_message. rewrite H401, H403, H404, Hparse, Hmessage, Hdetails.
    cbn [truthy]. apply String.eqb_neq in Hne. rewrite Hne. reflexivity.
Qed.

Lemma find_by_Name_records (name : string) (stacks : list JsValue) :
  Forall is_record stacks ->
  find_by_Name name stacks
  = Return (match find (has_Name name) stacks with
            | Some stack => stack
            | None => JUndefined
            end).
Proof.
  induction 1 as [|stack stacks [properties ->] _ IH]; [reflexivity|].
  cbn [find_by_Name get_property find has_Name].
  destruct (strict_equals_string (lookup "Name" properties) name);
    [reflexivity | exact IH].
Qed.

Lemma find_has_Name_truthy (name : string) (stacks : list JsValue) (stack : JsValue) :
  find (has_Name name) stacks = Some stack -> truthy stack = true.
Proof.
  intros Hfind. apply find_some in Hfind as [_ Hname].
  destruct stack; try discriminate Hname. reflexivity.
Qed.

(** C9.  When the collection of stacks that [getStacks] obtains from the
    remote is an array of records, the lookup by name scans it in order
    for a record whose [Name] is exactly the requested name: it returns
    the first such record, as it is, and when there is none it throws a
    classified error with code [NOT_FOUND] and status 404 whose message
    contains the name. *)
Theorem getStackByName_lookup (name : string) (stacks : list JsValue) (w : World) :
  fst (getStacks remote this w) = Return (JArray stacks) ->
  Forall is_record stacks ->
  fst (getStackByName remote this name w)
  = match find (has_Name name) stacks with
    | Some stack => Return stack
    | None =>
        Throw (PortainerClientError ("Stack not found: " ++ name)
                 "NOT_FOUND" (Some 404))
    end
  /\ includes ("Stack not found: " ++ name) name = true.
Proof.
  intros Hstacks Hrecords. split; [|apply includes_app_r].
  unfold getStackByName. unfold bind at 1.
  destruct (getStacks remote this w) as [result w'].
  cbn [fst] in Hstacks. subst result.
  run. rewrite (find_by_Name_records name stacks Hrecords).
  destruct (find (has_Name name) stacks) as [stack|] eqn:Hfind.
  - rewrite (find_has_Name_truthy name stacks stack Hfind). reflexivity.
  - reflexivity.
Qed.

End RequestProperties.


(** ** The theorems on concrete inputs *)

Module Checks.

Import Scenario.

(** The spec's round trip: two frames of different streams, followed by two
    stray bytes, give the two texts in wire order. *)
Lemma stripDockerLogHeaders_frames_witness :
  stripDockerLogHeaders (RT := Node.runtime) (wire hello_world ++ [x01; x00])%list
  = Return "hello world".
Proof.
  apply (stripDockerLogHeaders_frames (RT := Node.runtime) hello_world [x01; x00]).
  - repeat constructor.
  - reflexivity.
  - vm_compute. discriminate.
Defined.

(** A character of two bytes split between two frames: each frame decodes
    to U+FFFD on its own, while the two payloads together decode to the
    character.  The buffer meets the premises of C2, and the result is not
    the decoding of the concatenated payloads. *)
Lemma stripDockerLogHeaders_split_character :
  Forall frame_wf split_character
  /\ Buffer.length [] < 8
  /\ first_byte_at_most_2 (wire split_character ++ [])%list
  /\ stripDockerLogHeaders (RT := Node.runtime) (wire split_character ++ [])%list
     = Return (Node.replacement ++ Node.replacement)
  /\ Buffer_toString_utf8 (Runtime := Node.runtime)
       (List.concat (map payload split_character))
     = string_of_list_byte [xc3; xa9]
  /\ stripDockerLogHeaders (RT := Node.runtime) (wire split_character ++ [])%list
     <> Return (Buffer_toString_utf8 (Runtime := Node.runtime)
                  (List.concat (map payload split_character))).
Proof.
  repeat split; try reflexivity.
  - repeat constructor.
  - vm_compute. discriminate.
  - vm_compute. discriminate.
Qed.

(** A complete frame, then a header that announces 100 bytes with 3 bytes
    left. *)
Lemma stripDockerLogHeaders_truncated_witness :
  stripDockerLogHeaders (RT := Node.runtime)
    (wire [frame x01 "hello "] ++ header_bytes x02 (x00, x00, x00) 100
     ++ list_byte_of_string "wor")%list
  = Return "hello wor".
Proof.
  apply (stripDockerLogHeaders_truncated (RT := Node.runtime)
           [frame x01 "hello "] x02 (x00, x00, x00) 100 (list_byte_of_string "wor")).
  - repeat constructor.
  - reflexivity.
  - reflexivity.
  - vm_compute. discriminate.
Defined.

(** The empty buffer, and a buffer that starts with the byte 255. *)
Lemma stripDockerLogHeaders_passthrough_witness :
  stripDockerLogHeaders (RT := Node.runtime) [] = Return ""
  /\ stripDockerLogHeaders (RT := Node.runtime) (xff :: list_byte_of_string "hi")
     = Return (Node.utf8_decode (xff :: list_byte_of_string "hi")).
Proof.
  split.
  - apply (proj1 (stripDockerLogHeaders_passthrough (RT := Node.runtime) [])).
    reflexivity.
  - apply (proj2 (stripDockerLogHeaders_passthrough (RT := Node.runtime)
                    (xff :: list_byte_of_string "hi")) 255).
    + reflexivity.
    + reflexivity.
Defined.

(** The client of the test suite has its write flag off: stopping a
    container fails at the gate, and the world stays empty. *)
Lemma write_gate_closed_witness :
  perform (RT := Node.runtime) (answers (replies true 200 "")) client
    (ContainerActionCall 1 "abc123" ActionStop) []
  = (Throw write_disabled, [])
  /\ error_code write_disabled = Some "WRITE_DISABLED"
  /\ fetch_calls (snd (perform (RT := Node.runtime) (answers (replies true 200 ""))
                         client (ContainerActionCall 1 "abc123" ActionStop) []))
     = fetch_calls [].
Proof.
  apply (write_gate_closed (RT := Node.runtime) (answers (replies true 200 ""))
           client (ContainerActionCall 1 "abc123" ActionStop) []).
  reflexivity.
Defined.

(** A success status with a body that is not JSON. *)
Lemma request_parse_failure_classified_witness :
  fst (request (RT := Node.runtime) (answers (replies true 200 "<html>")) client
         "GET" "/endpoints" None None None [])
  = Throw (PortainerClientError
             "Cannot connect to Portainer at https://portainer.example.com: SyntaxError: Unexpected token in JSON"
             "CONNECTION_ERROR" None).
Proof.
  apply (request_parse_failure_classified (RT := Node.runtime)
           (answers (replies true 200 "<html>")) client
           "GET" "/endpoints" None None None []
           (replies true 200 "<html>") "<html>" "Unexpected token in JSON").
  - reflexivity.
  - reflexivity.
  - reflexivity.
  - discriminate.
  - reflexivity.
  - reflexivity.
Defined.

(** No call of [request], whatever the run time, the remote and the
    arguments, throws an error that is not of the client's own class: the
    parse failure of C4 is no exception. *)
Lemma request_never_throws_unclassified :
  ~ exists (RT : Runtime) (remote : Remote) (this : PortainerClient)
           (method path : string) (body : option JsValue) (timeout : option Z)
           (raw : option bool) (w : World) (e : JsError),
      fst (request (RT := RT) remote this method path body timeout raw w) = Throw e
      /\ is_classified e = false.
Proof.
  intros (RT & remote & this & method & path & body & timeout & raw & w & e
          & Hthrow & Hclass).
  apply request_throws_classified in Hthrow. congruence.
Qed.

(** A status 500 whose body carries a [message], for [request] and for the
    streaming-log operation. *)
Lemma http_error_classification_witness :
  fst (request (RT := Node.runtime)
         (answers (replies false 500 (json "{'message':'Internal server error details'}")))
         client "GET" "/endpoints" None None None [])
  = Throw (PortainerClientError "Internal server error details" "HTTP_500" (Some 500))
  /\ fst (getContainerLogs (RT := Node.runtime)
            (answers (replies false 500 (json "{'message':'Internal server error details'}")))
            client 1 "abc123" None [])
     = Throw (PortainerClientError "Failed to get logs: 500" "HTTP_500" (Some 500)).
Proof.
  pose proof (http_error_classification (RT := Node.runtime)
                (answers (replies false 500
                            (json "{'message':'Internal server error details'}")))
                client
                (replies false 500 (json "{'message':'Internal server error details'}"))
                eq_refl (or_intror eq_refl)) as [Hrequest Hlogs].
  split.
  - apply (Hrequest "GET" "/endpoints" None None None []
             (json "{'message':'Internal server error details'}")
             "Internal server error details"); reflexivity.
  - apply (Hlogs 1 "abc123" None []). reflexivity.
Defined.

(** C3 (a defect of the code).  The claim asks, of every operation that
    receives a response, the streaming-log fetch included, that a status
    401 gives the code [HTTP_401] and a message with an invalid-credential
    phrase.  On the same response with status 401, [request] (here
    through [GET /endpoints]) throws [Invalid API key or expired token],
    while [getContainerLogs] throws [Failed to get logs: 401]: the code is
    [HTTP_401] on both paths, but the message of the streaming-log path is
    not the one of the fixed mapping and names no key and no token. *)
Lemma getContainerLogs_401_message :
  response_wf (replies false 401 "") /\ non_success 401
  /\ fst (getContainerLogs (RT := Node.runtime) (answers (replies false 401 ""))
            client 1 "abc123" None [])
     = Throw (PortainerClientError "Failed to get logs: 401" "HTTP_401" (Some 401))
  /\ fst (request (RT := Node.runtime) (answers (replies false 401 ""))
            client "GET" "/endpoints" None None None [])
     = Throw (PortainerClientError "Invalid API key or expired token" "HTTP_401"
                (Some 401))
  /\ includes "Failed to get logs: 401" "Invalid API key" = false
  /\ includes "Failed to get logs: 401" "key" = false
  /\ includes "Failed to get logs: 401" "token" = false.
Proof.
  repeat split; try reflexivity. right. reflexivity.
Qed.

(** Three stacks, two of them named [db]: the first of the two is
    returned, with all its fields. *)
Lemma getStackByName_lookup_witness :
  fst (getStackByName (RT := Node.runtime) (answers (replies true 200 stacks_json))
         client "db" [])
  = Return (JObject [("Id", JNumber 2); ("Name", JString "db"); ("Type", JNumber 2)])
  /\ includes "Stack not found: db" "db" = true.
Proof.
  apply (getStackByName_lookup (RT := Node.runtime)
           (answers (replies true 200 stacks_json)) client "db"
           [JObject [("Id", JNumber 1); ("Name", JString "web")];
            JObject [("Id", JNumber 2); ("Name", JString "db"); ("Type", JNumber 2)];
            JObject [("Id", JNumber 3); ("Name", JString "db")]] []).
  - reflexivity.
  - repeat constructor; eexists; reflexivity.
Defined.

(** The examples of the specification for the clamp of [tail]. *)
Example tail_50000 :
  fetch_calls (snd (getContainerLogs (RT := Node.runtime)
                      (answers (replies true 200 "")) client 1 "abc123"
                      (Some 50000) []))
  = [EvFetch
       "https://portainer.example.com/api/endpoints/1/docker/containers/abc123/logs?stdout=true&stderr=true&tail=10000"
       (logs_init client 0)].
Proof. reflexivity. Qed.

Example tail_negative :
  fetch_calls (snd (getContainerLogs (RT := Node.runtime)
                      (answers (replies true 200 "")) client 1 "abc123"
                      (Some (-5)) []))
  = [EvFetch
       "https://portainer.example.com/api/endpoints/1/docker/containers/abc123/logs?stdout=true&stderr=true&tail=1"
       (logs_init client 0)].
Proof. reflexivity. Qed.

Example tail_default :
  fetch_calls (snd (getContainerLogs (RT := Node.runtime)
                      (answers (replies true 200 "")) client 1 "abc123" None []))
  = [EvFetch
       "https://portainer.example.com/api/endpoints/1/docker/containers/abc123/logs?stdout=true&stderr=true&tail=100"
       (logs_init client 0)].
Proof. reflexivity. Qed.

(** A name that no stack has. *)
Example getStackByName_missing :
  fst (getStackByName (RT := Node.runtime) (answers (replies true 200 stacks_json))
         client "cache" [])
  = Throw (PortainerClientError "Stack not found: cache" "NOT_FOUND" (Some 404)).
Proof. reflexivity. Qed.

(** The fixed messages carry the phrases that the test suite looks for. *)
Example fixed_messages :
  includes "Invalid API key or expired token" "Invalid API key" = true
  /\ includes "Insufficient permissions for this operation" "Insufficient permissions"
     = true
  /\ includes ("Resource not found: " ++ "/endpoints/999") "/endpoints/999" = true.
Proof. repeat split. Qed.

(** With the write flag on, the same call goes to the network. *)
Example write_gate_open :
  fetch_calls
    (snd (containerAction (RT := Node.runtime) (answers (replies true 200 ""))
            (new_PortainerClient "https://portainer.example.com" "test-api-key"
               (Some true))
            1 "abc123" ActionRemove []))
  = [EvFetch
       "https://portainer.example.com/api/endpoints/1/docker/containers/abc123?force=true"
       (request_init (RT := Node.runtime)
          (new_PortainerClient "https://portainer.example.com" "test-api-key"
             (Some true)) "DELETE" JUndefined 0)].
Proof. reflexivity. Qed.

End Checks.

(** ** The request lifecycle *)

Lemma app_events (w : World) (a b c : Event) (rest : list Event) :
  ((((w ++ [a]) ++ [b]) ++ [c]) ++ rest)%list = (w ++ [a; b; c] ++ rest)%list.
Proof. now rewrite <- !app_assoc. Qed.

Lemma snd_bind_ret (A B : Type) (m : Action A) (b : B) (w : World) :
  snd (bind m (fun _ => ret b) w) = snd (m w).
Proof.
  unfold bind, ret. destruct (m w) as [[a|e] w']; reflexivity.
Qed.

Section RequestLifecycle.

Context {RT : Runtime}.
Variable remote : Remote.
Variable this : PortainerClient.

(** The events of a call of [request], in order. *)
Lemma request_trace (method path : string) (body : option JsValue)
  (timeout : option Z) (raw : option bool) (w : World) :
  snd (request remote this method path body timeout raw w)
  = (w ++ [EvSetTimeout (next_timer w) (default 30000 timeout);
           EvFetch (request_url this path)
             (request_init this method (default JUndefined body) (next_timer w));
           EvClearTimeout (next_timer w)]
       ++ match remote (request_url this path)
                  (request_init this method (default JUndefined body) (next_timer w)),
                fst (request remote this method path body timeout raw w) with
          | Return _, Throw _ => [EvClearTimeout (next_timer w)]
          | _, _ => []
          end)%list.
Proof.
  unfold request. cbv zeta. run.
  destruct (remote _ _) as [response|e].
  - destruct (response_ok response); cbn [negb].
    + destruct (response_text response) as [text|e].
      * destruct (text =? "")%string; [now rewrite <- !app_assoc|].
        destruct (default false raw); [now rewrite <- !app_assoc|].
        destruct (JSON_parse text) as [v|e]; [now rewrite <- !app_assoc|].
        destruct e as [? ? ?|name ?]; [|destruct (name =? "AbortError")%string];
          cbn [fst snd]; now rewrite <- !app_assoc.
      * destruct e as [? ? ?|name ?]; [|destruct (name =? "AbortError")%string];
          cbn [fst snd]; now rewrite <- !app_assoc.
    + destruct (response_text response) as [errorBody|e].
      * rewrite error_message_of_spec. unfold new_PortainerClientError.
        destruct (ToString _) as [message|e];
          [|destruct e as [? ? ?|name ?];
            [|destruct (name =? "AbortError")%string]];
          cbn [fst snd]; now rewrite <- !app_assoc.
      * destruct e as [? ? ?|name ?]; [|destruct (name =? "AbortError")%string];
          cbn [fst snd]; now rewrite <- !app_assoc.
  - destruct e as [? ? ?|name ?]; [|destruct (name =? "AbortError")%string];
      cbn [fst snd]; now rewrite <- !app_assoc.
Qed.

(** The one network call of [request]. *)
Lemma request_fetch_calls (method path : string) (body : option JsValue)
  (timeout : option Z) (raw : option bool) (w : World) :
  fetch_calls (snd (request remote this method path body timeout raw w))
  = (fetch_calls w
     ++ [EvFetch (request_url this path)
           (request_init this method (default JUndefined body) (next_timer w))])%list.
Proof.
  rewrite request_trace, !fetch_calls_app. f_equal.
  destruct (remote _ _);
    destruct (fst (request remote this method path body timeout raw w));
    reflexivity.
Qed.

(** X1.  A call of [request] arms one timer, makes one network call and
    clears that timer, once or (when it throws after an answer) twice, and
    does nothing else: it makes no second call and leaves no timer
    armed, whatever the outcome. *)
Theorem request_events (method path : string) (body : option JsValue)
  (timeout : option Z) (raw : option bool) (w : World) :
  exists clears : list Event,
    snd (request remote this method path body timeout raw w)
    = (w ++ [EvSetTimeout (next_timer w) (default 30000 timeout);
             EvFetch (request_url this path)
               (request_init this method (default JUndefined body) (next_timer w))]
         ++ clears)%list
    /\ (clears = [EvClearTimeout (next_timer w)]
        \/ clears = [EvClearTimeout (next_timer w); EvClearTimeout (next_timer w)]).
Proof.
  rewrite request_trace.
  destruct (remote _ _);
    destruct (fst (request remote this method path body timeout raw w));
    eexists; (split; [reflexivity|]); cbn [app]; auto.
Qed.

(** What [request] throws for an exception raised inside its [try]. *)
Lemma request_catches (method path : string) (body : option JsValue)
  (timeout : option Z) (raw : option bool) (w : World) (e : JsError) :
  (remote (request_url this path)
     (request_init this method (default JUndefined body) (next_timer w)) = Throw e
   \/ exists response,
        remote (request_url this path)
          (request_init this method (default JUndefined body) (next_timer w))
        = Return response
        /\ (response_text response = Throw e
            \/ exists errorBody,
                 response_ok response = false
                 /\ response_text response = Return errorBody
                 /\ ToString (spec_error_message (response_status response)
                                path errorBody) = Throw e)) ->
  fst (request remote this method path body timeout raw w)
  = Throw (request_caught this (default 30000 timeout) e).
Proof.
  intros Hcase. unfold request. cbv zeta. run.
  destruct Hcase as [->|(response & -> & [Htext|(errorBody & Hok & Htext & Hmsg)])].
  - destruct e as [? ? ?|name ?]; [|cbn; destruct (name =? "AbortError")%string];
      reflexivity.
  - rewrite Htext.
    destruct (response_ok response); cbn [negb];
      (destruct e as [? ? ?|name ?]; [|cbn; destruct (name =? "AbortError")%string];
       reflexivity).
  - rewrite Hok, Htext. cbn [negb]. rewrite error_message_of_spec.
    unfold new_PortainerClientError. rewrite Hmsg.
    destruct e as [? ? ?|name ?]; [|cbn; destruct (name =? "AbortError")%string];
      reflexivity.
Qed.

(** X2.  When [fetch] rejects, [request] throws [TIMEOUT] for an
    [AbortError], with the timeout in the message and no status, and
    [CONNECTION_ERROR] for any other error, with the base address and the
    text of the error in the message. *)
Theorem request_rejected (method path : string) (body : option JsValue)
  (timeout : option Z) (raw : option bool) (w : World) (name message : string) :
  remote (request_url this path)
    (request_init this method (default JUndefined body) (next_timer w))
  = Throw (NativeError name message) ->
  fst (request remote this method path body timeout raw w)
  = Throw (if (name =? "AbortError")%string
           then PortainerClientError
                  ("Request timeout after "
                   ++ Number_toString (default 30000 timeout) ++ "ms")
                  "TIMEOUT" None
           else PortainerClientError
                  ("Cannot connect to Portainer at " ++ baseUrl this ++ ": "
                   ++ Error_toString (NativeError name message))
                  "CONNECTION_ERROR" None).
Proof.
  intros Hremote.
  rewrite (request_catches method path body timeout raw w (NativeError name message))
    by (left; exact Hremote).
  cbn [request_caught]. destruct (name =? "AbortError")%string; reflexivity.
Qed.

(** X3.  When the remote answers with [ok] and the body is read,
    [request] returns the empty object for an empty body, the text itself
    in raw mode, and otherwise the value that [JSON.parse] makes of the
    text. *)
Theorem request_returns_decoded (method path : string) (body : option JsValue)
  (timeout : option Z) (raw : option bool) (w : World) (response : Response)
  (text : string) (v : JsValue) :
  remote (request_url this path)
    (request_init this method (default JUndefined body) (next_timer w))
  = Return response ->
  response_ok response = true ->
  response_text response = Return text ->
  (if (text =? "")%string then v = JObject []
   else if default false raw then v = JString text
   else JSON_parse text = Return v) ->
  fst (request remote this method path body timeout raw w) = Return v.
Proof.
  intros Hremote Hok Htext Hv.
  unfold request. cbv zeta. run.
  rewrite Hremote, Hok, Htext. cbn [negb].
  destruct (text =? "")%string; [now subst v|].
  destruct (default false raw); [now subst v|].
  rewrite Hv. reflexivity.
Qed.

(** X4.  When the body of a response cannot be read, [request] reports
    the failure of the read, as [TIMEOUT] or [CONNECTION_ERROR]: for a
    response without [ok] the code is not [HTTP_s] and the status is not
    carried. *)
Theorem request_body_unreadable (method path : string) (body : option JsValue)
  (timeout : option Z) (raw : option bool) (w : World) (response : Response)
  (name message : string) :
  remote (request_url this path)
    (request_init this method (default JUndefined body) (next_timer w))
  = Return response ->
  response_text response = Throw (NativeError name message) ->
  fst (request remote this method path body timeout raw w)
  = Throw (request_caught this (default 30000 timeout) (NativeError name message))
  /\ error_status (request_caught this (default 30000 timeout)
                     (NativeError name message)) = None
  /\ (error_code (request_caught this (default 30000 timeout)
                    (NativeError name message)) = Some "TIMEOUT"
      \/ error_code (request_caught this (default 30000 timeout)
                       (NativeError name message)) = Some "CONNECTION_ERROR").
Proof.
  intros Hremote Htext. split.
  - apply request_catches. right. exists response. auto.
  - cbn [request_caught]. destruct (name =? "AbortError")%string; cbn; auto.
Qed.

(** X5.  For a status other than 401, 403 and 404, when the value taken
    from the body as the message does not convert to a string (an object
    with a [toString] member of its own, or an array that holds one), the
    construction of the error throws a [TypeError] inside the [try], and
    [request] throws [CONNECTION_ERROR] in place of [HTTP_s]. *)
Theorem request_message_unconvertible (method path : string)
  (body : option JsValue) (timeout : option Z) (raw : option bool) (w : World)
  (response : Response) (errorBody : string) (properties : list (string * JsValue))
  (chosen : JsValue) :
  remote (request_url this path)
    (request_init this method (default JUndefined body) (next_timer w))
  = Return response ->
  response_ok response = false ->
  response_text response = Return errorBody ->
  response_status response <> 401 ->
  response_status response <> 403 ->
  response_status response <> 404 ->
  JSON_parse errorBody = Return (JObject properties) ->
  (if truthy (lookup "message" properties) then chosen = lookup "message" properties
   else truthy (lookup "details" properties) = true
        /\ chosen = lookup "details" properties) ->
  ToString chosen = Throw cannot_convert ->
  fst (request remote this method path body timeout raw w)
  = Throw (PortainerClientError
             ("Cannot connect to Portainer at " ++ baseUrl this
              ++ ": TypeError: Cannot convert object to primitive value")
             "CONNECTION_ERROR" None).
Proof.
  intros Hremote Hok Htext H401 H403 H404 Hparse Hchosen Hconv.
  apply Z.eqb_neq in H401, H403, H404.
  rewrite (request_catches method path body timeout raw w cannot_convert);
    [reflexivity|].
  right. exists response. split; [exact Hremote|]. right.
  exists errorBody. repeat split; try assumption.
  unfold spec_error_message. rewrite H401, H403, H404, Hparse.
  destruct (truthy (lookup "message" properties)).
  - now subst chosen.
  - destruct Hchosen as [-> ->]. exact Hconv.
Qed.

End RequestLifecycle.

(** ** The constructor and the operations *)

Lemma strip_trailing_slash_app (s : string) : strip_trailing_slash (s ++ "/") = s.
Proof.
  induction s as [|c s IH]; [reflexivity|].
  cbn [append strip_trailing_slash]. rewrite IH.
  destruct s; reflexivity.
Qed.

Lemma strip_trailing_slash_id (s : string) :
  ends_with_slash s = false -> strip_trailing_slash s = s.
Proof.
  induction s as [|c s IH]; [reflexivity|].
  cbn [ends_with_slash strip_trailing_slash].
  destruct s as [|c' s].
  - intros ->. reflexivity.
  - intros Hs. now rewrite IH.
Qed.

(** X6.  The constructor removes one trailing slash from the base address
    and no more, leaves an address without a trailing slash as it is,
    keeps the key, and takes the write flag as off when it is not
    given. *)
Theorem new_PortainerClient_fields (base key : string) (flag : option bool) :
  baseUrl (new_PortainerClient (base ++ "/") key flag) = base
  /\ (ends_with_slash base = false ->
      baseUrl (new_PortainerClient base key flag) = base)
  /\ apiKey (new_PortainerClient base key flag) = key
  /\ writeEnabled (new_PortainerClient base key None) = false.
Proof.
  cbn [new_PortainerClient baseUrl apiKey writeEnabled default].
  repeat split.
  - apply strip_trailing_slash_app.
  - apply strip_trailing_slash_id.
Qed.

Lemma split_colon_no_colon (s : string) : no_colon s -> split_colon s = [s].
Proof.
  unfold no_colon. induction s as [|c s IH]; [reflexivity|].
  cbn [list_ascii_of_string split_colon]. intros Hs.
  apply Forall_cons_iff in Hs as [Hc Hs].
  apply Ascii.eqb_neq in Hc. rewrite Hc, (IH Hs). reflexivity.
Qed.

Lemma split_colon_app (a rest : string) :
  no_colon a -> split_colon (a ++ ":" ++ rest) = a :: split_colon rest.
Proof.
  unfold no_colon. induction a as [|c a IH]; [reflexivity|].
  cbn [list_ascii_of_string append split_colon]. intros Ha.
  apply Forall_cons_iff in Ha as [Hc Ha].
  apply Ascii.eqb_neq in Hc. rewrite Hc.
  cbn [append] in IH. rewrite (IH Ha). reflexivity.
Qed.

Lemma bind_lift_return (A B : Type) (a : A) (k : A -> Action B) (w : World) :
  bind (lift (Return a)) k w = k a w.
Proof. reflexivity. Qed.

(** A [lift] of a value that is returned, followed by its continuation. *)
Ltac returned :=
  repeat match goal with
         | |- context [bind (lift (Return ?a)) ?k ?w] =>
             change (bind (lift (Return a)) k w) with (k a w); cbv beta
         end.

Lemma prepend_throws (first : string) (rest : Completion string) (e : JsError) :
  prepend first rest = Throw e -> rest = Throw e.
Proof. destruct rest; [discriminate | now intros [= ->]]. Qed.

(** [encodeURIComponent] throws nothing but the [URIError]. *)
Lemma encodeURIComponent_throws (s : string) (e : JsError) :
  encodeURIComponent s = Throw e -> e = uri_malformed.
Proof.
  assert (forall (n : nat) (s : string),
             (String.length s <= n)%nat ->
             encodeURIComponent s = Throw e -> e = uri_malformed) as Hlength.
  { induction n as [|n IH]; intros [|c rest] Hlen Hthrow;
      try discriminate; cbn [String.length] in Hlen; [lia|].
    cbn [encodeURIComponent] in Hthrow. cbv zeta in Hthrow.
    assert (encodeURIComponent rest = Throw e -> e = uri_malformed) as Hrest
      by (apply IH; lia).
    destruct (uri_unreserved c); [apply prepend_throws in Hthrow; auto|].
    destruct (N_of_ascii c =? 237)%N; [|apply prepend_throws in Hthrow; auto].
    destruct rest as [|h2 [|h3 after]];
      try (apply prepend_throws in Hthrow; now auto).
    destruct (is_high (N_of_ascii h2)).
    - destruct after as [|l1 [|l2 [|l3 after']]]; try congruence.
      destruct ((N_of_ascii l1 =? 237)%N && is_low (N_of_ascii l2));
        [|congruence].
      apply prepend_throws in Hthrow. apply (IH after'); [|exact Hthrow].
      cbn [String.length] in Hlen. lia.
    - destruct (is_low (N_of_ascii h2)); [congruence|].
      apply prepend_throws in Hthrow; auto. }
  exact (Hlength (String.length s) s (Nat.le_refl _)).
Qed.

Section Operations.

Context {RT : Runtime}.
Variable remote : Remote.
Variable this : PortainerClient.

(** X7.  Every read operation makes one network call, a [GET] below the
    API root that carries the key and no body, and it does so whatever the
    write flag of the client: the gate does not apply to reads. *)
Theorem read_operations_one_get (call : ReadCall) (w : World) :
  exists path : string,
    fetch_calls (snd (perform_read remote this call w))
    = (fetch_calls w
       ++ [EvFetch (baseUrl this ++ "/api" ++ path)
             {| method := "GET";
                headers := [("X-API-Key", apiKey this);
                            ("Content-Type", "application/json")];
                body := None;
                signal := next_timer w |}])%list.
Proof.
  destruct call; cbn [perform_read];
    unfold getEnvironments, getEnvironment, getContainers, inspectContainer,
      getContainerStats, getStacks, getStack, getStackFile, getImages,
      getVolumes, getNetworks, getDashboard, getSystemInfo, getSystemVersion,
      getRegistries;
    cbv zeta; rewrite request_fetch_calls; eexists; reflexivity.
Qed.

(** X8.  With the write flag on, every mutating operation whose
    arguments [encodeURIComponent] accepts makes one network call, with
    the method [POST], [PUT] or [DELETE] and never [GET], through
    [request].  When [encodeURIComponent] refuses an argument (the image
    or the tag of [pullImage], the image of [removeImage], the name of
    [removeVolume], with a surrogate that has no partner), the operation
    throws the [URIError], which is not an error of the client's own
    class, and has no effect: no timer and no network call. *)
Theorem mutating_operations_open (call : MutatingCall) (w : World) :
  writeEnabled this = true ->
  if forallb encodable (uri_arguments call)
  then exists (method path : string) (body : JsValue),
         In method ["POST"; "PUT"; "DELETE"]
         /\ fetch_calls (snd (perform remote this call w))
            = (fetch_calls w
               ++ [EvFetch (request_url this path)
                     (request_init this method body (next_timer w))])%list
  else perform remote this call w = (Throw uri_malformed, w).
Proof.
  intros Hflag.
  destruct call as [envId containerId action|stackId action| | | |
                    |envId image|envId imageId| |envId name| | ];
    cbn [perform uri_arguments forallb andb];
    unfold containerAction, stackAction, createStack, updateStack,
      redeployStack, deleteStack, pullImage, removeImage, createVolume,
      removeVolume, createNetwork, removeNetwork;
    cbv zeta; unfold bind at 1; unfold checkWriteEnabled; rewrite Hflag;
    cbn [negb ret]; try destruct action;
    try (rewrite ?snd_bind_ret, request_fetch_calls;
         do 3 eexists; (split; [|reflexivity]); cbn; now auto).
  - unfold encodable.
    destruct (encodeURIComponent (nth 0 (split_colon image) ""))
      as [fromImage|e] eqn:Hfrom; cbn [andb].
    + destruct (encodeURIComponent
                  match nth_error (split_colon image) 1 with
                  | Some t => t
                  | None => "latest"
                  end) as [tag|e] eqn:Htag; cbn [andb].
      * returned.
        rewrite snd_bind_ret, request_fetch_calls.
        do 3 eexists; (split; [|reflexivity]); cbn; auto.
      * returned.
        rewrite (encodeURIComponent_throws _ _ Htag). reflexivity.
    + rewrite (encodeURIComponent_throws _ _ Hfrom). reflexivity.
  - unfold encodable.
    destruct (encodeURIComponent imageId) as [encoded|e] eqn:Hencoded; cbn [andb].
    + returned.
      rewrite snd_bind_ret, request_fetch_calls.
      do 3 eexists; (split; [|reflexivity]); cbn; auto.
    + rewrite (encodeURIComponent_throws _ _ Hencoded). reflexivity.
  - unfold encodable.
    destruct (encodeURIComponent name) as [encoded|e] eqn:Hencoded; cbn [andb].
    + returned.
      rewrite snd_bind_ret, request_fetch_calls.
      do 3 eexists; (split; [|reflexivity]); cbn; auto.
    + rewrite (encodeURIComponent_throws _ _ Hencoded). reflexivity.
Qed.

(** X9.  The image reference of [pullImage] is cut at its colons and only
    the first two pieces are used, each escaped by [encodeURIComponent]: a
    reference without a colon is pulled with the tag [latest]; otherwise
    the piece before the first colon is the image and the piece up to the
    next colon is the tag, so that a reference with a registry port,
    [host:port/name:tag], is pulled as image [host] with tag
    [port/name]. *)
Theorem pullImage_reference (envId : Z) (name fromImage : string) (w : World) :
  writeEnabled this = true ->
  no_colon name ->
  encodeURIComponent name = Return fromImage ->
  fetch_calls (snd (pullImage remote this envId name w))
  = (fetch_calls w
     ++ [EvFetch (baseUrl this ++ "/api/endpoints/" ++ Number_toString envId
                  ++ "/docker/images/create?fromImage=" ++ fromImage
                  ++ "&tag=latest")
           (request_init this "POST" JUndefined (next_timer w))])%list
  /\ (forall tag rest escaped : string,
        no_colon tag ->
        rest = "" \/ (exists more, rest = ":" ++ more) ->
        encodeURIComponent tag = Return escaped ->
        fetch_calls (snd (pullImage remote this envId (name ++ ":" ++ tag ++ rest) w))
        = (fetch_calls w
           ++ [EvFetch (baseUrl this ++ "/api/endpoints/" ++ Number_toString envId
                        ++ "/docker/images/create?fromImage=" ++ fromImage
                        ++ "&tag=" ++ escaped)
                 (request_init this "POST" JUndefined (next_timer w))])%list).
Proof.
  intros Hflag Hname Hfrom.
  assert (forall image first second,
             encodeURIComponent (nth 0 (split_colon image) "") = Return first ->
             encodeURIComponent
               match nth_error (split_colon image) 1 with
               | Some t => t
               | None => "latest"
               end = Return second ->
             fetch_calls (snd (pullImage remote this envId image w))
             = (fetch_calls w
                ++ [EvFetch
                      (request_url this
                         ("/endpoints/" ++ Number_toString envId
                          ++ "/docker/images/create?fromImage=" ++ first
                          ++ "&tag=" ++ second))
                      (request_init this "POST" JUndefined (next_timer w))])%list)
    as Hpull.
  { intros image first second Hfirst Hsecond.
    unfold pullImage. cbv zeta. unfold bind at 1.
    unfold checkWriteEnabled. rewrite Hflag. cbn [negb ret].
    rewrite Hfirst. returned. rewrite Hsecond. returned.
    now rewrite snd_bind_ret, request_fetch_calls. }
  split.
  - rewrite (Hpull name fromImage "latest"); [reflexivity | |];
      rewrite (split_colon_no_colon name Hname); [exact Hfrom | reflexivity].
  - intros tag rest escaped Htag Hrest Hescaped.
    rewrite (Hpull (name ++ ":" ++ tag ++ rest) fromImage escaped); [reflexivity | |];
      rewrite (split_colon_app name _ Hname);
      (destruct Hrest as [->|[more ->]];
       [rewrite string_app_nil_r, (split_colon_no_colon tag Htag)
       |rewrite (split_colon_app tag more Htag)]);
      assumption.
Qed.

(** X10.  The lookup by name fetches the whole collection with one [GET]
    of [/api/stacks], whatever the name and the outcome, and when that
    call fails its error reaches the caller as it is: it is not turned
    into [NOT_FOUND]. *)
Theorem getStackByName_one_call (name : string) (w : World) :
  fetch_calls (snd (getStackByName remote this name w))
  = (fetch_calls w
     ++ [EvFetch (baseUrl this ++ "/api/stacks")
           (request_init this "GET" JUndefined (next_timer w))])%list
  /\ (forall e, fst (getStacks remote this w) = Throw e ->
        fst (getStackByName remote this name w) = Throw e).
Proof.
  pose proof (request_fetch_calls remote this "GET" "/stacks" None None None w)
    as Hcalls.
  unfold getStackByName, getStacks in *. unfold bind at 1 3.
  destruct (request remote this "GET" "/stacks" None None None w)
    as [[stacks|e] w'] eqn:Hlist; cbn [fst snd] in *.
  - split; [|discriminate].
    unfold bind, lift, ret, throw.
    destruct (match stacks with JArray _ => _ | _ => _ end) as [stack|e];
      [destruct (negb (truthy stack))|]; exact Hcalls.
  - split; [exact Hcalls|]. now intros e' [= <-].
Qed.

(** X11.  When what [getStacks] returns is not an array (the empty object
    that [request] makes of an empty body, for one), the lookup by name
    throws a [TypeError]: an error that is not of the client's own
    class. *)
Theorem getStackByName_not_an_array (name : string) (stacks : JsValue) (w : World) :
  fst (getStacks remote this w) = Return stacks ->
  (forall elements, stacks <> JArray elements) ->
  exists message : string,
    fst (getStackByName remote this name w) = Throw (NativeError "TypeError" message).
Proof.
  intros Hstacks Hshape.
  unfold getStackByName. unfold bind at 1.
  destruct (getStacks remote this w) as [result w'].
  cbn [fst] in Hstacks. subst result. run.
  destruct stacks; try (eexists; reflexivity).
  now elim (Hshape elements).
Qed.

End Operations.

(** ** The streaming-log operation *)

Section Logs.

Context {RT : Runtime}.
Variable remote : Remote.
Variable this : PortainerClient.

(** The demultiplexer returns. *)
Lemma stripDockerLogHeaders_returns (buffer : Buffer.t) :
  exists text : string, stripDockerLogHeaders buffer = Return text.
Proof.
  unfold stripDockerLogHeaders.
  destruct (Buffer.length buffer =? 0); [eexists; reflexivity|].
  destruct (greater_than (Buffer.get buffer 0) 2); [eexists; reflexivity|].
  destruct (while_loop_returns buffer (Z.to_nat (Buffer.length buffer - 0)) 0 [])
    as [chunks ->]; [lia | lia |].
  eexists; reflexivity.
Qed.

(** The events of a call of [getContainerLogs], in order. *)
Lemma logs_trace (envId : Z) (containerId : string) (tail : option Z) (w : World) :
  snd (getContainerLogs remote this envId containerId tail w)
  = (w ++ [EvSetTimeout (next_timer w) 60000;
           EvFetch (logs_url this envId containerId (clamp (default 100 tail) 1 10000))
             (logs_init this (next_timer w));
           EvClearTimeout (next_timer w)]
       ++ match remote (logs_url this envId containerId
                          (clamp (default 100 tail) 1 10000))
                  (logs_init this (next_timer w)),
                fst (getContainerLogs remote this envId containerId tail w) with
          | Return _, Throw _ => [EvClearTimeout (next_timer w)]
          | _, _ => []
          end)%list.
Proof.
  unfold getContainerLogs. cbv zeta. rewrite clamp_min_max. run.
  destruct (remote _ _) as [response|e].
  - destruct (response_ok response); cbn [negb fst snd].
    + destruct (response_arrayBuffer response) as [buffer|e].
      * destruct (stripDockerLogHeaders_returns buffer) as [text ->].
        now rewrite <- !app_assoc.
      * destruct e as [? ? ?|name ?]; [|destruct (name =? "AbortError")%string];
          cbn [fst snd]; now rewrite <- !app_assoc.
    + now rewrite <- !app_assoc.
  - destruct e as [? ? ?|name ?]; [|destruct (name =? "AbortError")%string];
      cbn [fst snd]; now rewrite <- !app_assoc.
Qed.

(** X12.  A call of [getContainerLogs] arms one timer of 60000 ms, makes
    one network call and clears that timer, once or twice, and does
    nothing else, whatever the outcome. *)
Theorem getContainerLogs_events (envId : Z) (containerId : string)
  (tail : option Z) (w : World) :
  exists clears : list Event,
    snd (getContainerLogs remote this envId containerId tail w)
    = (w ++ [EvSetTimeout (next_timer w) 60000;
             EvFetch (logs_url this envId containerId
                        (clamp (default 100 tail) 1 10000))
               (logs_init this (next_timer w))]
         ++ clears)%list
    /\ (clears = [EvClearTimeout (next_timer w)]
        \/ clears = [EvClearTimeout (next_timer w); EvClearTimeout (next_timer w)]).
Proof.
  rewrite logs_trace.
  destruct (remote _ _);
    destruct (fst (getContainerLogs remote this envId containerId tail w));
    eexists; (split; [reflexivity|]); cbn [app]; auto.
Qed.

(** X13.  A call of [getContainerLogs] returns a text only when the
    remote answered with [ok] and the bytes of the body were read, and the
    text is then what the demultiplexer makes of those bytes; in every
    other case it throws an error of the client's own class. *)
Theorem getContainerLogs_outcome (envId : Z) (containerId : string)
  (tail : option Z) (w : World) :
  match fst (getContainerLogs remote this envId containerId tail w) with
  | Return text =>
      exists response buffer,
        remote (logs_url this envId containerId (clamp (default 100 tail) 1 10000))
          (logs_init this (next_timer w))
        = Return response
        /\ response_ok response = true
        /\ response_arrayBuffer response = Return buffer
        /\ stripDockerLogHeaders buffer = Return text
  | Throw e =>
      exists message code statusCode,
        e = PortainerClientError message code statusCode
  end.
Proof.
  unfold getContainerLogs. cbv zeta. rewrite clamp_min_max. run.
  destruct (remote _ _) as [response|e] eqn:Hremote; [|caught e].
  destruct (response_ok response) eqn:Hok; cbn [negb fst]; [|eauto].
  destruct (response_arrayBuffer response) as [buffer|e] eqn:Hbytes; [|caught e].
  destruct (stripDockerLogHeaders buffer) as [text|e] eqn:Hstrip; [|caught e].
  cbn. exists response, buffer. auto.
Qed.

(** X14.  When the remote answers with [ok] and the bytes of the body are
    read, [getContainerLogs] returns: the text is the one the
    demultiplexer makes of the bytes, and no content of the body makes the
    call fail. *)
Theorem getContainerLogs_returns_text (envId : Z) (containerId : string)
  (tail : option Z) (w : World) (response : Response) (buffer : Buffer.t) :
  remote (logs_url this envId containerId (clamp (default 100 tail) 1 10000))
    (logs_init this (next_timer w))
  = Return response ->
  response_ok response = true ->
  response_arrayBuffer response = Return buffer ->
  exists text : string,
    stripDockerLogHeaders buffer = Return text
    /\ fst (getContainerLogs remote this envId containerId tail w) = Return text.
Proof.
  intros Hremote Hok Hbytes.
  destruct (stripDockerLogHeaders_returns buffer) as [text Hstrip].
  exists text. split; [exact Hstrip|].
  unfold getContainerLogs. cbv zeta. rewrite clamp_min_max. run.
  rewrite Hremote, Hok, Hbytes, Hstrip. reflexivity.
Qed.

(** X15.  When [fetch] rejects, or when the bytes of an [ok] response
    cannot be read, [getContainerLogs] throws [TIMEOUT] for an
    [AbortError], with the fixed message of 60000 ms, and
    [CONNECTION_ERROR] for any other error, with the text of the error and
    without the base address. *)
Theorem getContainerLogs_failures (envId : Z) (containerId : string)
  (tail : option Z) (w : World) (name message : string) :
  (remote (logs_url this envId containerId (clamp (default 100 tail) 1 10000))
     (logs_init this (next_timer w))
   = Throw (NativeError name message)
   \/ exists response,
        remote (logs_url this envId containerId (clamp (default 100 tail) 1 10000))
          (logs_init this (next_timer w))
        = Return response
        /\ response_ok response = true
        /\ response_arrayBuffer response = Throw (NativeError name message)) ->
  fst (getContainerLogs remote this envId containerId tail w)
  = Throw (if (name =? "AbortError")%string
           then PortainerClientError "Request timeout after 60000ms" "TIMEOUT" None
           else PortainerClientError
                  ("Cannot connect to Portainer: "
                   ++ Error_toString (NativeError name message))
                  "CONNECTION_ERROR" None).
Proof.
  intros Hcase.
  unfold getContainerLogs. cbv zeta. rewrite clamp_min_max. run.
  destruct Hcase as [->|(response & -> & Hok & Hbytes)].
  - cbn. destruct (name =? "AbortError")%string; reflexivity.
  - rewrite Hok, Hbytes. cbn. destruct (name =? "AbortError")%string; reflexivity.
Qed.

End Logs.

(** ** The tool layer *)

Section ToolProperties.

Context {RT : Runtime} {IN : Indenter} {SC : Schemas}.
Variable remote : Remote.
Variable elsewhere : string -> option Tools.ToolHandler.

(** The timer of the call that follows a call of [request]. *)
Lemma request_next_timer (client : PortainerClient) (method path : string)
  (body : option JsValue) (timeout : option Z) (raw : option bool) (w : World) :
  next_timer (snd (request remote client method path body timeout raw w))
  = next_timer w + 1.
Proof.
  rewrite request_trace. unfold next_timer.
  rewrite !filter_app, !List.length_app.
  destruct (remote _ _);
    destruct (fst (request remote client method path body timeout raw w));
    cbn; lia.
Qed.

(** The lookup by name, run on an array of records. *)
Lemma getStackByName_run (client : PortainerClient) (name : string)
  (stacks : list JsValue) (w w' : World) :
  getStacks remote client w = (Return (JArray stacks), w') ->
  Forall is_record stacks ->
  getStackByName remote client name w
  = (match find (has_Name name) stacks with
     | Some stack => Return stack
     | None =>
         Throw (PortainerClientError ("Stack not found: " ++ name)
                  "NOT_FOUND" (Some 404))
     end, w').
Proof.
  intros Hstacks Hrecords.
  unfold getStackByName. unfold bind at 1. rewrite Hstacks. run.
  rewrite (find_by_Name_records name stacks Hrecords).
  destruct (find (has_Name name) stacks) as [stack|] eqn:Hfind.
  - rewrite (find_has_Name_truthy name stacks stack Hfind). reflexivity.
  - reflexivity.
Qed.

(** [handleToolCall] never throws.  What a handler throws comes
    back as a response flagged [isError] whose text is [Error: ] followed
    by the message of the error, from the world the handler left; a name
    that the table does not hold gives the response [Error: Unknown tool:
    name] without any effect; and what a handler returns is returned as
    it is. *)
Lemma handleToolCall_responds (client : PortainerClient) (name : string)
  (args : JsValue) (w : World) :
  match Tools.toolHandlers remote elsewhere name with
  | None =>
      Tools.handleToolCall remote elsewhere client name args w
      = (Return (error_response ("Unknown tool: " ++ name)), w)
  | Some handler =>
      Tools.handleToolCall remote elsewhere client name args w
      = (Return match fst (handler client args w) with
                | Return response => response
                | Throw e => error_response (error_message e)
                end,
         snd (handler client args w))
  end.
Proof.
  unfold Tools.handleToolCall.
  destruct (Tools.toolHandlers remote elsewhere name) as [handler|];
    [|reflexivity].
  unfold try_catch. destruct (handler client args w) as [[response|e] w'];
    reflexivity.
Qed.

(** X16.  The tool [stack_action] refuses to remove a stack when no
    environment is given, or the environment 0: it answers [Error:
    environment_id is required for remove action] before it looks at the
    write flag, and makes no network call. *)
Theorem stack_action_remove_needs_environment (client : PortainerClient)
  (args : JsValue) (parsed : StackActionArgs) (w : World) :
  StackActionSchema_parse args = Return parsed ->
  action_action parsed = ToolRemove ->
  action_environment_id parsed = None \/ action_environment_id parsed = Some 0 ->
  Tools.handleToolCall remote elsewhere client "stack_action" args w
  = (Return (error_response "environment_id is required for remove action"), w).
Proof.
  intros Hparse Haction Henv.
  unfold Tools.handleToolCall. cbn [Tools.toolHandlers String.eqb Ascii.eqb Bool.eqb].
  unfold Tools.stackAction. run. rewrite Hparse, Haction.
  destruct Henv as [->| ->]; reflexivity.
Qed.

(** X17.  With the write flag off, the tools that change a stack
    ([stack_action], [create_stack], [update_stack], [redeploy_stack]),
    called with arguments that their schemas accept, answer with the
    message of the write gate in a response flagged [isError], and make no
    network call. *)
Theorem stack_tools_gated (client : PortainerClient) (args : JsValue) (w : World) :
  writeEnabled client = false ->
  (forall parsed,
      StackActionSchema_parse args = Return parsed ->
      (action_action parsed = ToolRemove ->
       exists id, action_environment_id parsed = Some id /\ id <> 0) ->
      Tools.handleToolCall remote elsewhere client "stack_action" args w
      = (Return (error_response (error_message write_disabled)), w))
  /\ (forall parsed,
        CreateStackSchema_parse args = Return parsed ->
        Tools.handleToolCall remote elsewhere client "create_stack" args w
        = (Return (error_response (error_message write_disabled)), w))
  /\ (forall parsed,
        UpdateStackSchema_parse args = Return parsed ->
        Tools.handleToolCall remote elsewhere client "update_stack" args w
        = (Return (error_response (error_message write_disabled)), w))
  /\ (forall parsed,
        RedeployStackSchema_parse args = Return parsed ->
        Tools.handleToolCall remote elsewhere client "redeploy_stack" args w
        = (Return (error_response (error_message write_disabled)), w)).
Proof.
  intros Hflag.
  repeat split; intros parsed Hparse; try intros Henv;
    unfold Tools.handleToolCall;
    cbn [Tools.toolHandlers String.eqb Ascii.eqb Bool.eqb].
  - unfold Tools.stackAction. unfold try_catch, bind at 1 2, lift.
    rewrite Hparse.
    destruct (action_action parsed).
    + unfold stackAction. rewrite gate_first by exact Hflag. reflexivity.
    + unfold stackAction. rewrite gate_first by exact Hflag. reflexivity.
    + destruct (Henv eq_refl) as (id & -> & Hid).
      cbn [truthy]. apply Z.eqb_neq in Hid. rewrite Hid. cbn [negb].
      unfold deleteStack. rewrite gate_first by exact Hflag. reflexivity.
  - unfold Tools.createStack. unfold try_catch, bind at 1 2, lift.
    rewrite Hparse. unfold createStack. cbv zeta.
    rewrite gate_first by exact Hflag. reflexivity.
  - unfold Tools.updateStack. unfold try_catch, bind at 1 2, lift.
    rewrite Hparse. unfold updateStack. cbv zeta.
    rewrite gate_first by exact Hflag. reflexivity.
  - unfold Tools.redeployStack. unfold try_catch, bind at 1 2, lift.
    rewrite Hparse. unfold redeployStack. cbv zeta.
    rewrite gate_first by exact Hflag. reflexivity.
Qed.

End ToolProperties.

Lemma bind_returns (A B : Type) (m : Action A) (k : A -> Action B) (a : A)
  (w w' : World) :
  m w = (Return a, w') -> bind m k w = k a w'.
Proof. intros Hm. unfold bind. now rewrite Hm. Qed.

Lemma bind_throws (A B : Type) (m : Action A) (k : A -> Action B) (e : JsError)
  (w w' : World) :
  m w = (Throw e, w') -> bind m k w = (Throw e, w').
Proof. intros Hm. unfold bind. now rewrite Hm. Qed.

Section StackTools.

Context {RT : Runtime} {IN : Indenter} {SC : Schemas}.
Variable remote : Remote.
Variable elsewhere : string -> option Tools.ToolHandler.

Lemma filter_elements_records (id : Z) (stacks : list JsValue) :
  Forall is_record stacks ->
  filter_elements
    (fun s =>
       match get_property s "EndpointId" with
       | Return endpoint => Return (strict_equals_number endpoint id)
       | Throw e => Throw e
       end) stacks
  = Return (filter (endpoint_is id) stacks).
Proof.
  induction 1 as [|stack stacks [properties ->] _ IH]; [reflexivity|].
  cbn [filter_elements get_property filter endpoint_is own_property].
  rewrite IH. reflexivity.
Qed.

Lemma filter_records (id : Z) (stacks : list JsValue) :
  Forall is_record stacks -> Forall is_record (filter (endpoint_is id) stacks).
Proof.
  intros Hrecords. apply Forall_forall. intros s Hs.
  apply filter_In in Hs as [Hs _].
  exact (proj1 (Forall_forall _ _) Hrecords s Hs).
Qed.

(** The summaries of records: one for each, in order, with the
    identifier, the name and the environment of the stack. *)
Lemma map_elements_records (stacks : list JsValue) :
  Forall is_record stacks ->
  exists items,
    map_elements Tools.stack_summary stacks = Return items
    /\ Forall2 (fun stack item =>
                  own_property "id" item = own_property "Id" stack
                  /\ own_property "name" item = own_property "Name" stack
                  /\ own_property "environment_id" item
                     = own_property "EndpointId" stack)
         stacks items.
Proof.
  induction 1 as [|stack stacks [properties ->] _ (items & IH & Hitems)].
  - exists []. split; [reflexivity | constructor].
  - eexists. cbn [map_elements Tools.stack_summary get_property]. rewrite IH.
    split; [reflexivity|]. constructor; [|exact Hitems].
    cbn. auto.
Qed.

(** X18.  The tool [list_stacks], on a collection that is an array of
    records, answers with one item for each stack of the environment
    asked for (for each stack when none is asked for; the environment 0 is
    an environment like another), in the order of the collection, each
    with the identifier, the name and the environment of its stack, and
    with a count that is the number of items. *)
Theorem list_stacks_items (client : PortainerClient) (args : JsValue)
  (parsed : ListStacksArgs) (stacks : list JsValue) (w : World) :
  ListStacksSchema_parse args = Return parsed ->
  fst (getStacks remote client w) = Return (JArray stacks) ->
  Forall is_record stacks ->
  exists items : list JsValue,
    fst (Tools.listStacks remote client args w)
    = Return (Tools.formatResponse
                (JObject [("items", JArray items);
                          ("count", JNumber (Z.of_nat (List.length items)))]))
    /\ Forall2 (fun stack item =>
                  own_property "id" item = own_property "Id" stack
                  /\ own_property "name" item = own_property "Name" stack
                  /\ own_property "environment_id" item
                     = own_property "EndpointId" stack)
         (selected (list_environment_id parsed) stacks) items.
Proof.
  intros Hparse Hstacks Hrecords.
  assert (Forall is_record (selected (list_environment_id parsed) stacks))
    as Hselected.
  { unfold selected. destruct (list_environment_id parsed);
      [apply filter_records|]; exact Hrecords. }
  destruct (map_elements_records _ Hselected) as (items & Hmap & Hitems).
  exists items. split; [|exact Hitems].
  unfold Tools.listStacks. unfold bind at 1. unfold lift at 1. rewrite Hparse.
  unfold bind at 1.
  destruct (getStacks remote client w) as [result w'].
  cbn [fst] in Hstacks. subst result.
  pose proof (Forall2_length Hitems) as Hlength.
  unfold selected in Hmap, Hlength.
  destruct (list_environment_id parsed) as [id|]; run; cbn [array_elements].
  - rewrite (filter_elements_records id stacks Hrecords). cbn [array_elements].
    rewrite Hmap. cbn [fst]. now rewrite Hlength.
  - rewrite Hmap. cbn [fst]. now rewrite Hlength.
Qed.

(** X19.  The tool [get_stack_by_name], on a collection that is an array
    of records: when no stack has the name it answers [Error: Stack not
    found: name] after the one call that lists the stacks, and does not
    ask for a stack file; when a stack has the name, with a number as its
    identifier, it makes a second call, a [GET] of the file of that
    stack. *)
Theorem get_stack_by_name_calls (client : PortainerClient) (args : JsValue)
  (parsed : StackByNameArgs) (stacks : list JsValue) (w : World) :
  StackByNameSchema_parse args = Return parsed ->
  fst (getStacks remote client w) = Return (JArray stacks) ->
  Forall is_record stacks ->
  match find (has_Name (by_name_name parsed)) stacks with
  | None =>
      fst (Tools.handleToolCall remote elsewhere client "get_stack_by_name" args w)
      = Return (error_response ("Stack not found: " ++ by_name_name parsed))
      /\ fetch_calls
           (snd (Tools.handleToolCall remote elsewhere client
                   "get_stack_by_name" args w))
         = (fetch_calls w
            ++ [EvFetch (baseUrl client ++ "/api/stacks")
                  (request_init client "GET" JUndefined (next_timer w))])%list
  | Some stack =>
      forall id : Z,
        own_property "Id" stack = JNumber id ->
        fetch_calls
          (snd (Tools.handleToolCall remote elsewhere client
                  "get_stack_by_name" args w))
        = (fetch_calls w
           ++ [EvFetch (baseUrl client ++ "/api/stacks")
                 (request_init client "GET" JUndefined (next_timer w));
               EvFetch (baseUrl client ++ "/api/stacks/" ++ Number_toString id
                        ++ "/file")
                 (request_init client "GET" JUndefined (next_timer w + 1))])%list
  end.
Proof.
  intros Hparse Hstacks Hrecords.
  pose proof (request_fetch_calls remote client "GET" "/stacks" None None None w)
    as Hcalls.
  pose proof (request_next_timer remote client "GET" "/stacks" None None None w)
    as Htimer.
  fold (getStacks remote client) in Hcalls, Htimer.
  destruct (getStacks remote client w) as [result w'] eqn:Hlist.
  cbn [fst snd] in Hstacks, Hcalls, Htimer. subst result.
  pose proof (getStackByName_run remote client (by_name_name parsed) stacks w w'
                Hlist Hrecords) as Hrun.
  unfold Tools.handleToolCall.
  cbn [Tools.toolHandlers String.eqb Ascii.eqb Bool.eqb].
  unfold Tools.getStackByName, try_catch.
  rewrite Hparse, bind_lift_return.
  destruct (find (has_Name (by_name_name parsed)) stacks) as [stack|] eqn:Hfind.
  - intros id Hid.
    apply find_some in Hfind as [Hin _].
    destruct (proj1 (Forall_forall _ _) Hrecords stack Hin) as [properties ->].
    cbn [own_property] in Hid.
    rewrite (bind_returns _ _ _ _ _ _ _ Hrun).
    cbn [get_property]. rewrite Hid, bind_lift_return.
    pose proof (request_fetch_calls remote client "GET"
                  ("/stacks/" ++ Number_toString id ++ "/file") None None None w')
      as Hfile.
    rewrite Hcalls, Htimer in Hfile. rewrite <- app_assoc in Hfile.
    change (request remote client "GET"
              ("/stacks/" ++ Number_toString id ++ "/file") None None None w')
      with (Tools.getStackFile_of remote client (JNumber id) w') in Hfile.
    destruct (Tools.getStackFile_of remote client (JNumber id) w')
      as [[stackFile|e] w''] eqn:Hrequest; cbn [snd] in Hfile.
    + rewrite (bind_returns _ _ _ _ _ _ _ Hrequest). run.
      destruct (get_property stackFile "StackFileContent") as [content|e];
        [destruct (Tools.formatStackResponse _ content)|]; exact Hfile.
    + rewrite (bind_throws _ _ _ _ _ _ _ Hrequest). exact Hfile.
  - rewrite (bind_throws _ _ _ _ _ _ _ Hrun). split; [reflexivity | exact Hcalls].
Qed.

End StackTools.

(** ** The connection test *)

Section ConnectionTests.

Context {RT : Runtime}.
Variable remote : Remote.

(** X20.  [testConnection] never throws, and makes one network call, the [GET]
    of the environments, whatever the outcome. *)
Theorem testConnection_answers (client : PortainerClient) (w : World) :
  (exists result : ConnectionTest,
      fst (testConnection remote client w) = Return result)
  /\ fetch_calls (snd (testConnection remote client w))
     = (fetch_calls w
        ++ [EvFetch (baseUrl client ++ "/api/endpoints")
              (request_init client "GET" JUndefined (next_timer w))])%list.
Proof.
  pose proof (request_fetch_calls remote client "GET" "/endpoints" None None None w)
    as Hcalls.
  unfold testConnection, try_catch, getEnvironments. unfold bind at 1 3.
  destruct (request remote client "GET" "/endpoints" None None None w)
    as [[environments|e] w'] eqn:Hlist; cbn [fst snd] in *.
  - unfold bind, lift, ret.
    destruct (get_length environments) as [count|e]; cbn [fst snd].
    + split; [eexists; reflexivity | exact Hcalls].
    + destruct (is_classified e); cbn [fst snd];
        (split; [eexists; reflexivity | exact Hcalls]).
  - destruct (is_classified e); cbn [fst snd];
      (split; [eexists; reflexivity | exact Hcalls]).
Qed.

(** X21.  When the call of the environments fails, the test reports the message
    of the client's error as it is, without the name of its class: the
    branch for other exceptions is not the one taken. *)
Theorem testConnection_failed_call (client : PortainerClient) (w : World)
  (e : JsError) :
  fst (getEnvironments remote client w) = Throw e ->
  fst (testConnection remote client w)
  = Return {| test_ok := false; test_environments := JNumber 0;
              test_error := Some (error_message e) |}.
Proof.
  intros Hthrow.
  pose proof (request_throws_classified remote client "GET" "/endpoints"
                None None None w e Hthrow) as Hclass.
  unfold testConnection, try_catch. unfold bind at 1.
  destruct (getEnvironments remote client w) as [result w'].
  cbn [fst] in Hthrow. subst result. rewrite Hclass. reflexivity.
Qed.

(** X22.  An answer with [ok] does not make the count a number.  On an empty
    body, which [request] turns into the empty object, the test succeeds
    with [undefined] as the number of environments; on a body that is the
    JSON text [null] it fails, with the text of a [TypeError] as the
    error. *)
Theorem testConnection_not_a_collection (client : PortainerClient) (w : World)
  (response : Response) (text : string) :
  remote (request_url client "/endpoints")
    (request_init client "GET" JUndefined (next_timer w))
  = Return response ->
  response_ok response = true ->
  response_text response = Return text ->
  (text = "" ->
   fst (testConnection remote client w)
   = Return {| test_ok := true; test_environments := JUndefined;
               test_error := None |})
  /\ (text <> "" -> JSON_parse text = Return JNull ->
      fst (testConnection remote client w)
      = Return {| test_ok := false; test_environments := JNumber 0;
                  test_error :=
                    Some "TypeError: Cannot read properties of null (reading 'length')" |}).
Proof.
  intros Hremote Hok Htext.
  assert (forall v,
             fst (getEnvironments remote client w) = Return v ->
             fst (testConnection remote client w)
             = fst (try_catch
                      (bind (lift (get_length v))
                         (fun count =>
                            ret {| test_ok := true; test_environments := count;
                                   test_error := None |}))
                      (fun error =>
                         if is_classified error
                         then ret {| test_ok := false;
                                     test_environments := JNumber 0;
                                     test_error := Some (error_message error) |}
                         else ret {| test_ok := false;
                                     test_environments := JNumber 0;
                                     test_error := Some (Error_toString error) |})
                      (snd (getEnvironments remote client w)))) as Hrun.
  { intros v Hv. unfold testConnection, try_catch. unfold bind at 1.
    destruct (getEnvironments remote client w) as [result w'].
    cbn [fst snd] in *. subst result. reflexivity. }
  split.
  - intros ->. rewrite (Hrun (JObject [])); [reflexivity|].
    unfold getEnvironments, request. cbv zeta. run. cbn [default].
    rewrite Hremote, Hok, Htext. reflexivity.
  - intros Hfull Hparse. rewrite (Hrun JNull); [reflexivity|].
    unfold getEnvironments, request. cbv zeta. run. cbn [default].
    rewrite Hremote, Hok, Htext. cbn [negb].
    apply String.eqb_neq in Hfull. rewrite Hfull.
    cbn [default]. rewrite Hparse. reflexivity.
Qed.

End ConnectionTests.

(** ** These properties on concrete inputs *)

Module MoreChecks.

Import Scenario Cases.

(** An aborted call. *)
Lemma request_rejected_witness :
  fst (request (RT := Node.runtime)
         (fails (NativeError "AbortError" "This operation was aborted")) client
         "GET" "/endpoints" None None None [])
  = Throw (PortainerClientError "Request timeout after 30000ms" "TIMEOUT" None).
Proof.
  apply (request_rejected (RT := Node.runtime)
           (fails (NativeError "AbortError" "This operation was aborted")) client
           "GET" "/endpoints" None None None []
           "AbortError" "This operation was aborted").
  reflexivity.
Defined.

(** A collection of three stacks, returned as parsed. *)
Lemma request_returns_decoded_witness :
  fst (request (RT := Node.runtime) (answers (replies true 200 three_stacks)) client
         "GET" "/stacks" None None None [])
  = Return (JArray [stack_web; stack_db; stack_cache]).
Proof.
  apply (request_returns_decoded (RT := Node.runtime)
           (answers (replies true 200 three_stacks)) client
           "GET" "/stacks" None None None []
           (replies true 200 three_stacks) three_stacks).
  - reflexivity.
  - reflexivity.
  - reflexivity.
  - reflexivity.
Defined.

(** A response with status 500 whose body cannot be read. *)
Lemma request_body_unreadable_witness :
  fst (request (RT := Node.runtime)
         (answers (unreadable false 500 (NativeError "TypeError" "terminated")))
         client "GET" "/endpoints" None None None [])
  = Throw (PortainerClientError
             "Cannot connect to Portainer at https://portainer.example.com: TypeError: terminated"
             "CONNECTION_ERROR" None).
Proof.
  apply (proj1 (request_body_unreadable (RT := Node.runtime)
                  (answers (unreadable false 500 (NativeError "TypeError" "terminated")))
                  client "GET" "/endpoints" None None None []
                  (unreadable false 500 (NativeError "TypeError" "terminated"))
                  "TypeError" "terminated" eq_refl eq_refl)).
Defined.

(** A status 500 whose body has an object with a [toString] member as its
    message. *)
Lemma request_message_unconvertible_witness :
  fst (request (RT := Node.runtime)
         (answers (replies false 500 (json "{'message':{'toString':1}}")))
         client "GET" "/endpoints" None None None [])
  = Throw (PortainerClientError
             "Cannot connect to Portainer at https://portainer.example.com: TypeError: Cannot convert object to primitive value"
             "CONNECTION_ERROR" None).
Proof.
  apply (request_message_unconvertible (RT := Node.runtime)
           (answers (replies false 500 (json "{'message':{'toString':1}}")))
           client "GET" "/endpoints" None None None []
           (replies false 500 (json "{'message':{'toString':1}}"))
           (json "{'message':{'toString':1}}")
           [("message", JObject [("toString", JNumber 1)])]
           (JObject [("toString", JNumber 1)]));
    try reflexivity; discriminate.
Defined.

(** The base address of the test suite, with and without its slash. *)
Lemma new_PortainerClient_fields_witness :
  baseUrl (new_PortainerClient ("https://example.com" ++ "/") "key" None)
  = "https://example.com"
  /\ baseUrl (new_PortainerClient "https://example.com" "key" None)
     = "https://example.com".
Proof.
  split.
  - apply (proj1 (new_PortainerClient_fields "https://example.com" "key" None)).
  - apply (proj1 (proj2 (new_PortainerClient_fields "https://example.com" "key" None))).
    reflexivity.
Defined.

(** The removal of a container, with the write flag on, and the removal
    of a volume whose name is a high surrogate alone. *)
Lemma mutating_operations_open_witness :
  (exists (method path : string) (body : JsValue),
      In method ["POST"; "PUT"; "DELETE"]
      /\ fetch_calls
           (snd (perform (RT := Node.runtime) (answers (replies true 200 "")) writer
                   (ContainerActionCall 1 "abc123" ActionRemove) []))
         = (fetch_calls []
            ++ [EvFetch (request_url writer path)
                  (request_init (RT := Node.runtime) writer method body
                     (next_timer []))])%list)
  /\ perform (RT := Node.runtime) (answers (replies true 200 "")) writer
       (RemoveVolumeCall 1 high_surrogate) []
     = (Throw (NativeError "URIError" "URI malformed"), []).
Proof.
  split.
  - apply (mutating_operations_open (RT := Node.runtime)
             (answers (replies true 200 "")) writer
             (ContainerActionCall 1 "abc123" ActionRemove) []).
    reflexivity.
  - apply (mutating_operations_open (RT := Node.runtime)
             (answers (replies true 200 "")) writer
             (RemoveVolumeCall 1 high_surrogate) []).
    reflexivity.
Defined.

Lemma no_colon_nginx : no_colon "nginx".
Proof. repeat (constructor; [discriminate|]). constructor. Defined.

Lemma no_colon_localhost : no_colon "localhost".
Proof. repeat (constructor; [discriminate|]). constructor. Defined.

Lemma no_colon_port : no_colon "5000/app".
Proof. repeat (constructor; [discriminate|]). constructor. Defined.

(** An image without a tag, and an image on a registry with a port. *)
Lemma pullImage_reference_witness :
  fetch_calls (snd (pullImage (RT := Node.runtime) (answers (replies true 200 ""))
                      writer 1 "nginx" []))
  = [EvFetch
       "https://portainer.example.com/api/endpoints/1/docker/images/create?fromImage=nginx&tag=latest"
       (request_init (RT := Node.runtime) writer "POST" JUndefined 0)]
  /\ fetch_calls (snd (pullImage (RT := Node.runtime) (answers (replies true 200 ""))
                         writer 1 "localhost:5000/app:1.2" []))
     = [EvFetch
          "https://portainer.example.com/api/endpoints/1/docker/images/create?fromImage=localhost&tag=5000%2Fapp"
          (request_init (RT := Node.runtime) writer "POST" JUndefined 0)].
Proof.
  split.
  - apply (proj1 (pullImage_reference (RT := Node.runtime)
                    (answers (replies true 200 "")) writer 1 "nginx" "nginx" []
                    eq_refl no_colon_nginx eq_refl)).
  - apply (proj2 (pullImage_reference (RT := Node.runtime)
                    (answers (replies true 200 "")) writer 1 "localhost" "localhost" []
                    eq_refl no_colon_localhost eq_refl)
             "5000/app" ":1.2" "5000%2Fapp" no_colon_port).
    + right. exists "1.2". reflexivity.
    + reflexivity.
Defined.

(** A status 401 on the list of stacks reaches the caller of the lookup by
    name. *)
Lemma getStackByName_one_call_witness :
  fst (getStackByName (RT := Node.runtime) (answers (replies false 401 "")) client
         "db" [])
  = Throw (PortainerClientError "Invalid API key or expired token" "HTTP_401"
             (Some 401)).
Proof.
  apply (proj2 (getStackByName_one_call (RT := Node.runtime)
                  (answers (replies false 401 "")) client "db" [])).
  reflexivity.
Defined.

(** An answer with an empty body to the list of stacks. *)
Lemma getStackByName_not_an_array_witness :
  exists message : string,
    fst (getStackByName (RT := Node.runtime) (answers (replies true 200 "")) client
           "db" [])
    = Throw (NativeError "TypeError" message).
Proof.
  apply (getStackByName_not_an_array (RT := Node.runtime)
           (answers (replies true 200 "")) client "db" (JObject []) []).
  - reflexivity.
  - discriminate.
Defined.

(** The frames of the round-trip example, through the whole operation. *)
Lemma getContainerLogs_returns_text_witness :
  exists text : string,
    stripDockerLogHeaders (RT := Node.runtime) (wire hello_world) = Return text
    /\ fst (getContainerLogs (RT := Node.runtime)
              (answers {| response_ok := true; response_status := 200;
                          response_text := Return "";
                          response_arrayBuffer := Return (wire hello_world) |})
              client 1 "abc123" None [])
       = Return text.
Proof.
  apply (getContainerLogs_returns_text (RT := Node.runtime)
           (answers {| response_ok := true; response_status := 200;
                       response_text := Return "";
                       response_arrayBuffer := Return (wire hello_world) |})
           client 1 "abc123" None []
           {| response_ok := true; response_status := 200;
              response_text := Return "";
              response_arrayBuffer := Return (wire hello_world) |}
           (wire hello_world)); reflexivity.
Defined.

(** A refused connection. *)
Lemma getContainerLogs_failures_witness :
  fst (getContainerLogs (RT := Node.runtime)
         (fails (NativeError "Error" "ECONNREFUSED")) client 1 "abc123" None [])
  = Throw (PortainerClientError "Cannot connect to Portainer: Error: ECONNREFUSED"
             "CONNECTION_ERROR" None).
Proof.
  apply (getContainerLogs_failures (RT := Node.runtime)
           (fails (NativeError "Error" "ECONNREFUSED")) client 1 "abc123" None []
           "Error" "ECONNREFUSED").
  left. reflexivity.
Defined.

(** The removal of a stack for the environment 0, by a client that may
    write. *)
Lemma stack_action_remove_needs_environment_witness :
  Tools.handleToolCall (RT := Node.runtime) (IN := NodeTools.indenter)
    (SC := NodeTools.schemas) (answers (replies true 200 ""))
    NodeTools.no_other_tool writer "stack_action"
    (JObject [("stack_id", JNumber 3); ("action", JString "remove");
              ("environment_id", JNumber 0)]) []
  = (Return (error_response "environment_id is required for remove action"), []).
Proof.
  apply (stack_action_remove_needs_environment (RT := Node.runtime)
           (IN := NodeTools.indenter) (SC := NodeTools.schemas)
           (answers (replies true 200 "")) NodeTools.no_other_tool writer
           (JObject [("stack_id", JNumber 3); ("action", JString "remove");
                     ("environment_id", JNumber 0)])
           {| action_stack_id := 3; action_action := ToolRemove;
              action_environment_id := Some 0 |} []).
  - reflexivity.
  - reflexivity.
  - right. reflexivity.
Defined.

(** The stop of a stack by the client of the test suite. *)
Lemma stack_tools_gated_witness :
  Tools.handleToolCall (RT := Node.runtime) (IN := NodeTools.indenter)
    (SC := NodeTools.schemas) (answers (replies true 200 ""))
    NodeTools.no_other_tool client "stack_action"
    (JObject [("stack_id", JNumber 3); ("action", JString "stop")]) []
  = (Return
       (error_response
          "Write operations disabled. Set PORTAINER_WRITE_ENABLED=true to enable."),
     []).
Proof.
  apply (proj1 (stack_tools_gated (RT := Node.runtime) (IN := NodeTools.indenter)
                  (SC := NodeTools.schemas) (answers (replies true 200 ""))
                  NodeTools.no_other_tool client
                  (JObject [("stack_id", JNumber 3); ("action", JString "stop")]) []
                  eq_refl)
           {| action_stack_id := 3; action_action := ToolStop;
              action_environment_id := None |}).
  - reflexivity.
  - discriminate.
Defined.

Lemma three_records : Forall is_record [stack_web; stack_db; stack_cache].
Proof. repeat constructor; eexists; reflexivity. Defined.

(** The stacks of the environment 1, out of three. *)
Lemma list_stacks_items_witness :
  exists items : list JsValue,
    fst (Tools.listStacks (RT := Node.runtime) (IN := NodeTools.indenter)
           (SC := NodeTools.schemas) (answers (replies true 200 three_stacks)) client
           (JObject [("environment_id", JNumber 1)]) [])
    = Return (Tools.formatResponse (IN := NodeTools.indenter)
                (JObject [("items", JArray items);
                          ("count", JNumber (Z.of_nat (List.length items)))]))
    /\ Forall2 (fun stack item =>
                  own_property "id" item = own_property "Id" stack
                  /\ own_property "name" item = own_property "Name" stack
                  /\ own_property "environment_id" item
                     = own_property "EndpointId" stack)
         [stack_web; stack_cache] items.
Proof.
  apply (list_stacks_items (RT := Node.runtime) (IN := NodeTools.indenter)
           (SC := NodeTools.schemas) (answers (replies true 200 three_stacks)) client
           (JObject [("environment_id", JNumber 1)])
           {| list_environment_id := Some 1 |}
           [stack_web; stack_db; stack_cache] []).
  - reflexivity.
  - reflexivity.
  - exact three_records.
Defined.

(** A name that no stack has: one call, and the answer of the tool. *)
Lemma get_stack_by_name_calls_witness :
  fst (Tools.handleToolCall (RT := Node.runtime) (IN := NodeTools.indenter)
         (SC := NodeTools.schemas) (answers (replies true 200 three_stacks))
         NodeTools.no_other_tool client "get_stack_by_name"
         (JObject [("name", JString "mail")]) [])
  = Return (error_response "Stack not found: mail")
  /\ fetch_calls
       (snd (Tools.handleToolCall (RT := Node.runtime) (IN := NodeTools.indenter)
               (SC := NodeTools.schemas) (answers (replies true 200 three_stacks))
               NodeTools.no_other_tool client "get_stack_by_name"
               (JObject [("name", JString "mail")]) []))
     = [EvFetch "https://portainer.example.com/api/stacks"
          (request_init (RT := Node.runtime) client "GET" JUndefined 0)].
Proof.
  apply (get_stack_by_name_calls (RT := Node.runtime) (IN := NodeTools.indenter)
           (SC := NodeTools.schemas) (answers (replies true 200 three_stacks))
           NodeTools.no_other_tool client (JObject [("name", JString "mail")])
           {| by_name_name := "mail" |} [stack_web; stack_db; stack_cache] []).
  - reflexivity.
  - reflexivity.
  - exact three_records.
Defined.

(** A name that a stack has: the second call asks for the file of that
    stack. *)
Example get_stack_by_name_found :
  fetch_calls
    (snd (Tools.handleToolCall (RT := Node.runtime) (IN := NodeTools.indenter)
            (SC := NodeTools.schemas) (answers (replies true 200 three_stacks))
            NodeTools.no_other_tool client "get_stack_by_name"
            (JObject [("name", JString "db")]) []))
  = [EvFetch "https://portainer.example.com/api/stacks"
       (request_init (RT := Node.runtime) client "GET" JUndefined 0);
     EvFetch "https://portainer.example.com/api/stacks/2/file"
       (request_init (RT := Node.runtime) client "GET" JUndefined 1)].
Proof. reflexivity. Qed.

(** The connection test against a remote that answers 401. *)
Lemma testConnection_failed_call_witness :
  fst (testConnection (RT := Node.runtime) (answers (replies false 401 "")) client [])
  = Return {| test_ok := false; test_environments := JNumber 0;
              test_error := Some "Invalid API key or expired token" |}.
Proof.
  apply (testConnection_failed_call (RT := Node.runtime)
           (answers (replies false 401 "")) client []
           (PortainerClientError "Invalid API key or expired token" "HTTP_401"
              (Some 401))).
  reflexivity.
Defined.

(** The connection test on an empty body and on the body [null]. *)
Lemma testConnection_not_a_collection_witness :
  fst (testConnection (RT := Node.runtime) (answers (replies true 200 "")) client [])
  = Return {| test_ok := true; test_environments := JUndefined; test_error := None |}
  /\ fst (testConnection (RT := Node.runtime) (answers (replies true 200 "null"))
            client [])
     = Return {| test_ok := false; test_environments := JNumber 0;
                 test_error :=
                   Some "TypeError: Cannot read properties of null (reading 'length')" |}.
Proof.
  split.
  - apply (proj1 (testConnection_not_a_collection (RT := Node.runtime)
                    (answers (replies true 200 "")) client []
                    (replies true 200 "") "" eq_refl eq_refl eq_refl)).
    reflexivity.
  - apply (proj2 (testConnection_not_a_collection (RT := Node.runtime)
                    (answers (replies true 200 "null")) client []
                    (replies true 200 "null") "null" eq_refl eq_refl eq_refl)).
    + discriminate.
    + reflexivity.
Defined.

(** The connection test on a collection of three. *)
Example testConnection_counts :
  fst (testConnection (RT := Node.runtime) (answers (replies true 200 three_stacks))
         client [])
  = Return {| test_ok := true; test_environments := JNumber 3; test_error := None |}.
Proof. reflexivity. Qed.

(** The escape [\ud800] of a JSON text is the high surrogate alone, and
    [encodeURIComponent] refuses it, in [pullImage] as well. *)
Example high_surrogate_refused :
  JSON_parse (Runtime := Node.runtime) (json "'\ud800'") = Return (JString high_surrogate)
  /\ encodeURIComponent high_surrogate = Throw uri_malformed
  /\ pullImage (RT := Node.runtime) (answers (replies true 200 "")) writer 1
       ("nginx:" ++ high_surrogate) []
     = (Throw uri_malformed, []).
Proof. repeat split; reflexivity. Qed.

(** A character outside the basic plane, written in four bytes or as its
    two surrogates side by side, is escaped in the same way. *)
Example surrogate_pair_escaped :
  encodeURIComponent
    (string_of_list_ascii (map ascii_of_N [240; 159; 152; 128]%N))
  = Return "%F0%9F%98%80"
  /\ encodeURIComponent
       (string_of_list_ascii (map ascii_of_N [237; 160; 189; 237; 184; 128]%N))
     = Return "%F0%9F%98%80"
  /\ encodeURIComponent "a b/c:d" = Return "a%20b%2Fc%3Ad".
Proof. repeat split; reflexivity. Qed.

End MoreChecks.
